(** * Budget tracker: projects, expenses and the derived budget status

    A shallow embedding of the data layer of the budget-tracking API
    (api/src/models/Project.js, the Expense model and the two routers
    api/src/routes/project.routes.js and api/src/routes/expense.routes.js),
    followed by the properties established about it.

    Conventions of the embedding.
    - In the store and the routers a JavaScript [Number] holding a money
      amount is idealised as an exact rational ([Q]); [NaN] is kept apart
      where the code can produce it ([parseFloat]), and infinite values
      are outside this model.  Results on amounts are stated up to
      [Qeq].  Where a property depends on the value a computation yields
      in the arithmetic of the code, the computation is given on binary64
      numbers (module [Double]).
    - A string is held as the bytes of its UTF-8 encoding.
    - An [ObjectId] is a natural number.  The driver generates the ids;
      the model draws them from a counter kept in the store, which stands
      for that generator and for nothing in the code.
    - A [Date] is an integer number of milliseconds; the instant at which a
      request is served is an input of its handler.
    - [undefined] in a request body is [None]. *)

From Stdlib Require Import List ZArith QArith Qround Qminmax String Ascii Bool Lia
  Permutation Sorted SpecFloat.
Import ListNotations.

Open Scope Q_scope.

(** ** JavaScript numbers *)

Definition Math_round (x : Q) : Z := Qfloor (x + (1 # 2)).

Definition Math_min (a b : Z) : Z := Z.min a b.

Definition Math_max (a b : Q) : Q := Qmax a b.

(** [a > b] on numbers. *)
Definition gt (a b : Q) : bool := negb (Qle_bool a b).

(** Truthiness of a number: everything but zero. *)
Definition truthy (q : Q) : bool := negb (Qeq_bool q 0).

(** [x || 0] for a possibly missing number. *)
Definition or_zero (x : option Q) : Q :=
  match x with
  | Some q => if truthy q then q else 0
  | None => 0
  end.

Definition ObjectId := nat.
Definition Date := Z.

(** ** Values arriving in a request body *)

(** What [parseFloat] makes of a supplied value: a number, or [NaN] when
    the value cannot be read as one.  ([parseFloat] can also answer an
    infinite value, for the text [Infinity]; such bodies are outside the
    model.) *)
Inductive number :=
  | Num (q : Q)
  | NaN.

(** The body carries the supplied value already in that form. *)
Definition parseFloat (v : number) : number := v.

(** [!s] for a possibly missing string: [undefined] and the empty string
    are falsy. *)
Definition falsy_string (s : option string) : bool :=
  match s with
  | None => true
  | Some EmptyString => true
  | Some _ => false
  end.

Definition is_undefined {A} (x : option A) : bool :=
  match x with None => true | Some _ => false end.

(** *** [String.prototype.trim]

    The schema option [trim: true] and the form call it.  It strips, at
    both ends, the white space and the line terminators of the language:
    U+0009 to U+000D, U+0020, U+00A0, U+1680, U+2000 to U+200A, U+2028,
    U+2029, U+202F, U+205F, U+3000 and U+FEFF, here in their UTF-8
    encodings of one, two or three bytes. *)

Definition white1 (a : ascii) : bool :=
  match nat_of_ascii a with
  | 9%nat | 10%nat | 11%nat | 12%nat | 13%nat | 32%nat => true
  | _ => false
  end.

(** U+00A0. *)
Definition white2 (a b : ascii) : bool :=
  Nat.eqb (nat_of_ascii a) 194 && Nat.eqb (nat_of_ascii b) 160.

Definition white3 (a b c : ascii) : bool :=
  let a := nat_of_ascii a in
  let b := nat_of_ascii b in
  let c := nat_of_ascii c in
  (* U+1680 *)
  (Nat.eqb a 225 && Nat.eqb b 154 && Nat.eqb c 128)
  (* U+2000 to U+200A, U+2028, U+2029, U+202F *)
  || (Nat.eqb a 226 && Nat.eqb b 128
      && ((Nat.leb 128 c && Nat.leb c 138) || Nat.eqb c 168 || Nat.eqb c 169
          || Nat.eqb c 175))
  (* U+205F *)
  || (Nat.eqb a 226 && Nat.eqb b 129 && Nat.eqb c 159)
  (* U+3000 *)
  || (Nat.eqb a 227 && Nat.eqb b 128 && Nat.eqb c 128)
  (* U+FEFF *)
  || (Nat.eqb a 239 && Nat.eqb b 187 && Nat.eqb c 191).

(** Dropping the white space at the head of a list of bytes; [w1], [w2]
    and [w3] recognise the encodings of one, two and three bytes. *)
Fixpoint strip (w1 : ascii -> bool) (w2 : ascii -> ascii -> bool)
    (w3 : ascii -> ascii -> ascii -> bool) (l : list ascii) : list ascii :=
  match l with
  | [] => []
  | a :: l1 =>
      if w1 a then strip w1 w2 w3 l1
      else
        match l1 with
        | [] => l
        | b :: l2 =>
            if w2 a b then strip w1 w2 w3 l2
            else
              match l2 with
              | [] => l
              | c :: l3 => if w3 a b c then strip w1 w2 w3 l3 else l
              end
        end
  end.

Definition stripStart : list ascii -> list ascii := strip white1 white2 white3.

(** The same on the reversed bytes, for the end of the string. *)
Definition stripEnd : list ascii -> list ascii :=
  strip white1 (fun b a => white2 a b) (fun c b a => white3 a b c).

Definition trim_bytes (l : list ascii) : list ascii :=
  rev (stripEnd (rev (stripStart l))).

Definition trim (s : string) : string :=
  string_of_list_ascii (trim_bytes (list_ascii_of_string s)).

Definition nonempty (s : string) : bool :=
  match s with EmptyString => false | String _ _ => true end.

(** A date as a request body carries it: a number of milliseconds, or a
    text that the cast reads as an instant.  (Values the cast cannot read,
    among them numbers beyond the range of [Date], are outside the
    model.) *)
Inductive date_value :=
  | Millis (ms : Z)
  | DateString (instant : Z).

(** The cast of the schema type [Date]. *)
Definition cast_date (v : date_value) : Date :=
  match v with
  | Millis ms => ms
  | DateString instant => instant
  end.

(** [v || new Date()], then the cast: [undefined] and the number 0 are
    falsy, a text that reads as a date is not. *)
Definition date_or_now (v : option date_value) (now : Date) : Date :=
  match v with
  | None => now
  | Some (Millis 0) => now
  | Some v => cast_date v
  end.

(** [x !== undefined ? x : d]; also [x || d] where [x] has been tested
    truthy before. *)
Definition or_else {A} (x : option A) (d : A) : A :=
  match x with Some a => a | None => d end.

(** The number a path holds once a valid value has been cast. *)
Definition number_or (v : option number) (d : Q) : Q :=
  match v with Some (Num q) => q | _ => d end.

(** A validator looks at a path only when the path is set. *)
Definition opt_valid {A} (f : A -> bool) (x : option A) : bool :=
  match x with None => true | Some a => f a end.

(** ** The Project model (api/src/models/Project.js) *)

Module Project.

Record t := mk {
  _id : ObjectId;
  name : string;
  description : option string;
  budget : Q;
  startDate : Date;
  endDate : option Date;
  createdBy : ObjectId;
  members : list ObjectId;
  createdAt : Date;
  updatedAt : Date
}.

(** An element of the populated virtual [totalExpenses]: the relation
    selects the amount only. *)
Record AmountDoc := mkAmount {
  exp_id : ObjectId;
  amount : option Q
}.

(** A project document in memory: the stored fields and the virtual
    [totalExpenses], which is [None] until it is populated. *)
Record doc := mkDoc {
  fields : t;
  totalExpenses : option (list AmountDoc)
}.

Record BudgetStatus := mkStatus {
  totalSpent : Q;
  percentage : Z;
  remaining : Q;
  isOverBudget : bool
}.

(** The getter of the virtual [budgetStatus]; [None] is [null]. *)
Definition budgetStatus (this : doc) : option BudgetStatus :=
  match totalExpenses this with
  | None => None
  | Some exps =>
      let total := fold_left (fun sum exp => sum + or_zero (amount exp)) exps 0 in
      let b := budget (fields this) in
      let percentage :=
        if truthy b then Math_min 100 (Math_round ((total / b) * 100)) else 0%Z in
      Some {| totalSpent := total;
              percentage := percentage;
              remaining := if truthy b then Math_max 0 (b - total) else 0;
              isOverBudget := if truthy b then gt total b else false |}
  end.

(** The arguments of [new Project({...})] in the router. *)
Record init := mkInit {
  i_name : option string;
  i_description : option string;
  i_budget : number;
  i_startDate : Date;
  i_endDate : option Date;
  i_createdBy : ObjectId;
  i_members : list ObjectId
}.

(** The [$set] document built by the update handler. *)
Record updates := mkUpdates {
  u_name : option string;
  u_description : option string;
  u_budget : option number;
  u_startDate : option Date;
  u_endDate : option Date;
  u_members : option (list ObjectId)
}.

(** The two update documents the router sends. *)
Inductive update :=
  | Set_ (u : updates)
  | AddToSet_members (userId : ObjectId).

Definition valid_name (s : string) : bool := nonempty (trim s).

(** [required] and [min: 0] on [budget]; a value that is no number is
    refused when it is cast. *)
Definition valid_budget (v : number) : bool :=
  match v with
  | Num q => Qle_bool 0 q
  | NaN => false
  end.

(** Schema validation of a new document. *)
Definition validate (i : init) : bool :=
  match i_name i with
  | Some s => valid_name s
  | None => false
  end
  && valid_budget (i_budget i).

(** Update validators ([runValidators: true]) look at the paths that are
    set and at no other. *)
Definition validate_update (u : update) : bool :=
  match u with
  | Set_ u => opt_valid valid_name (u_name u) && opt_valid valid_budget (u_budget u)
  | AddToSet_members _ => true
  end.

(** [$addToSet]: append unless already present. *)
Definition addToSet (m : ObjectId) (l : list ObjectId) : list ObjectId :=
  if existsb (Nat.eqb m) l then l else l ++ [m].

(** The stored document after an update served at [now]; the schema
    option [timestamps] refreshes [updatedAt]. *)
Definition apply_update (u : update) (now : Date) (p : t) : t :=
  match u with
  | Set_ u =>
      {| _id := _id p;
         name := match u_name u with Some s => trim s | None => name p end;
         description :=
           match u_description u with
           | Some s => Some (trim s)
           | None => description p
           end;
         budget := number_or (u_budget u) (budget p);
         startDate := or_else (u_startDate u) (startDate p);
         endDate :=
           match u_endDate u with Some d => Some d | None => endDate p end;
         createdBy := createdBy p;
         members := or_else (u_members u) (members p);
         createdAt := createdAt p;
         updatedAt := now |}
  | AddToSet_members m =>
      {| _id := _id p;
         name := name p;
         description := description p;
         budget := budget p;
         startDate := startDate p;
         endDate := endDate p;
         createdBy := createdBy p;
         members := addToSet m (members p);
         createdAt := createdAt p;
         updatedAt := now |}
  end.

(** [{ $set: { updatedAt: now } }], the update of the Expense pre-save
    hook. *)
Definition touch (now : Date) (p : t) : t :=
  {| _id := _id p;
     name := name p;
     description := description p;
     budget := budget p;
     startDate := startDate p;
     endDate := endDate p;
     createdBy := createdBy p;
     members := members p;
     createdAt := createdAt p;
     updatedAt := now |}.

End Project.

(** ** The budget status in the arithmetic of the code

    A JavaScript [Number] is a binary64 number of IEEE 754.  Its
    operations, rounding to nearest with ties to even, are those the
    Standard Library specifies ([SpecFloat]), at precision 53 and maximal
    exponent 1024. *)

Module Double.

Definition double := spec_float.

Definition prec : Z := 53.
Definition emax : Z := 1024.

(** The number an integer literal denotes. *)
Definition of_Z (z : Z) : double := binary_normalize prec emax z 0 false.

Definition zero : double := S754_zero false.

Definition add : double -> double -> double := SFadd prec emax.
Definition sub : double -> double -> double := SFsub prec emax.
Definition mul : double -> double -> double := SFmul prec emax.
Definition div : double -> double -> double := SFdiv prec emax.

(** Truthiness: everything but [+0], [-0] and [NaN]. *)
Definition truthy (x : double) : bool :=
  match x with
  | S754_zero _ | S754_nan => false
  | _ => true
  end.

(** [a > b]; [false] when either is [NaN]. *)
Definition gt (a b : double) : bool := SFltb b a.

(** [Math.min] and [Math.max]: [NaN] when either argument is, and [-0]
    below [+0]. *)
Definition Math_min (a b : double) : double :=
  match a, b with
  | S754_zero sa, S754_zero sb => S754_zero (sa || sb)
  | _, _ =>
      match SFcompare a b with
      | None => S754_nan
      | Some Gt => b
      | Some _ => a
      end
  end.

Definition Math_max (a b : double) : double :=
  match a, b with
  | S754_zero sa, S754_zero sb => S754_zero (sa && sb)
  | _, _ =>
      match SFcompare a b with
      | None => S754_nan
      | Some Lt => b
      | Some _ => a
      end
  end.

(** [Math.round]: the nearest integer, a tie going up; an integer, a
    zero, an infinity and [NaN] are returned as they are, and a result of
    zero keeps the sign of the argument.  A number [m * 2^e] with [e < 0]
    is rounded exactly, as [floor ((2 m + 2^-e) / 2^(1 - e))]. *)
Definition Math_round (x : double) : double :=
  match x with
  | S754_finite s m e =>
      if (0 <=? e)%Z then x
      else
        let d := Z.pow 2 (- e) in
        let n := Z.div (2 * cond_Zopp s (Zpos m) + d) (2 * d) in
        if (n =? 0)%Z then S754_zero s else of_Z n
  | _ => x
  end.

(** [x || 0] for a possibly missing number. *)
Definition or_zero (x : option double) : double :=
  match x with
  | Some v => if truthy v then v else zero
  | None => zero
  end.

(** What the getter reads of the document: the path [budget] and the
    amounts of the populated virtual [totalExpenses], [None] until it is
    populated. *)
Record doc := mkDoc {
  budget : double;
  totalExpenses : option (list (option double))
}.

Record BudgetStatus := mkStatus {
  totalSpent : double;
  percentage : double;
  remaining : double;
  isOverBudget : bool
}.

(** The getter of the virtual [budgetStatus] of api/src/models/Project.js
    in the arithmetic in which it runs; [None] is [null]. *)
Definition budgetStatus (this : doc) : option BudgetStatus :=
  match totalExpenses this with
  | None => None
  | Some exps =>
      let total := fold_left (fun sum amount => add sum (or_zero amount)) exps zero in
      let percentage :=
        if truthy (budget this)
        then Math_min (of_Z 100) (Math_round (mul (div total (budget this)) (of_Z 100)))
        else zero in
      Some {| totalSpent := total;
              percentage := percentage;
              remaining :=
                if truthy (budget this) then Math_max zero (sub (budget this) total)
                else zero;
              isOverBudget := if truthy (budget this) then gt total (budget this) else false |}
  end.

(** The sum as the loop forms it, from the left. *)
Definition sum (xs : list double) : double := fold_left add xs zero.

(** Not [NaN], and with the sign bit clear. *)
Definition nonnegative (x : double) : Prop :=
  match x with
  | S754_zero false | S754_infinity false | S754_finite false _ _ => True
  | _ => False
  end.

(** Neither an infinity nor [NaN]. *)
Definition finite (x : double) : bool :=
  match x with
  | S754_zero _ | S754_finite _ _ _ => true
  | _ => false
  end.

End Double.

(** ** The Expense model *)

Module Expense.

Record t := mk {
  _id : ObjectId;
  description : string;
  amount : Q;
  category : string;
  date : Date;
  project : ObjectId;
  createdBy : ObjectId;
  createdAt : Date;
  updatedAt : Date
}.

(** The [enum] of the [category] path. *)
Definition categories : list string :=
  ["marketing"; "development"; "design"; "operations"; "hr"; "other"]%string.

(** The [min] of the [amount] path. *)
Definition min_amount : Q := 1 # 100.

(** The arguments of [new Expense({...})] in the router. *)
Record init := mkInit {
  i_description : string;
  i_amount : number;
  i_category : string;
  i_date : Date;
  i_project : ObjectId;
  i_createdBy : ObjectId
}.

(** The [$set] document built by the update handler. *)
Record updates := mkUpdates {
  u_description : option string;
  u_amount : option number;
  u_category : option string;
  u_date : option Date
}.

Definition valid_description (s : string) : bool := nonempty (trim s).

Definition valid_amount (v : number) : bool :=
  match v with
  | Num q => Qle_bool min_amount q
  | NaN => false
  end.

Definition valid_category (c : string) : bool :=
  existsb (String.eqb c) categories.

(** Schema validation of a new document. *)
Definition validate (i : init) : bool :=
  valid_description (i_description i)
  && valid_amount (i_amount i)
  && valid_category (i_category i).

(** Update validators ([runValidators: true]) look at the paths that are
    set and at no other. *)
Definition validate_updates (u : updates) : bool :=
  opt_valid valid_description (u_description u)
  && opt_valid valid_amount (u_amount u)
  && opt_valid valid_category (u_category u).

Definition apply_updates (u : updates) (now : Date) (e : t) : t :=
  {| _id := _id e;
     description :=
       match u_description u with Some s => trim s | None => description e end;
     amount := number_or (u_amount u) (amount e);
     category :=
       match u_category u with Some c => c | None => category e end;
     date := match u_date u with Some d => d | None => date e end;
     project := project e;
     createdBy := createdBy e;
     createdAt := createdAt e;
     updatedAt := now |}.

(** An expense whose [project] reference has been populated: [None] is
    the [null] left when no such project is stored. *)
Record populated := mkPopulated {
  fields : t;
  project_doc : option Project.t
}.

(** A document of the [$group] stage: the group key is stored under
    [_id]. *)
Record group := mkGroup {
  g_id : string;
  total : Q;
  count : nat
}.

(** [{ _id: '$category', total: { $sum: '$amount' }, count: { $sum: 1 } }]:
    the expense joins the group of its category, or opens it. *)
Fixpoint add_to_groups (e : t) (gs : list group) : list group :=
  match gs with
  | [] => [ {| g_id := category e; total := 0 + amount e; count := 1 |} ]
  | g :: gs' =>
      if String.eqb (g_id g) (category e)
      then {| g_id := g_id g; total := total g + amount e; count := S (count g) |} :: gs'
      else g :: add_to_groups e gs'
  end.

Definition group_by_category (es : list t) : list group :=
  fold_left (fun gs e => add_to_groups e gs) es [].

(** [{ total: -1 }]. *)
Definition total_desc (g h : group) : bool := Qle_bool (total h) (total g).

(** The keys and values of a group document as it is sent. *)
Inductive json :=
  | JString (s : string)
  | JNumber (q : Q).

Definition group_toJSON (g : group) : list (string * json) :=
  [ ("_id", JString (g_id g));
    ("total", JNumber (total g));
    ("count", JNumber (inject_Z (Z.of_nat (count g)))) ]%string.

End Expense.

(** ** The database and the asynchronous calls on it *)

Record Store := mkStore {
  projects : list Project.t;
  expenses : list Expense.t;
  nextId : ObjectId
}.

Definition empty_store : Store :=
  {| projects := []; expenses := []; nextId := 1%nat |}.

(** What a rejected promise carries.  A failed cast is reported with the
    failed validations. *)
Inductive Error :=
  | ValidationError
  | TypeError.

Inductive outcome (A : Type) :=
  | Resolved (a : A)
  | Rejected (e : Error).
Arguments Resolved {A} a.
Arguments Rejected {A} e.

(** An awaited call: it may change the store, and it resolves or rejects.
    Changes made before a rejection stay (there is no transaction). *)
Definition Async (A : Type) : Type := Store -> outcome A * Store.

Definition ret {A} (a : A) : Async A := fun s => (Resolved a, s).

Definition throw {A} (e : Error) : Async A := fun s => (Rejected e, s).

Definition bind {A B} (m : Async A) (k : A -> Async B) : Async B :=
  fun s =>
    match m s with
    | (Resolved a, s') => k a s'
    | (Rejected e, s') => (Rejected e, s')
    end.

Notation "x <- m ;; k" := (bind m (fun x => k))
  (at level 61, m at next level, right associativity).

(** [try { body } catch (error) { return handler }]. *)
Definition try_catch {A} (body : Async A) (handler : Error -> A) : Store -> A * Store :=
  fun s =>
    match body s with
    | (Resolved a, s') => (a, s')
    | (Rejected e, s') => (handler e, s')
    end.

Fixpoint mapM {A B} (f : A -> Async B) (l : list A) : Async (list B) :=
  match l with
  | [] => ret []
  | x :: l' => y <- f x ;; ys <- mapM f l' ;; ret (y :: ys)
  end.

(** *** Generic collection helpers *)

Fixpoint update_first {A} (f : A -> bool) (g : A -> A) (l : list A) : list A :=
  match l with
  | [] => []
  | x :: l' => if f x then g x :: l' else x :: update_first f g l'
  end.

Fixpoint remove_first {A} (f : A -> bool) (l : list A) : list A :=
  match l with
  | [] => []
  | x :: l' => if f x then l' else x :: remove_first f l'
  end.

Fixpoint insert_by {A} (before : A -> A -> bool) (x : A) (l : list A) : list A :=
  match l with
  | [] => [x]
  | y :: l' => if before x y then x :: l else y :: insert_by before x l'
  end.

(** [.sort(...)] and [$sort]: the order is the one the key gives; ties keep
    the order of the collection. *)
Definition sort_by {A} (before : A -> A -> bool) (l : list A) : list A :=
  fold_right (insert_by before) [] l.

Definition new_ObjectId : Async ObjectId :=
  fun s =>
    (Resolved (nextId s),
     {| projects := projects s; expenses := expenses s; nextId := S (nextId s) |}).

Definition set_projects (ps : list Project.t) (s : Store) : Store :=
  {| projects := ps; expenses := expenses s; nextId := nextId s |}.

Definition set_expenses (es : list Expense.t) (s : Store) : Store :=
  {| projects := projects s; expenses := es; nextId := nextId s |}.

(** *** [Project] queries *)

Definition has_id (id : ObjectId) (p : Project.t) : bool :=
  Nat.eqb (Project._id p) id.

Definition created_by (user : ObjectId) (p : Project.t) : bool :=
  Nat.eqb (Project.createdBy p) user.

(** [{ members: user }]: the array holds the value. *)
Definition has_member (user : ObjectId) (p : Project.t) : bool :=
  existsb (Nat.eqb user) (Project.members p).

(** [{ members: { $ne: user } }]. *)
Definition lacks_member (user : ObjectId) (p : Project.t) : bool :=
  negb (has_member user p).

(** [$or: [{ createdBy: user }, { members: user }]]. *)
Definition accessible (user : ObjectId) (p : Project.t) : bool :=
  created_by user p || has_member user p.

Definition Project_find (filter : Project.t -> bool) : Async (list Project.t) :=
  fun s => (Resolved (List.filter filter (projects s)), s).

Definition Project_findOne (filter : Project.t -> bool) : Async (option Project.t) :=
  fun s => (Resolved (List.find filter (projects s)), s).

Definition Project_findById (id : ObjectId) : Async (option Project.t) :=
  Project_findOne (has_id id).

(** [new Project(init)] followed by [save()], served at [now]. *)
Definition Project_save (id : ObjectId) (i : Project.init) (now : Date) : Async unit :=
  fun s =>
    if Project.validate i then
      (Resolved tt,
       set_projects
         (projects s ++
          [ {| Project._id := id;
               Project.name := trim (or_else (Project.i_name i) EmptyString);
               Project.description := option_map trim (Project.i_description i);
               Project.budget := number_or (Some (Project.i_budget i)) 0;
               Project.startDate := Project.i_startDate i;
               Project.endDate := Project.i_endDate i;
               Project.createdBy := Project.i_createdBy i;
               Project.members := Project.i_members i;
               Project.createdAt := now;
               Project.updatedAt := now |} ]) s)
    else (Rejected ValidationError, s).

(** [findOneAndUpdate(filter, update, { new: true, runValidators: true })]. *)
Definition Project_findOneAndUpdate (filter : Project.t -> bool) (u : Project.update)
    (now : Date) : Async (option Project.t) :=
  fun s =>
    if Project.validate_update u then
      (Resolved (option_map (Project.apply_update u now) (List.find filter (projects s))),
       set_projects (update_first filter (Project.apply_update u now) (projects s)) s)
    else (Rejected ValidationError, s).

Definition Project_findOneAndDelete (filter : Project.t -> bool) : Async (option Project.t) :=
  fun s =>
    (Resolved (List.find filter (projects s)),
     set_projects (remove_first filter (projects s)) s).

(** [updateOne({ _id: id }, { $set: { updatedAt: now } })]. *)
Definition Project_touch (id : ObjectId) (now : Date) : Async unit :=
  fun s =>
    (Resolved tt, set_projects (update_first (has_id id) (Project.touch now) (projects s)) s).

Definition of_project (id : ObjectId) (e : Expense.t) : bool :=
  Nat.eqb (Expense.project e) id.

(** [project.populate('totalExpenses')]: the expenses whose [project] is
    the project's [_id], with their amount. *)
Definition populate_totalExpenses (p : Project.t) : Async Project.doc :=
  fun s =>
    (Resolved
       {| Project.fields := p;
          Project.totalExpenses :=
            Some (map (fun e => Project.mkAmount (Expense._id e) (Some (Expense.amount e)))
                      (List.filter (of_project (Project._id p)) (expenses s))) |},
     s).

(** A document that comes from a query and has no relation populated. *)
Definition unpopulated (p : Project.t) : Project.doc :=
  {| Project.fields := p; Project.totalExpenses := None |}.

(** *** [Expense] queries *)

Definition expense_id (id : ObjectId) (e : Expense.t) : bool :=
  Nat.eqb (Expense._id e) id.

Definition Expense_find (filter : Expense.t -> bool) : Async (list Expense.t) :=
  fun s => (Resolved (List.filter filter (expenses s)), s).

Definition Expense_findById (id : ObjectId) : Async (option Expense.t) :=
  fun s => (Resolved (List.find (expense_id id) (expenses s)), s).

(** [.populate('project')]. *)
Definition populate_project (e : Expense.t) : Async Expense.populated :=
  fun s =>
    (Resolved
       {| Expense.fields := e;
          Expense.project_doc := List.find (has_id (Expense.project e)) (projects s) |},
     s).

Definition Expense_insert (e : Expense.t) : Async Expense.t :=
  fun s => (Resolved e, set_expenses (expenses s ++ [e]) s).

(** [new Expense(init)] followed by [save()], served at [now]: validation
    comes first, then the [pre('save')] hook of the schema, which sets
    [updatedAt] of the parent project, then the insertion. *)
Definition Expense_save (id : ObjectId) (i : Expense.init) (now : Date) : Async Expense.t :=
  if Expense.validate i then
    _ <- Project_touch (Expense.i_project i) now ;;
    Expense_insert
      {| Expense._id := id;
         Expense.description := trim (Expense.i_description i);
         Expense.amount := number_or (Some (Expense.i_amount i)) 0;
         Expense.category := Expense.i_category i;
         Expense.date := Expense.i_date i;
         Expense.project := Expense.i_project i;
         Expense.createdBy := Expense.i_createdBy i;
         Expense.createdAt := now;
         Expense.updatedAt := now |}
  else throw ValidationError.

(** [findByIdAndUpdate(id, { $set: u }, { new: true, runValidators: true })]:
    a query, so the [save] hook does not run. *)
Definition Expense_findByIdAndUpdate (id : ObjectId) (u : Expense.updates) (now : Date)
    : Async (option Expense.t) :=
  fun s =>
    if Expense.validate_updates u then
      (Resolved (option_map (Expense.apply_updates u now)
                            (List.find (expense_id id) (expenses s))),
       set_expenses (update_first (expense_id id) (Expense.apply_updates u now) (expenses s)) s)
    else (Rejected ValidationError, s).

Definition Expense_findByIdAndDelete (id : ObjectId) : Async (option Expense.t) :=
  fun s =>
    (Resolved (List.find (expense_id id) (expenses s)),
     set_expenses (remove_first (expense_id id) (expenses s)) s).

Definition Expense_deleteMany (filter : Expense.t -> bool) : Async unit :=
  fun s =>
    (Resolved tt, set_expenses (List.filter (fun e => negb (filter e)) (expenses s)) s).

(** The pipeline [$match { project }], [$group] by category, [$sort] by
    total descending. *)
Definition Expense_aggregate (project : ObjectId) : Async (list Expense.group) :=
  fun s =>
    (Resolved
       (sort_by Expense.total_desc
          (Expense.group_by_category (List.filter (of_project project) (expenses s)))),
     s).

(** ** Responses *)

Inductive Data :=
  | AProject (p : Project.doc)
  | Projects (ps : list Project.doc)
  | AnExpense (e : Expense.t)
  | Expenses (es : list Expense.t)
  | Deleted (deleted : bool)
  | Summary (groups : list Expense.group).

(** [res.status(status).json({ ok, data })] or [{ ok, error }]. *)
Record Response := mkResponse {
  status : nat;
  ok : bool;
  data : option Data;
  error : option string
}.

Definition json_data (st : nat) (d : Data) : Response :=
  {| status := st; ok := true; data := Some d; error := None |}.

Definition json_error (st : nat) (msg : string) : Response :=
  {| status := st; ok := false; data := None; error := Some msg |}.

(** ** The project router (api/src/routes/project.routes.js)

    Every handler takes the authenticated caller ([req.user._id]) and the
    instant at which it is served.  Populating [createdBy] and [members]
    with the users' name and email replaces references by user documents
    and is left out: users are not part of the model. *)

Module project_routes.

Record CreateBody := mkCreateBody {
  name : option string;
  description : option string;
  budget : option number;
  startDate : option date_value;
  endDate : option date_value
}.

Record UpdateBody := mkUpdateBody {
  u_name : option string;
  u_description : option string;
  u_budget : option number;
  u_startDate : option date_value;
  u_endDate : option date_value;
  (** [None] when the field is absent or is not an array. *)
  u_members : option (list ObjectId)
}.

Record MemberBody := mkMemberBody {
  userId : option ObjectId
}.

(** [{ updatedAt: -1 }]. *)
Definition updatedAt_desc (p q : Project.t) : bool :=
  (Project.updatedAt q <=? Project.updatedAt p)%Z.

(** GET / *)
Definition list_projects (user : ObjectId) : Store -> Response * Store :=
  try_catch
    (projects <- Project_find (accessible user) ;;
     populatedProjects <- mapM populate_totalExpenses (sort_by updatedAt_desc projects) ;;
     ret (json_data 200 (Projects populatedProjects)))
    (fun _ => json_error 500 "Failed to fetch projects").

(** POST / *)
Definition create_project (user : ObjectId) (now : Date) (body : CreateBody)
    : Store -> Response * Store :=
  try_catch
    (if falsy_string (name body) || is_undefined (budget body) then
       ret (json_error 400 "Name and budget are required")
     else
       id <- new_ObjectId ;;
       _ <- Project_save id
              {| Project.i_name := name body;
                 Project.i_description := description body;
                 Project.i_budget :=
                   match budget body with Some v => parseFloat v | None => NaN end;
                 Project.i_startDate := date_or_now (startDate body) now;
                 Project.i_endDate := option_map cast_date (endDate body);
                 Project.i_createdBy := user;
                 Project.i_members := [user] |}
              now ;;
       populatedProject <- Project_findById id ;;
       ret {| status := 201; ok := true;
              data := option_map (fun p => AProject (unpopulated p)) populatedProject;
              error := None |})
    (fun _ => json_error 500 "Failed to create project").

(** GET /:id *)
Definition get_project (user : ObjectId) (id : ObjectId) : Store -> Response * Store :=
  try_catch
    (project <- Project_findOne (fun p => has_id id p && accessible user p) ;;
     match project with
     | None => ret (json_error 404 "Project not found")
     | Some project =>
         populatedProject <- populate_totalExpenses project ;;
         ret (json_data 200 (AProject populatedProject))
     end)
    (fun _ => json_error 500 "Failed to fetch project").

(** The members sent with an update, after the owner has been pushed.
    [includes] is [Array.prototype.includes] at the caller's id. *)
Definition with_creator (includes : list ObjectId -> ObjectId -> bool)
    (user : ObjectId) (members : list ObjectId) : list ObjectId :=
  if negb (includes members user) then members ++ [user] else members.

(** PUT /:id *)
Definition update_project (includes : list ObjectId -> ObjectId -> bool)
    (user : ObjectId) (now : Date) (id : ObjectId) (body : UpdateBody)
    : Store -> Response * Store :=
  try_catch
    (let updates :=
       {| Project.u_name := u_name body;
          Project.u_description := u_description body;
          Project.u_budget := option_map parseFloat (u_budget body);
          Project.u_startDate := option_map cast_date (u_startDate body);
          Project.u_endDate := option_map cast_date (u_endDate body);
          Project.u_members := option_map (with_creator includes user) (u_members body) |} in
     project <- Project_findOneAndUpdate
                  (fun p => has_id id p && created_by user p)
                  (Project.Set_ updates) now ;;
     match project with
     | None => ret (json_error 404 "Project not found or not authorized")
     | Some project => ret (json_data 200 (AProject (unpopulated project)))
     end)
    (fun _ => json_error 500 "Failed to update project").

(** DELETE /:id *)
Definition delete_project (user : ObjectId) (id : ObjectId) : Store -> Response * Store :=
  try_catch
    (project <- Project_findOneAndDelete (fun p => has_id id p && created_by user p) ;;
     match project with
     | None => ret (json_error 404 "Project not found or not authorized")
     | Some project =>
         _ <- Expense_deleteMany (of_project (Project._id project)) ;;
         ret (json_data 200 (Deleted true))
     end)
    (fun _ => json_error 500 "Failed to delete project").

(** POST /:id/members *)
Definition add_member (user : ObjectId) (now : Date) (id : ObjectId) (body : MemberBody)
    : Store -> Response * Store :=
  try_catch
    (match userId body with
     | None => ret (json_error 400 "User ID is required")
     | Some userId =>
         project <- Project_findOneAndUpdate
                      (fun p => has_id id p && created_by user p && lacks_member userId p)
                      (Project.AddToSet_members userId) now ;;
         match project with
         | None =>
             ret (json_error 404
                    "Project not found, not authorized, or user already a member")
         | Some project => ret (json_data 200 (AProject (unpopulated project)))
         end
     end)
    (fun _ => json_error 500 "Failed to add member to project").

End project_routes.

(** ** The expense router (api/src/routes/expense.routes.js) *)

Module expense_routes.

Record CreateBody := mkCreateBody {
  description : option string;
  amount : option number;
  category : option string;
  date : option date_value;
  projectId : option ObjectId
}.

Record UpdateBody := mkUpdateBody {
  u_description : option string;
  u_amount : option number;
  u_category : option string;
  u_date : option date_value
}.

(** [{ date: -1, createdAt: -1 }]. *)
Definition date_desc (e f : Expense.t) : bool :=
  (Expense.date f <? Expense.date e)%Z
  || ((Expense.date f =? Expense.date e)%Z
      && (Expense.createdAt f <=? Expense.createdAt e)%Z).

(** GET /project/:projectId *)
Definition list_expenses (user : ObjectId) (projectId : ObjectId) : Store -> Response * Store :=
  try_catch
    (project <- Project_findOne (fun p => has_id projectId p && accessible user p) ;;
     match project with
     | None => ret (json_error 404 "Project not found or access denied")
     | Some _ =>
         expenses <- Expense_find (of_project projectId) ;;
         ret (json_data 200 (Expenses (sort_by date_desc expenses)))
     end)
    (fun _ => json_error 500 "Failed to fetch expenses").

(** POST / *)
Definition create_expense (user : ObjectId) (now : Date) (body : CreateBody)
    : Store -> Response * Store :=
  try_catch
    (if falsy_string (description body) || is_undefined (amount body)
        || falsy_string (category body) || is_undefined (projectId body)
     then
       ret (json_error 400 "Description, amount, category, and project ID are required")
     else
       let projectId := or_else (projectId body) 0%nat in
       project <- Project_findOne (fun p => has_id projectId p && accessible user p) ;;
       match project with
       | None => ret (json_error 404 "Project not found or access denied")
       | Some _ =>
           id <- new_ObjectId ;;
           expense <- Expense_save id
                        {| Expense.i_description :=
                             or_else (description body) EmptyString;
                           Expense.i_amount :=
                             match amount body with Some v => parseFloat v | None => NaN end;
                           Expense.i_category :=
                             or_else (category body) EmptyString;
                           Expense.i_date := date_or_now (date body) now;
                           Expense.i_project := projectId;
                           Expense.i_createdBy := user |}
                        now ;;
           ret (json_data 201 (AnExpense expense))
       end)
    (fun _ => json_error 500 "Failed to create expense").

(** The permission test shared by update and delete: the caller is
    neither the creator of the expense nor the creator of its project.
    Reading [createdBy] of a [null] project throws. *)
Definition forbidden (user : ObjectId) (expense : Expense.populated) : Async bool :=
  if negb (Nat.eqb (Expense.createdBy (Expense.fields expense)) user) then
    match Expense.project_doc expense with
    | Some project => ret (negb (Nat.eqb (Project.createdBy project) user))
    | None => throw TypeError
    end
  else ret false.

(** PUT /:id *)
Definition update_expense (user : ObjectId) (now : Date) (id : ObjectId) (body : UpdateBody)
    : Store -> Response * Store :=
  try_catch
    (let updates :=
       {| Expense.u_description := u_description body;
          Expense.u_amount := option_map parseFloat (u_amount body);
          Expense.u_category := u_category body;
          Expense.u_date := option_map cast_date (u_date body) |} in
     expense <- Expense_findById id ;;
     match expense with
     | None => ret (json_error 404 "Expense not found")
     | Some expense =>
         expense <- populate_project expense ;;
         denied <- forbidden user expense ;;
         if denied then ret (json_error 403 "Not authorized to update this expense")
         else
           updatedExpense <- Expense_findByIdAndUpdate id updates now ;;
           ret {| status := 200; ok := true;
                  data := option_map AnExpense updatedExpense;
                  error := None |}
     end)
    (fun _ => json_error 500 "Failed to update expense").

(** DELETE /:id *)
Definition delete_expense (user : ObjectId) (id : ObjectId) : Store -> Response * Store :=
  try_catch
    (expense <- Expense_findById id ;;
     match expense with
     | None => ret (json_error 404 "Expense not found")
     | Some expense =>
         expense <- populate_project expense ;;
         denied <- forbidden user expense ;;
         if denied then ret (json_error 403 "Not authorized to delete this expense")
         else
           _ <- Expense_findByIdAndDelete id ;;
           ret (json_data 200 (Deleted true))
     end)
    (fun _ => json_error 500 "Failed to delete expense").

(** GET /summary/project/:projectId *)
Definition summary (user : ObjectId) (projectId : ObjectId) : Store -> Response * Store :=
  try_catch
    (project <- Project_findOne (fun p => has_id projectId p && accessible user p) ;;
     match project with
     | None => ret (json_error 404 "Project not found or access denied")
     | Some project =>
         summary <- Expense_aggregate (Project._id project) ;;
         ret (json_data 200 (Summary summary))
     end)
    (fun _ => json_error 500 "Failed to fetch expense summary").

End expense_routes.

(** ** Requests and the states they lead to (api/src/routes/index.js) *)

Inductive request :=
  | GET_projects
  | POST_projects (body : project_routes.CreateBody)
  | GET_project (id : ObjectId)
  | PUT_project (id : ObjectId) (body : project_routes.UpdateBody)
  | DELETE_project (id : ObjectId)
  | POST_project_members (id : ObjectId) (body : project_routes.MemberBody)
  | GET_expenses_project (projectId : ObjectId)
  | POST_expenses (body : expense_routes.CreateBody)
  | PUT_expense (id : ObjectId) (body : expense_routes.UpdateBody)
  | DELETE_expense (id : ObjectId)
  | GET_expenses_summary (projectId : ObjectId).

Definition handle (includes : list ObjectId -> ObjectId -> bool)
    (user : ObjectId) (now : Date) (r : request) : Store -> Response * Store :=
  match r with
  | GET_projects => project_routes.list_projects user
  | POST_projects body => project_routes.create_project user now body
  | GET_project id => project_routes.get_project user id
  | PUT_project id body => project_routes.update_project includes user now id body
  | DELETE_project id => project_routes.delete_project user id
  | POST_project_members id body => project_routes.add_member user now id body
  | GET_expenses_project projectId => expense_routes.list_expenses user projectId
  | POST_expenses body => expense_routes.create_expense user now body
  | PUT_expense id body => expense_routes.update_expense user now id body
  | DELETE_expense id => expense_routes.delete_expense user id
  | GET_expenses_summary projectId => expense_routes.summary user projectId
  end.

(** The stores the API can be in: the empty database, and what any request
    of any caller at any instant makes of such a store. *)
Inductive reachable (includes : list ObjectId -> ObjectId -> bool) : Store -> Prop :=
  | reachable_empty : reachable includes empty_store
  | reachable_step s user now r :
      reachable includes s ->
      reachable includes (snd (handle includes user now r s)).

(** [Array.prototype.includes] answers [true] only for a value the array
    holds.  (Ids read from a JSON body are strings and the caller's id is
    an [ObjectId], so the answer can be [false] for an owner who is
    listed.) *)
Definition includes_sound (includes : list ObjectId -> ObjectId -> bool) : Prop :=
  forall l u, includes l u = true -> In u l.

(** The comparison by value. *)
Definition includes_eq (l : list ObjectId) (u : ObjectId) : bool :=
  existsb (Nat.eqb u) l.

(** The comparison of a string with an object, which never holds. *)
Definition includes_never (l : list ObjectId) (u : ObjectId) : bool := false.

(** ** The specification side, and stores used as examples *)

(** The sum of a list of amounts, and the percentage as the
    specification words it, on exact numbers. *)
Definition sum_amounts (xs : list Q) : Q := fold_right Qplus 0 xs.

Definition spec_percentage (b total : Q) : Z :=
  if Qeq_bool b 0 then 0%Z else Math_round (Qmin 100 (total / b * 100)).

(** What one populated expense adds to the total. *)
Definition contribution (exp : Project.AmountDoc) : Q :=
  match Project.amount exp with
  | Some q => q
  | None => 0
  end.

(** The project of the scenarios: a budget of 1000. *)
Definition scenario_project : Project.t :=
  {| Project._id := 1%nat; Project.name := "Launch"%string;
     Project.description := None; Project.budget := 1000;
     Project.startDate := 0%Z; Project.endDate := None;
     Project.createdBy := 7%nat; Project.members := [7%nat];
     Project.createdAt := 0%Z; Project.updatedAt := 0%Z |}.

Definition partial_doc : Project.doc :=
  {| Project.fields := scenario_project;
     Project.totalExpenses :=
       Some [Project.mkAmount 2%nat (Some 600); Project.mkAmount 3%nat None;
             Project.mkAmount 4%nat (Some 0)] |}.

Definition project_body (name : string) (budget : Q) : project_routes.CreateBody :=
  {| project_routes.name := Some name;
     project_routes.description := None;
     project_routes.budget := Some (Num budget);
     project_routes.startDate := None;
     project_routes.endDate := None |}.

Definition expense_body (amount : Q) (category : string) (projectId : ObjectId)
    : expense_routes.CreateBody :=
  {| expense_routes.description := Some "item"%string;
     expense_routes.amount := Some (Num amount);
     expense_routes.category := Some category;
     expense_routes.date := None;
     expense_routes.projectId := Some projectId |}.

(** User 7 has created a project with a budget of 1000 at instant 10. *)
Definition one_project : Store :=
  snd (project_routes.create_project 7%nat 10%Z (project_body "P" 1000) empty_store).

Definition one_expense : Store :=
  snd (expense_routes.create_expense 7%nat 20%Z (expense_body 600 "design" 1%nat) one_project).

Definition expense_updates (body : expense_routes.UpdateBody) : Expense.updates :=
  {| Expense.u_description := expense_routes.u_description body;
     Expense.u_amount := option_map parseFloat (expense_routes.u_amount body);
     Expense.u_category := expense_routes.u_category body;
     Expense.u_date := option_map cast_date (expense_routes.u_date body) |}.

Definition amount_update (q : Q) : expense_routes.UpdateBody :=
  {| expense_routes.u_description := None;
     expense_routes.u_amount := Some (Num q);
     expense_routes.u_category := None;
     expense_routes.u_date := None |}.

(** Owner 7 adds users 8 and 9 to the project; user 8 logs an expense. *)
Definition team_store : Store :=
  let s1 := snd (project_routes.add_member 7%nat 11%Z 1%nat
                   (project_routes.mkMemberBody (Some 8%nat)) one_project) in
  let s2 := snd (project_routes.add_member 7%nat 12%Z 1%nat
                   (project_routes.mkMemberBody (Some 9%nat)) s1) in
  snd (expense_routes.create_expense 8%nat 20%Z (expense_body 250 "hr" 1%nat) s2).

Definition owner_is_member (p : Project.t) : Prop :=
  In (Project.createdBy p) (Project.members p).

Definition owners_are_members (s : Store) : Prop :=
  forall p, In p (projects s) -> owner_is_member p.

Definition members_update (l : list ObjectId) : project_routes.UpdateBody :=
  {| project_routes.u_name := None;
     project_routes.u_description := None;
     project_routes.u_budget := None;
     project_routes.u_startDate := None;
     project_routes.u_endDate := None;
     project_routes.u_members := Some l |}.

(** The owner replaces the list of members by one that leaves the owner
    out. *)
Definition reshuffled_store : Store :=
  snd (project_routes.update_project includes_eq 7%nat 30%Z 1%nat (members_update [8%nat])
         team_store).

Definition reshuffled_project : Project.t :=
  {| Project._id := 1%nat; Project.name := "P"%string;
     Project.description := None; Project.budget := 1000;
     Project.startDate := 10%Z; Project.endDate := None;
     Project.createdBy := 7%nat; Project.members := [8%nat; 7%nat];
     Project.createdAt := 10%Z; Project.updatedAt := 30%Z |}.

Definition total_ge (g h : Expense.group) : Prop := Expense.total h <= Expense.total g.

Definition in_category (c : string) (e : Expense.t) : bool :=
  String.eqb (Expense.category e) c.

Definition category_total (c : string) (es : list Expense.t) : Q :=
  sum_amounts (map Expense.amount (List.filter (in_category c) es)).

Definition category_count (c : string) (es : list Expense.t) : nat :=
  List.length (List.filter (in_category c) es).

(** A group carries the total and the count of its category in [es]. *)
Definition group_of (es : list Expense.t) (g : Expense.group) : Prop :=
  Expense.total g == category_total (Expense.g_id g) es
  /\ Expense.count g = category_count (Expense.g_id g) es.

(** What holds of the groups once the expenses [es] have been folded in. *)
Definition grouped (es : list Expense.t) (gs : list Expense.group) : Prop :=
  NoDup (map Expense.g_id gs)
  /\ (forall c, In c (map Expense.g_id gs) <-> In c (map Expense.category es))
  /\ Forall (group_of es) gs.

Definition summary_keys : list string := ["_id"; "total"; "count"]%string.

(** User 8 logs two more expenses in the project of [team_store]. *)
Definition busy_store : Store :=
  let s1 := snd (expense_routes.create_expense 8%nat 21%Z
                   (expense_body 100 "design" 1%nat) team_store) in
  snd (expense_routes.create_expense 7%nat 22%Z (expense_body 400 "design" 1%nat) s1).

Definition project_stored (s : Store) (e : Expense.t) : Prop :=
  exists p, List.find (has_id (Expense.project e)) (projects s) = Some p.

Definition expenses_have_project (s : Store) : Prop :=
  forall e, In e (expenses s) -> project_stored s e.

(** ** Further definitions: the effect of a request, the projects page *)

Definition project_init (user : ObjectId) (now : Date) (body : project_routes.CreateBody)
    : Project.init :=
  {| Project.i_name := project_routes.name body;
     Project.i_description := project_routes.description body;
     Project.i_budget :=
       match project_routes.budget body with Some v => parseFloat v | None => NaN end;
     Project.i_startDate := date_or_now (project_routes.startDate body) now;
     Project.i_endDate := option_map cast_date (project_routes.endDate body);
     Project.i_createdBy := user;
     Project.i_members := [user] |}.

(** The document [save()] stores for valid arguments. *)
Definition saved_project (id : ObjectId) (i : Project.init) (now : Date) : Project.t :=
  {| Project._id := id;
     Project.name := trim (or_else (Project.i_name i) EmptyString);
     Project.description := option_map trim (Project.i_description i);
     Project.budget := number_or (Some (Project.i_budget i)) 0;
     Project.startDate := Project.i_startDate i;
     Project.endDate := Project.i_endDate i;
     Project.createdBy := Project.i_createdBy i;
     Project.members := Project.i_members i;
     Project.createdAt := now;
     Project.updatedAt := now |}.

Definition bump_id (s : Store) : Store :=
  {| projects := projects s; expenses := expenses s; nextId := S (nextId s) |}.

Definition project_updates (includes : list ObjectId -> ObjectId -> bool)
    (user : ObjectId) (body : project_routes.UpdateBody) : Project.updates :=
  {| Project.u_name := project_routes.u_name body;
     Project.u_description := project_routes.u_description body;
     Project.u_budget := option_map parseFloat (project_routes.u_budget body);
     Project.u_startDate := option_map cast_date (project_routes.u_startDate body);
     Project.u_endDate := option_map cast_date (project_routes.u_endDate body);
     Project.u_members :=
       option_map (project_routes.with_creator includes user)
         (project_routes.u_members body) |}.

Definition owned_by (user id : ObjectId) (p : Project.t) : bool :=
  has_id id p && created_by user p.

Definition joinable_by (user id userId : ObjectId) (p : Project.t) : bool :=
  has_id id p && created_by user p && lacks_member userId p.

Definition can_access (user id : ObjectId) (p : Project.t) : bool :=
  has_id id p && accessible user p.

Definition expense_guard (body : expense_routes.CreateBody) : bool :=
  falsy_string (expense_routes.description body)
  || is_undefined (expense_routes.amount body)
  || falsy_string (expense_routes.category body)
  || is_undefined (expense_routes.projectId body).

Definition expense_init (user : ObjectId) (now : Date) (body : expense_routes.CreateBody)
    : Expense.init :=
  {| Expense.i_description := or_else (expense_routes.description body) EmptyString;
     Expense.i_amount :=
       match expense_routes.amount body with Some v => parseFloat v | None => NaN end;
     Expense.i_category := or_else (expense_routes.category body) EmptyString;
     Expense.i_date := date_or_now (expense_routes.date body) now;
     Expense.i_project := or_else (expense_routes.projectId body) 0%nat;
     Expense.i_createdBy := user |}.

(** The document [save()] stores for valid arguments. *)
Definition saved_expense (id : ObjectId) (i : Expense.init) (now : Date) : Expense.t :=
  {| Expense._id := id;
     Expense.description := trim (Expense.i_description i);
     Expense.amount := number_or (Some (Expense.i_amount i)) 0;
     Expense.category := Expense.i_category i;
     Expense.date := Expense.i_date i;
     Expense.project := Expense.i_project i;
     Expense.createdBy := Expense.i_createdBy i;
     Expense.createdAt := now;
     Expense.updatedAt := now |}.

(** The permission test of the expense router passes. *)
Definition permitted (user : ObjectId) (s : Store) (e : Expense.t) : Prop :=
  Expense.createdBy e = user
  \/ exists p, List.find (has_id (Expense.project e)) (projects s) = Some p
               /\ Project.createdBy p = user.

(** Every way in which one request, sent by [user] and served at [now],
    can change the store. *)
Inductive effect (includes : list ObjectId -> ObjectId -> bool)
    (user : ObjectId) (now : Date) (s : Store) : Store -> Prop :=
  | effect_none : effect includes user now s s
  | effect_id_drawn : effect includes user now s (bump_id s)
  | effect_project_created body :
      Project.validate (project_init user now body) = true ->
      effect includes user now s
        (set_projects
           (projects s ++ [saved_project (nextId s) (project_init user now body) now])
           (bump_id s))
  | effect_project_updated id body p :
      List.find (owned_by user id) (projects s) = Some p ->
      Project.validate_update (Project.Set_ (project_updates includes user body)) = true ->
      effect includes user now s
        (set_projects
           (update_first (owned_by user id)
              (Project.apply_update (Project.Set_ (project_updates includes user body)) now)
              (projects s)) s)
  | effect_member_added id m p :
      List.find (joinable_by user id m) (projects s) = Some p ->
      effect includes user now s
        (set_projects
           (update_first (joinable_by user id m)
              (Project.apply_update (Project.AddToSet_members m) now) (projects s)) s)
  | effect_project_deleted id p :
      List.find (owned_by user id) (projects s) = Some p ->
      effect includes user now s
        {| projects := remove_first (owned_by user id) (projects s);
           expenses := List.filter (fun e => negb (of_project id e)) (expenses s);
           nextId := nextId s |}
  | effect_expense_created body p :
      expense_guard body = false ->
      List.find (can_access user (Expense.i_project (expense_init user now body)))
        (projects s) = Some p ->
      Expense.validate (expense_init user now body) = true ->
      effect includes user now s
        {| projects :=
             update_first (has_id (Expense.i_project (expense_init user now body)))
               (Project.touch now) (projects s);
           expenses := expenses s ++ [saved_expense (nextId s) (expense_init user now body) now];
           nextId := S (nextId s) |}
  | effect_expense_updated id body e :
      List.find (expense_id id) (expenses s) = Some e ->
      permitted user s e ->
      Expense.validate_updates (expense_updates body) = true ->
      effect includes user now s
        (set_expenses
           (update_first (expense_id id) (Expense.apply_updates (expense_updates body) now)
              (expenses s)) s)
  | effect_expense_deleted id e :
      List.find (expense_id id) (expenses s) = Some e ->
      permitted user s e ->
      effect includes user now s
        (set_expenses (remove_first (expense_id id) (expenses s)) s).

Definition project_valid (p : Project.t) : Prop :=
  0 <= Project.budget p /\ Project.name p <> EmptyString.

Definition expense_valid (e : Expense.t) : Prop :=
  Expense.min_amount <= Expense.amount e
  /\ In (Expense.category e) Expense.categories
  /\ Expense.description e <> EmptyString.

Definition schema_ok (s : Store) : Prop :=
  (forall p, In p (projects s) -> project_valid p)
  /\ (forall e, In e (expenses s) -> expense_valid e).

(** The document [populate('totalExpenses')] makes of a stored project. *)
Definition populated_doc (s : Store) (p : Project.t) : Project.doc :=
  {| Project.fields := p;
     Project.totalExpenses :=
       Some (map (fun e => Project.mkAmount (Expense._id e) (Some (Expense.amount e)))
               (List.filter (of_project (Project._id p)) (expenses s))) |}.

(** The amounts of the stored expenses of a project, added up. *)
Definition spent_on (s : Store) (id : ObjectId) : Q :=
  sum_amounts (map Expense.amount (List.filter (of_project id) (expenses s))).

Definition may_access (user : ObjectId) (p : Project.t) : Prop :=
  Project.createdBy p = user \/ In user (Project.members p).

Definition updated_not_before (p q : Project.t) : Prop :=
  (Project.updatedAt q <= Project.updatedAt p)%Z.

Definition dated_not_before (e f : Expense.t) : Prop :=
  (Expense.date f < Expense.date e)%Z
  \/ (Expense.date f = Expense.date e /\ (Expense.createdAt f <= Expense.createdAt e)%Z).

(** The project once [m] has joined it at [now]. *)
Definition joined (m : ObjectId) (now : Date) (p : Project.t) : Project.t :=
  {| Project._id := Project._id p;
     Project.name := Project.name p;
     Project.description := Project.description p;
     Project.budget := Project.budget p;
     Project.startDate := Project.startDate p;
     Project.endDate := Project.endDate p;
     Project.createdBy := Project.createdBy p;
     Project.members := Project.members p ++ [m];
     Project.createdAt := Project.createdAt p;
     Project.updatedAt := now |}.

(** The caller owns no project, is a member of none and has created no
    expense. *)
Definition outsider (user : ObjectId) (s : Store) : Prop :=
  (forall p, In p (projects s) -> ~ may_access user p)
  /\ (forall e, In e (expenses s) -> Expense.createdBy e <> user).

(** The [Home] component of the application. *)
Module Home.



(** The state of the creation form: the three inputs hold text. *)
Record createValues := mkCreateValues {
  name : string;
  budget : string;
  description : string
}.

(** What [Number(text)] yields, as far as [Number.isFinite] tells. *)
Inductive converted :=
  | Finite (q : Q)
  | NotFinite.

(** [handleCreateProject] up to the request: either the message of the
    error toast, and then nothing is sent, or the payload that is posted
    to [/api/projects].  [Number] is the conversion of the budget text. *)
Definition handleCreateProject (Number : string -> converted) (v : createValues)
    : string + project_routes.CreateBody :=
  if negb (nonempty (trim (name v))) || negb (nonempty (budget v)) then
    inl "Name and budget are required"%string
  else
    match Number (budget v) with
    | Finite budgetNumber =>
        if Qle_bool budgetNumber 0 then inl "Budget must be a positive number"%string
        else
          inr {| project_routes.name := Some (trim (name v));
                 project_routes.budget := Some (Num budgetNumber);
                 project_routes.description :=
                   if nonempty (trim (description v)) then Some (trim (description v))
                   else None;
                 project_routes.startDate := None;
                 project_routes.endDate := None |}
    | NotFinite => inl "Budget must be a positive number"%string
    end.

End Home.

(** No white space at the head of the bytes. *)
Definition headless (w1 : ascii -> bool) (w2 : ascii -> ascii -> bool)
    (w3 : ascii -> ascii -> ascii -> bool) (l : list ascii) : Prop :=
  match l with
  | [] => True
  | a :: l1 =>
      w1 a = false
      /\ match l1 with
         | [] => True
         | b :: l2 =>
             w2 a b = false
             /\ match l2 with
                | [] => True
                | c :: _ => w3 a b c = false
                end
         end
  end.

(** U+00A0, the no-break space. *)
Definition nbsp : string :=
  String (ascii_of_nat 194) (String (ascii_of_nat 160) EmptyString).

(** A creation request with a name between no-break spaces, a start date
    of 0 and an end date of 0. *)
Definition dated_body : project_routes.CreateBody :=
  {| project_routes.name := Some (nbsp ++ " Site " ++ nbsp)%string;
     project_routes.description := None;
     project_routes.budget := Some (Num 50);
     project_routes.startDate := Some (Millis 0);
     project_routes.endDate := Some (Millis 0) |}.

(** The project of [busy_store]. *)
Definition busy_project : Project.t :=
  {| Project._id := 1%nat; Project.name := "P"%string;
     Project.description := None; Project.budget := 1000;
     Project.startDate := 10%Z; Project.endDate := None;
     Project.createdBy := 7%nat; Project.members := [7%nat; 8%nat; 9%nat];
     Project.createdAt := 10%Z; Project.updatedAt := 22%Z |}.

Definition rename_update (n : string) : project_routes.UpdateBody :=
  {| project_routes.u_name := Some n;
     project_routes.u_description := None;
     project_routes.u_budget := None;
     project_routes.u_startDate := None;
     project_routes.u_endDate := None;
     project_routes.u_members := None |}.

(** A conversion that reads the one text used below. *)
Definition Number_of_1000 (text : string) : Home.converted :=
  if String.eqb text "1000" then Home.Finite 1000 else Home.NotFinite.

(** * Properties *)

(** ** The budget status *)

Lemma or_zero_Some (q : Q) : or_zero (Some q) == q.
Proof.
  unfold or_zero, truthy.
  destruct (Qeq_bool q 0) eqn:E; simpl; [|reflexivity].
  apply Qeq_bool_eq in E. symmetry. exact E.
Qed.

Lemma or_zero_contribution (exp : Project.AmountDoc) :
  or_zero (Project.amount exp) == contribution exp.
Proof.
  unfold contribution. destruct (Project.amount exp) as [q|].
  - apply or_zero_Some.
  - reflexivity.
Qed.

Lemma fold_contributions (exps : list Project.AmountDoc) :
  forall acc : Q,
    fold_left (fun sum exp => sum + or_zero (Project.amount exp)) exps acc
    == acc + sum_amounts (map contribution exps).
Proof.
  induction exps as [|e exps IH]; intros acc; simpl.
  - ring.
  - rewrite IH, or_zero_contribution. ring.
Qed.


Lemma truthy_false (q : Q) : truthy q = false -> q == 0.
Proof.
  unfold truthy. intros H. apply negb_false_iff in H. apply Qeq_bool_eq, H.
Qed.

(** *** In the arithmetic of the code *)

Lemma iter_pos_invariant {A} (P : A -> Prop) (f : A -> A) :
  (forall x, P x -> P (f x)) -> forall n x, P x -> P (iter_pos f n x).
Proof.
  intros Hf. induction n as [n IH|n IH|]; intros x Hx; simpl; auto.
Qed.

Lemma shr_1_nonneg (mrs : shr_record) : (0 <= shr_m mrs)%Z -> (0 <= shr_m (shr_1 mrs))%Z.
Proof.
  destruct mrs as [m r s]. simpl. destruct m as [|p|p]; [| |lia].
  - simpl. lia.
  - destruct p; simpl; lia.
Qed.

Lemma shr_fexp_nonneg (m e : Z) (l : location) :
  (0 <= m)%Z -> (0 <= shr_m (fst (shr_fexp Double.prec Double.emax m e l)))%Z.
Proof.
  intros Hm. unfold shr_fexp, shr.
  assert (H0 : (0 <= shr_m (shr_record_of_loc m l))%Z).
  { destruct l as [|[| |]]; exact Hm. }
  destruct (_ - e)%Z; simpl; try exact H0.
  apply iter_pos_invariant; [apply shr_1_nonneg | exact H0].
Qed.

Lemma round_nearest_even_nonneg (m : Z) (l : location) :
  (0 <= m)%Z -> (0 <= round_nearest_even m l)%Z.
Proof.
  intros Hm. destruct l as [|[| |]]; simpl; try lia.
  destruct (Z.even m); lia.
Qed.

(** Rounding a mantissa that is not negative gives a zero, a finite
    number or an infinity of the sign asked for, never [NaN]. *)
Lemma binary_round_aux_sign (s : bool) (m e : Z) (l : location) :
  (0 <= m)%Z ->
  match binary_round_aux Double.prec Double.emax s m e l with
  | S754_zero s' | S754_infinity s' | S754_finite s' _ _ => s' = s
  | S754_nan => False
  end.
Proof.
  intros Hm. unfold binary_round_aux.
  pose proof (shr_fexp_nonneg m e l Hm) as H1.
  destruct (shr_fexp Double.prec Double.emax m e l) as [mrs' e']. simpl in H1.
  pose proof (shr_fexp_nonneg _ e' loc_Exact
                (round_nearest_even_nonneg _ (loc_of_shr_record mrs') H1)) as H2.
  destruct (shr_fexp Double.prec Double.emax _ e' loc_Exact) as [mrs'' e'']. simpl in H2.
  destruct (shr_m mrs'') as [|p|p]; [reflexivity | | lia].
  destruct (e'' <=? _)%Z; reflexivity.
Qed.

Lemma positive_cases (x : Double.double) :
  SFltb Double.zero x = true ->
  (exists m e, x = S754_finite false m e) \/ x = S754_infinity false.
Proof.
  unfold SFltb, Double.zero. destruct x as [s|s| |s m e]; simpl; try discriminate.
  - destruct s; [discriminate | auto].
  - destruct s; [discriminate | eauto].
Qed.

Lemma add_nonnegative (a x : Double.double) :
  Double.nonnegative a -> SFltb Double.zero x = true ->
  Double.nonnegative (Double.add a x).
Proof.
  intros Ha Hx. destruct (positive_cases x Hx) as [(mx & ex & ->) | ->].
  - destruct a as [[|]|[|]| |[|] ma ea]; simpl in Ha; try contradiction; simpl; auto.
    unfold binary_round.
    destruct (shl_align _ _ _) as [mz ez].
    pose proof (binary_round_aux_sign false (Zpos mz) ez loc_Exact ltac:(lia)) as H.
    destruct (binary_round_aux _ _ _ _ _ _) as [s|s| |s m e]; try contradiction; subst;
      exact I.
  - destruct a as [[|]|[|]| |[|] ma ea]; simpl in Ha; try contradiction; simpl; auto.
Qed.

Lemma fold_add_nonnegative (xs : list Double.double) (a : Double.double) :
  Double.nonnegative a ->
  Forall (fun x => SFltb Double.zero x = true) xs ->
  Double.nonnegative (fold_left Double.add xs a).
Proof.
  revert a. induction xs as [|x xs IH]; intros a Ha Hxs; simpl; [exact Ha|].
  inversion Hxs as [|y ys Hx Hrest]; subst.
  apply IH; [apply add_nonnegative; assumption | exact Hrest].
Qed.

Lemma or_zero_positive (x : Double.double) :
  SFltb Double.zero x = true -> Double.or_zero (Some x) = x.
Proof.
  intros H. destruct (positive_cases x H) as [(m & e & ->) | ->]; reflexivity.
Qed.

Lemma fold_populated (xs : list Double.double) (a : Double.double) :
  Forall (fun x => SFltb Double.zero x = true) xs ->
  fold_left (fun sum amount => Double.add sum (Double.or_zero amount)) (map Some xs) a
  = fold_left Double.add xs a.
Proof.
  revert a. induction xs as [|x xs IH]; intros a Hxs; cbn [map fold_left]; [reflexivity|].
  inversion Hxs as [|y ys Hx Hrest]; subst.
  rewrite (or_zero_positive x Hx). apply IH, Hrest.
Qed.

Lemma Math_max_zero_not_negative (y : Double.double) :
  SFltb (Double.Math_max Double.zero y) Double.zero = false.
Proof.
  destruct y as [[|]|[|]| |[|] m e]; reflexivity.
Qed.

(** With a budget of zero, what the formula gives is what the getter
    answers: 0. *)
Lemma remaining_of_zero_budget (s : bool) (t : Double.double) :
  Double.nonnegative t ->
  Double.Math_max Double.zero (Double.sub (S754_zero s) t) = Double.zero.
Proof.
  destruct t as [[|]|[|]| |[|] m e]; simpl; try contradiction; intros _;
    destruct s; reflexivity.
Qed.

Lemma nonneg_budget_cases (b : Double.double) :
  SFleb Double.zero b = true ->
  (exists s, b = S754_zero s) \/ Double.truthy b = true.
Proof.
  destruct b as [s|s| |s m e]; simpl; try discriminate; eauto.
Qed.

(** C1, at concrete inputs.  With a budget of 1000 and one expense of 145
    the getter answers a percentage of 14, where round(min(100, 145 / 1000
    * 100)) is 15: the quotient 0.145 is no binary64 number, and the
    nearest one times 100 is below 14.5.  With a budget of 0.3 and
    expenses of 0.1 and 0.2 the getter reports the project over budget,
    the sum of the two computed amounts being above the computed 0.3. *)
Lemma budgetStatus_rounds_in_binary64 :
  (exists st,
     Double.budgetStatus
       {| Double.budget := Double.of_Z 1000;
          Double.totalExpenses := Some [Some (Double.of_Z 145)] |} = Some st
     /\ Double.percentage st = Double.of_Z 14
     /\ spec_percentage 1000 145 = 15%Z
     /\ Double.percentage st <> Double.of_Z (spec_percentage 1000 145))
  /\ (exists st,
        Double.budgetStatus
          {| Double.budget := Double.div (Double.of_Z 3) (Double.of_Z 10);
             Double.totalExpenses :=
               Some [Some (Double.div (Double.of_Z 1) (Double.of_Z 10));
                     Some (Double.div (Double.of_Z 2) (Double.of_Z 10))] |} = Some st
        /\ Double.isOverBudget st = true).
Proof.
  split.
  - eexists. split; [reflexivity|]. split; [vm_compute; reflexivity|].
    split; [reflexivity|]. vm_compute. discriminate.
  - eexists. split; [reflexivity|]. vm_compute. reflexivity.
Qed.

(** C1, amended.  For a project whose budget is a number not below zero
    and whose populated expenses carry amounts above zero, as the schemas
    have them, the status is a record computed in binary64 arithmetic:
    totalSpent is the sum of the amounts taken from the left; percentage
    is min(100, round(totalSpent / budget * 100)), and 0 when the budget is
    zero; remaining is max(0, budget - totalSpent) and is never negative;
    isOverBudget is totalSpent > budget, and false when the budget is
    zero.  With a budget of 1000 and amounts 600 and 600 this is
    totalSpent 1200, remaining 0, percentage 100, isOverBudget true. *)
Theorem budgetStatus_binary64_formulas (b : Double.double) (xs : list Double.double) :
  SFleb Double.zero b = true ->
  Forall (fun x => SFltb Double.zero x = true) xs ->
  let total := Double.sum xs in
  exists st,
    Double.budgetStatus {| Double.budget := b; Double.totalExpenses := Some (map Some xs) |}
    = Some st
    /\ Double.totalSpent st = total
    /\ Double.percentage st
       = (if Double.truthy b
          then Double.Math_min (Double.of_Z 100)
                 (Double.Math_round
                    (Double.mul (Double.div total b) (Double.of_Z 100)))
          else Double.zero)
    /\ Double.remaining st = Double.Math_max Double.zero (Double.sub b total)
    /\ SFltb (Double.remaining st) Double.zero = false
    /\ Double.isOverBudget st = (if Double.truthy b then Double.gt total b else false)
    /\ (b = Double.of_Z 1000 -> xs = [Double.of_Z 600; Double.of_Z 600] ->
        Double.totalSpent st = Double.of_Z 1200
        /\ Double.remaining st = Double.zero
        /\ Double.percentage st = Double.of_Z 100
        /\ Double.isOverBudget st = true).
Proof.
  intros Hb Hxs total.
  assert (Htotal : Double.nonnegative total).
  { apply fold_add_nonnegative; [exact I | exact Hxs]. }
  unfold Double.budgetStatus. cbn [Double.totalExpenses Double.budget].
  rewrite (fold_populated xs Double.zero Hxs). fold (Double.sum xs). fold total.
  eexists. split; [reflexivity|].
  cbn [Double.totalSpent Double.percentage Double.remaining Double.isOverBudget].
  assert (Hrem : (if Double.truthy b
                  then Double.Math_max Double.zero (Double.sub b total)
                  else Double.zero)
                 = Double.Math_max Double.zero (Double.sub b total)).
  { destruct (nonneg_budget_cases b Hb) as [(s & ->) | Ht].
    - simpl Double.truthy. cbv iota. symmetry. apply remaining_of_zero_budget, Htotal.
    - rewrite Ht. reflexivity. }
  split; [reflexivity|]. split; [reflexivity|]. split; [exact Hrem|].
  split; [rewrite Hrem; apply Math_max_zero_not_negative|].
  split; [reflexivity|].
  intros Hb1000 Hscen. rewrite Hrem. unfold total. rewrite Hb1000, Hscen.
  vm_compute. auto.
Qed.

Lemma budgetStatus_binary64_formulas_witness :
  exists st,
    Double.budgetStatus
      {| Double.budget := Double.of_Z 1000;
         Double.totalExpenses := Some [Some (Double.of_Z 600); Some (Double.of_Z 600)] |}
    = Some st
    /\ Double.totalSpent st = Double.of_Z 1200
    /\ Double.remaining st = Double.zero
    /\ Double.percentage st = Double.of_Z 100
    /\ Double.isOverBudget st = true.
Proof.
  destruct (budgetStatus_binary64_formulas (Double.of_Z 1000)
              [Double.of_Z 600; Double.of_Z 600])
    as (st & Hst & _ & _ & _ & _ & _ & Hscen).
  - reflexivity.
  - repeat constructor.
  - exists st. split; [exact Hst|]. apply Hscen; reflexivity.
Defined.

(** *** Before and after population *)

(** C10. The status is [null] exactly when [totalExpenses] has not been
    populated.  Once it is populated, the empty list included, the status
    is a full record whose totalSpent adds up what each expense
    contributes: its amount, and 0 when the amount is missing or falsy. *)
Theorem budgetStatus_null_iff_unpopulated (this : Project.doc) :
  (Project.budgetStatus this = None <-> Project.totalExpenses this = None)
  /\ (forall exps,
        Project.totalExpenses this = Some exps ->
        exists st,
          Project.budgetStatus this = Some st
          /\ Project.totalSpent st == sum_amounts (map contribution exps))
  /\ (Project.totalExpenses this = Some [] ->
      exists st, Project.budgetStatus this = Some st /\ Project.totalSpent st == 0)
  /\ (forall exp,
        Project.amount exp = None
        \/ (exists q, Project.amount exp = Some q /\ truthy q = false) ->
        contribution exp == 0 /\ or_zero (Project.amount exp) = 0).
Proof.
  assert (Hpop : forall exps,
             Project.totalExpenses this = Some exps ->
             exists st,
               Project.budgetStatus this = Some st
               /\ Project.totalSpent st == sum_amounts (map contribution exps)).
  { intros exps H. unfold Project.budgetStatus. rewrite H.
    eexists. split; [reflexivity|]. simpl. rewrite fold_contributions. ring. }
  split; [|split; [exact Hpop|split]].
  - split; intros H.
    + destruct (Project.totalExpenses this) as [exps|] eqn:E; [|reflexivity].
      destruct (Hpop exps eq_refl) as (st & Hst & _). congruence.
    + unfold Project.budgetStatus. rewrite H. reflexivity.
  - intros H. destruct (Hpop [] H) as (st & Hst & Htot).
    exists st. split; [exact Hst|]. rewrite Htot. reflexivity.
  - intros exp [Hnone | (q & Hq & Hfalsy)]; unfold contribution, or_zero.
    + rewrite Hnone. split; reflexivity.
    + rewrite Hq, Hfalsy. split; [apply truthy_false, Hfalsy | reflexivity].
Qed.

Lemma budgetStatus_null_iff_unpopulated_witness :
  (exists st, Project.budgetStatus partial_doc = Some st /\ Project.totalSpent st == 600)
  /\ Project.budgetStatus (unpopulated scenario_project) = None.
Proof.
  split.
  - destruct (budgetStatus_null_iff_unpopulated partial_doc) as (_ & Hpop & _).
    destruct (Hpop _ eq_refl) as (st & Hst & Htot).
    exists st. split; [exact Hst|]. rewrite Htot. reflexivity.
  - apply (budgetStatus_null_iff_unpopulated (unpopulated scenario_project)).
    reflexivity.
Defined.

(** ** Validation on creation *)

Lemma valid_budget_negative (q : Q) : q < 0 -> Project.valid_budget (Num q) = false.
Proof.
  intros H. simpl. destruct (Qle_bool 0 q) eqn:E; [|reflexivity].
  apply Qle_bool_iff in E. exfalso. exact (Qlt_not_le _ _ H E).
Qed.

Lemma validate_negative_budget (i : Project.init) (q : Q) :
  Project.i_budget i = Num q -> q < 0 -> Project.validate i = false.
Proof.
  intros Hb Hneg. unfold Project.validate.
  rewrite Hb, (valid_budget_negative q Hneg). apply andb_false_r.
Qed.

(** C4, at the input of the scenario: a budget of -5 is answered with 500,
    not with 400. *)
Lemma create_project_negative_budget_is_500 :
  let resp := fst (project_routes.create_project 7%nat 10%Z (project_body "P" (-5)) empty_store) in
  status resp = 500%nat /\ status resp <> 400%nat.
Proof. vm_compute. split; [reflexivity | discriminate]. Qed.

(** C4, amended.  Creating a project is answered with 400 and changes
    nothing whenever the name is empty or missing, or the budget is
    missing.  With a name and a negative budget, the validation of the
    schema rejects the document: the answer is 500 and no project is
    stored. *)
Theorem create_project_rejects_invalid
    (user : ObjectId) (now : Date) (body : project_routes.CreateBody) (s : Store) :
  (falsy_string (project_routes.name body) = true \/ project_routes.budget body = None ->
   project_routes.create_project user now body s
   = (json_error 400 "Name and budget are required", s))
  /\ (forall q,
        falsy_string (project_routes.name body) = false ->
        project_routes.budget body = Some (Num q) ->
        q < 0 ->
        fst (project_routes.create_project user now body s)
        = json_error 500 "Failed to create project"
        /\ projects (snd (project_routes.create_project user now body s)) = projects s
        /\ expenses (snd (project_routes.create_project user now body s)) = expenses s).
Proof.
  split.
  - intros H. unfold project_routes.create_project, try_catch.
    assert (E : falsy_string (project_routes.name body)
                || is_undefined (project_routes.budget body) = true).
    { destruct H as [H | H]; [rewrite H; reflexivity|].
      rewrite H. apply orb_true_r. }
    rewrite E. reflexivity.
  - intros q Hname Hbudget Hneg.
    unfold project_routes.create_project, try_catch, bind, new_ObjectId, Project_save.
    rewrite Hname, Hbudget. cbn -[Project.validate].
    rewrite validate_negative_budget with (q := q); [auto | reflexivity | exact Hneg].
Qed.

Lemma create_project_rejects_invalid_witness :
  fst (project_routes.create_project 7%nat 10%Z (project_body "P" (-5)) empty_store)
  = json_error 500 "Failed to create project"
  /\ projects (snd (project_routes.create_project 7%nat 10%Z (project_body "P" (-5)) empty_store))
     = [].
Proof.
  destruct (create_project_rejects_invalid 7%nat 10%Z (project_body "P" (-5)) empty_store)
    as [_ H].
  destruct (H (-5)) as (H1 & H2 & _); [reflexivity | reflexivity | reflexivity |].
  split; [exact H1 | exact H2].
Defined.

Lemma valid_amount_nonpositive (q : Q) : q <= 0 -> Expense.valid_amount (Num q) = false.
Proof.
  intros H. simpl. destruct (Qle_bool Expense.min_amount q) eqn:E; [|reflexivity].
  apply Qle_bool_iff in E. exfalso.
  assert (Hle : Expense.min_amount <= 0) by (eapply Qle_trans; eassumption).
  apply Hle. reflexivity.
Qed.

Lemma valid_category_iff (c : string) :
  Expense.valid_category c = true <-> In c Expense.categories.
Proof.
  unfold Expense.valid_category. rewrite existsb_exists. split.
  - intros (x & Hin & Heq). apply String.eqb_eq in Heq. subst. exact Hin.
  - intros Hin. exists c. split; [exact Hin | apply String.eqb_refl].
Qed.

Lemma validate_bad_expense (i : Expense.init) (v : number) (c : string) :
  Expense.i_amount i = v ->
  Expense.i_category i = c ->
  (exists q, v = Num q /\ q <= 0) \/ ~ In c Expense.categories ->
  Expense.validate i = false.
Proof.
  intros Hv Hc Hbad. unfold Expense.validate. rewrite Hv, Hc.
  destruct Hbad as [(q & -> & Hq) | Hnot].
  - rewrite (valid_amount_nonpositive q Hq), andb_false_r. reflexivity.
  - destruct (Expense.valid_category c) eqn:E; [|apply andb_false_r].
    apply valid_category_iff in E. contradiction.
Qed.

(** C5, at a concrete input: an amount of -5 sent by the owner of the
    project is answered with 500, not with 400. *)
Lemma create_expense_negative_amount_is_500 :
  let resp := fst (expense_routes.create_expense 7%nat 20%Z
                     (expense_body (-5) "design" 1%nat) one_project) in
  status resp = 500%nat /\ status resp <> 400%nat.
Proof. vm_compute. split; [reflexivity | discriminate]. Qed.

(** C5, amended.  Creating an expense is answered with 400 and changes
    nothing whenever the description, the amount, the category or the
    project id is missing.  When all four are present and the caller has
    access to the project, an amount that is not above zero or a category
    outside the enumeration is rejected by the validation of the schema:
    the answer is 500, and neither an expense is stored nor the project
    touched. *)
Theorem create_expense_rejects_invalid
    (user : ObjectId) (now : Date) (body : expense_routes.CreateBody) (s : Store) :
  (falsy_string (expense_routes.description body) = true
   \/ expense_routes.amount body = None
   \/ falsy_string (expense_routes.category body) = true
   \/ expense_routes.projectId body = None ->
   expense_routes.create_expense user now body s
   = (json_error 400 "Description, amount, category, and project ID are required", s))
  /\ (forall pid p v c,
        falsy_string (expense_routes.description body) = false ->
        expense_routes.amount body = Some v ->
        expense_routes.category body = Some c ->
        c <> EmptyString ->
        expense_routes.projectId body = Some pid ->
        List.find (fun p => has_id pid p && accessible user p) (projects s) = Some p ->
        (exists q, v = Num q /\ q <= 0) \/ ~ In c Expense.categories ->
        fst (expense_routes.create_expense user now body s)
        = json_error 500 "Failed to create expense"
        /\ projects (snd (expense_routes.create_expense user now body s)) = projects s
        /\ expenses (snd (expense_routes.create_expense user now body s)) = expenses s).
Proof.
  split.
  - intros H. unfold expense_routes.create_expense, try_catch.
    assert (E : falsy_string (expense_routes.description body)
                || is_undefined (expense_routes.amount body)
                || falsy_string (expense_routes.category body)
                || is_undefined (expense_routes.projectId body) = true).
    { destruct H as [H | [H | [H | H]]]; rewrite H; simpl;
        rewrite ?orb_true_r; reflexivity. }
    rewrite E. reflexivity.
  - intros pid p v c Hdesc Hv Hc Hne Hpid Hfind Hbad.
    unfold expense_routes.create_expense, try_catch, bind, Project_findOne,
      new_ObjectId.
    rewrite Hdesc, Hv, Hc, Hpid.
    replace (falsy_string (Some c)) with false by (destruct c; [contradiction | reflexivity]).
    cbn -[Expense.validate Expense_save]. rewrite Hfind.
    unfold Expense_save.
    rewrite validate_bad_expense with (v := v) (c := c);
      [auto | reflexivity | reflexivity | exact Hbad].
Qed.

Lemma create_expense_rejects_invalid_witness :
  fst (expense_routes.create_expense 7%nat 20%Z (expense_body (-5) "design" 1%nat) one_project)
  = json_error 500 "Failed to create expense"
  /\ expenses (snd (expense_routes.create_expense 7%nat 20%Z
                     (expense_body (-5) "design" 1%nat) one_project)) = [].
Proof.
  destruct (create_expense_rejects_invalid 7%nat 20%Z
              (expense_body (-5) "design" 1%nat) one_project) as [_ H].
  destruct (H 1%nat
              {| Project._id := 1%nat; Project.name := "P"%string;
                 Project.description := None; Project.budget := 1000;
                 Project.startDate := 10%Z; Project.endDate := None;
                 Project.createdBy := 7%nat; Project.members := [7%nat];
                 Project.createdAt := 10%Z; Project.updatedAt := 10%Z |}
              (Num (-5)) "design"%string) as (H1 & _ & H3).
  - reflexivity.
  - reflexivity.
  - reflexivity.
  - discriminate.
  - reflexivity.
  - reflexivity.
  - left. exists (-5). split; [reflexivity | discriminate].
  - split; [exact H1 | exact H3].
Defined.

(** ** Collections *)

Section Collections.

Context {A : Type}.
Variable f : A -> bool.

Lemma find_none_remove_first (l : list A) :
  List.find f l = None -> remove_first f l = l.
Proof.
  induction l as [|y l IH]; simpl; [reflexivity|].
  destruct (f y); [discriminate|]. intros H. rewrite (IH H). reflexivity.
Qed.

Lemma in_remove_first (l : list A) (x : A) :
  In x (remove_first f l) -> In x l.
Proof.
  induction l as [|y l IH]; simpl; [tauto|].
  destruct (f y); simpl; [auto|]. intros [<- | H]; auto.
Qed.

Variable g : A -> A.

Lemma find_update_first (l : list A) (x : A) :
  (forall y, f y = true -> f (g y) = true) ->
  List.find f l = Some x ->
  List.find f (update_first f g l) = Some (g x).
Proof.
  intros Hfg. induction l as [|y l IH]; simpl; [discriminate|].
  destruct (f y) eqn:E; simpl.
  - intros [= ->]. rewrite (Hfg _ E). reflexivity.
  - rewrite E. exact IH.
Qed.

Lemma in_update_first (l : list A) (x : A) :
  In x (update_first f g l) ->
  In x l \/ exists y, In y l /\ f y = true /\ x = g y.
Proof.
  induction l as [|y l IH]; simpl; [tauto|].
  destruct (f y) eqn:E; simpl.
  - intros [<- | H]; [right; exists y; auto | auto].
  - intros [<- | H]; [auto|].
    destruct (IH H) as [H' | (z & Hz & Hfz & ->)]; [auto|].
    right. exists z. auto.
Qed.

End Collections.

(** ** Expenses and the timestamp of their project *)

Lemma has_id_touch (id : ObjectId) (now : Date) (p : Project.t) :
  has_id id p = true -> has_id id (Project.touch now p) = true.
Proof. intros H. exact H. Qed.

Lemma find_accessible_has_id (user id : ObjectId) (ps : list Project.t) (p : Project.t) :
  List.find (fun p => has_id id p && accessible user p) ps = Some p ->
  exists p0, List.find (has_id id) ps = Some p0.
Proof.
  intros H. apply find_some in H. destruct H as [Hin Hp].
  apply andb_true_iff in Hp. destruct Hp as [Hid _].
  destruct (List.find (has_id id) ps) as [p0|] eqn:E; [eauto|].
  exfalso. pose proof (find_none _ _ E _ Hin) as Hn. congruence.
Qed.

(** C6. A successful creation of an expense (answer 201) names a stored
    project; afterwards that project is the same document with updatedAt
    set to the instant of the creation and every other field as before, so
    updatedAt advances as the clock does. *)
Theorem create_expense_touches_project
    (user : ObjectId) (now : Date) (body : expense_routes.CreateBody)
    (s s' : Store) (resp : Response) :
  expense_routes.create_expense user now body s = (resp, s') ->
  status resp = 201%nat ->
  exists pid p,
    expense_routes.projectId body = Some pid
    /\ List.find (has_id pid) (projects s) = Some p
    /\ List.find (has_id pid) (projects s') = Some (Project.touch now p)
    /\ Project.updatedAt (Project.touch now p) = now
    /\ ((Project.updatedAt p < now)%Z ->
        (Project.updatedAt p < Project.updatedAt (Project.touch now p))%Z).
Proof.
  unfold expense_routes.create_expense, try_catch, bind, Project_findOne, new_ObjectId.
  destruct (falsy_string (expense_routes.description body)
            || is_undefined (expense_routes.amount body)
            || falsy_string (expense_routes.category body)
            || is_undefined (expense_routes.projectId body)) eqn:Eguard.
  { intros [= <- <-]. discriminate. }
  destruct (expense_routes.projectId body) as [pid|] eqn:Epid;
    [|rewrite !orb_true_r in Eguard; discriminate].
  cbn -[Expense.validate Expense_save].
  destruct (List.find _ (projects s)) as [p1|] eqn:Efind.
  2:{ intros [= <- <-]. discriminate. }
  unfold Expense_save.
  destruct (Expense.validate _) eqn:Evalid.
  2:{ unfold throw. intros [= <- <-]. discriminate. }
  unfold bind, Project_touch, Expense_insert. cbn.
  intros [= <- <-] _.
  destruct (find_accessible_has_id _ _ _ _ Efind) as [p Hp].
  exists pid, p. repeat split.
  - exact Hp.
  - apply find_update_first; [apply has_id_touch | exact Hp].
  - intros H. exact H.
Qed.

Lemma create_expense_touches_project_witness :
  exists pid p,
    List.find (has_id pid) (projects one_project) = Some p
    /\ List.find (has_id pid) (projects one_expense) = Some (Project.touch 20%Z p)
    /\ (Project.updatedAt p < Project.updatedAt (Project.touch 20%Z p))%Z.
Proof.
  destruct (create_expense_touches_project 7%nat 20%Z (expense_body 600 "design" 1%nat)
              one_project one_expense
              (fst (expense_routes.create_expense 7%nat 20%Z
                      (expense_body 600 "design" 1%nat) one_project)))
    as (pid & p & Hpid & Hbefore & Hafter & _ & Hadv).
  - apply surjective_pairing.
  - reflexivity.
  - exists pid, p. split; [exact Hbefore|]. split; [exact Hafter|].
    apply Hadv. injection Hpid as <-. vm_compute in Hbefore.
    injection Hbefore as <-. reflexivity.
Defined.

(** ** Updating and deleting an expense *)

(** What the deletion does, case by case. *)
Lemma delete_expense_cases (user id : ObjectId) (s : Store) :
  expense_routes.delete_expense user id s =
  match List.find (expense_id id) (expenses s) with
  | None => (json_error 404 "Expense not found", s)
  | Some e =>
      let done :=
        (json_data 200 (Deleted true),
         set_expenses (remove_first (expense_id id) (expenses s)) s) in
      if Nat.eqb (Expense.createdBy e) user then done
      else
        match List.find (has_id (Expense.project e)) (projects s) with
        | Some p =>
            if Nat.eqb (Project.createdBy p) user then done
            else (json_error 403 "Not authorized to delete this expense", s)
        | None => (json_error 500 "Failed to delete expense", s)
        end
  end.
Proof.
  unfold expense_routes.delete_expense, try_catch, bind, Expense_findById,
    populate_project, expense_routes.forbidden. cbn.
  destruct (List.find (expense_id id) (expenses s)) as [e|]; [|reflexivity]. cbn.
  destruct (Nat.eqb (Expense.createdBy e) user); cbn; [reflexivity|].
  destruct (List.find (has_id (Expense.project e)) (projects s)) as [p|]; cbn;
    [|reflexivity].
  destruct (Nat.eqb (Project.createdBy p) user); reflexivity.
Qed.

(** What the update does, case by case. *)
Lemma update_expense_cases (user : ObjectId) (now : Date) (id : ObjectId)
    (body : expense_routes.UpdateBody) (s : Store) :
  expense_routes.update_expense user now id body s =
  match List.find (expense_id id) (expenses s) with
  | None => (json_error 404 "Expense not found", s)
  | Some e =>
      let u := expense_updates body in
      let attempt :=
        if Expense.validate_updates u then
          ({| status := 200; ok := true;
              data := Some (AnExpense (Expense.apply_updates u now e));
              error := None |},
           set_expenses
             (update_first (expense_id id) (Expense.apply_updates u now) (expenses s)) s)
        else (json_error 500 "Failed to update expense", s) in
      if Nat.eqb (Expense.createdBy e) user then attempt
      else
        match List.find (has_id (Expense.project e)) (projects s) with
        | Some p =>
            if Nat.eqb (Project.createdBy p) user then attempt
            else (json_error 403 "Not authorized to update this expense", s)
        | None => (json_error 500 "Failed to update expense", s)
        end
  end.
Proof.
  unfold expense_routes.update_expense, try_catch, bind, Expense_findById,
    populate_project, expense_routes.forbidden, Expense_findByIdAndUpdate.
  fold (expense_updates body). cbn -[Expense.validate_updates expense_updates].
  destruct (List.find (expense_id id) (expenses s)) as [e|] eqn:Ee; [|reflexivity].
  cbn -[Expense.validate_updates expense_updates].
  destruct (Nat.eqb (Expense.createdBy e) user);
    cbn -[Expense.validate_updates expense_updates].
  - rewrite Ee. destruct (Expense.validate_updates (expense_updates body)); reflexivity.
  - destruct (List.find (has_id (Expense.project e)) (projects s)) as [p|];
      cbn -[Expense.validate_updates expense_updates]; [|reflexivity].
    destruct (Nat.eqb (Project.createdBy p) user);
      cbn -[Expense.validate_updates expense_updates]; [|reflexivity].
    rewrite Ee. destruct (Expense.validate_updates (expense_updates body)); reflexivity.
Qed.

(** C7, at a concrete input: the owner deletes the only expense of the
    project; the deletion succeeds and updatedAt of the project is what
    it was, the instant at which the expense had been created. *)
Lemma delete_expense_keeps_updatedAt :
  let before := one_expense in
  let result := expense_routes.delete_expense 7%nat 2%nat before in
  status (fst result) = 200%nat
  /\ option_map Project.updatedAt (List.find (has_id 1%nat) (projects before)) = Some 20%Z
  /\ option_map Project.updatedAt (List.find (has_id 1%nat) (projects (snd result)))
     = Some 20%Z
  /\ ~ (forall p p',
          List.find (has_id 1%nat) (projects before) = Some p ->
          List.find (has_id 1%nat) (projects (snd result)) = Some p' ->
          (Project.updatedAt p < Project.updatedAt p')%Z).
Proof.
  cbv zeta. split; [reflexivity|]. split; [reflexivity|]. split; [reflexivity|].
  intros H. specialize (H _ _ eq_refl eq_refl). vm_compute in H. discriminate.
Qed.

(** C7, amended.  A successful deletion of an expense removes that expense
    and leaves every project as it was, updatedAt included: the handler
    goes through a query, and the hook that refreshes the project runs on
    [save] only. *)
Theorem delete_expense_leaves_projects
    (user id : ObjectId) (s s' : Store) (resp : Response) :
  expense_routes.delete_expense user id s = (resp, s') ->
  status resp = 200%nat ->
  projects s' = projects s
  /\ expenses s' = remove_first (expense_id id) (expenses s)
  /\ exists e, List.find (expense_id id) (expenses s) = Some e.
Proof.
  rewrite delete_expense_cases.
  destruct (List.find (expense_id id) (expenses s)) as [e|].
  2:{ intros [= <- <-]. discriminate. }
  cbv zeta.
  assert (Hdone : forall r : Response * Store,
             r = (json_data 200 (Deleted true),
                  set_expenses (remove_first (expense_id id) (expenses s)) s) ->
             r = (resp, s') ->
             projects s' = projects s
             /\ expenses s' = remove_first (expense_id id) (expenses s)
             /\ exists e0, Some e = Some e0).
  { intros r -> [= <- <-]. simpl. eauto. }
  destruct (Nat.eqb (Expense.createdBy e) user).
  - intros H _. exact (Hdone _ eq_refl H).
  - destruct (List.find (has_id (Expense.project e)) (projects s)) as [p|].
    + destruct (Nat.eqb (Project.createdBy p) user).
      * intros H _. exact (Hdone _ eq_refl H).
      * intros [= <- <-]. discriminate.
    + intros [= <- <-]. discriminate.
Qed.

Lemma delete_expense_leaves_projects_witness :
  projects (snd (expense_routes.delete_expense 7%nat 2%nat one_expense))
  = projects one_expense
  /\ expenses (snd (expense_routes.delete_expense 7%nat 2%nat one_expense)) = [].
Proof.
  destruct (delete_expense_leaves_projects 7%nat 2%nat one_expense
              (snd (expense_routes.delete_expense 7%nat 2%nat one_expense))
              (fst (expense_routes.delete_expense 7%nat 2%nat one_expense)))
    as (Hp & He & _).
  - apply surjective_pairing.
  - reflexivity.
  - split; [exact Hp|]. rewrite He. reflexivity.
Defined.

(** C8, at a concrete input: the creator of the expense, who also owns
    the project, sends an amount of -5; the update does not succeed. *)
Lemma update_expense_by_creator_can_fail :
  let resp := fst (expense_routes.update_expense 7%nat 30%Z 2%nat (amount_update (-5))
                     one_expense) in
  (exists e, List.find (expense_id 2%nat) (expenses one_expense) = Some e
             /\ Expense.createdBy e = 7%nat)
  /\ status resp = 500%nat
  /\ status resp <> 200%nat.
Proof.
  cbv zeta. split; [eexists; split; reflexivity|].
  split; [reflexivity | discriminate].
Qed.

(** C8, amended.  For an expense that is not stored, update and delete
    answer 404.  For a stored expense of a stored project: a caller who is
    neither the creator of the expense nor the owner of its project
    receives 403 from both; the deletion succeeds exactly when the caller
    is one of the two; the update succeeds exactly when the caller is one
    of the two and the supplied fields pass the validation of the schema,
    and is answered with 500 when the caller is one of the two and the
    fields do not pass. *)
Theorem expense_write_authorization
    (user : ObjectId) (now : Date) (id : ObjectId)
    (body : expense_routes.UpdateBody) (s : Store) :
  let upd := fst (expense_routes.update_expense user now id body s) in
  let del := fst (expense_routes.delete_expense user id s) in
  (List.find (expense_id id) (expenses s) = None ->
   status upd = 404%nat /\ status del = 404%nat)
  /\ (forall e p,
        List.find (expense_id id) (expenses s) = Some e ->
        List.find (has_id (Expense.project e)) (projects s) = Some p ->
        let authorized := Expense.createdBy e = user \/ Project.createdBy p = user in
        (~ authorized -> status upd = 403%nat /\ status del = 403%nat)
        /\ (status del = 200%nat <-> authorized)
        /\ (status upd = 200%nat <->
            authorized /\ Expense.validate_updates (expense_updates body) = true)
        /\ (authorized ->
            Expense.validate_updates (expense_updates body) = false ->
            status upd = 500%nat)).
Proof.
  cbv zeta. rewrite update_expense_cases, delete_expense_cases. split.
  - intros ->. split; reflexivity.
  - intros e p -> ->. cbv zeta.
    destruct (Nat.eqb (Expense.createdBy e) user) eqn:Ee;
      [apply Nat.eqb_eq in Ee | apply Nat.eqb_neq in Ee].
    + split; [intros H; exfalso; apply H; left; exact Ee|]. split.
      * split; [intros _; left; exact Ee | reflexivity].
      * destruct (Expense.validate_updates (expense_updates body)); simpl.
        -- split; [|discriminate].
           split; [intros _; split; [left; exact Ee | reflexivity] | reflexivity].
        -- split; [|reflexivity].
           split; [discriminate | intros [_ H]; discriminate].
    + destruct (Nat.eqb (Project.createdBy p) user) eqn:Ep;
        [apply Nat.eqb_eq in Ep | apply Nat.eqb_neq in Ep].
      * split; [intros H; exfalso; apply H; right; exact Ep|]. split.
        -- split; [intros _; right; exact Ep | reflexivity].
        -- destruct (Expense.validate_updates (expense_updates body)); simpl.
           ++ split; [|discriminate].
              split; [intros _; split; [right; exact Ep | reflexivity] | reflexivity].
           ++ split; [|reflexivity].
              split; [discriminate | intros [_ H]; discriminate].
      * split; [intros _; split; reflexivity|]. simpl. split.
        -- split; [discriminate | intros [H | H]; contradiction].
        -- split; [|intros [H | H]; contradiction].
           split; [discriminate | intros [[H | H] _]; contradiction].
Qed.

Lemma expense_write_authorization_witness :
  status (fst (expense_routes.update_expense 8%nat 30%Z 2%nat (amount_update 300) team_store))
  = 200%nat
  /\ status (fst (expense_routes.update_expense 8%nat 30%Z 2%nat (amount_update (-5))
                    team_store)) = 500%nat
  /\ status (fst (expense_routes.update_expense 9%nat 30%Z 2%nat (amount_update 300)
                    team_store)) = 403%nat
  /\ status (fst (expense_routes.delete_expense 9%nat 2%nat team_store)) = 403%nat
  /\ status (fst (expense_routes.delete_expense 9%nat 5%nat team_store)) = 404%nat.
Proof.
  pose (e := {| Expense._id := 2%nat; Expense.description := "item"%string;
                Expense.amount := 250; Expense.category := "hr"%string;
                Expense.date := 20%Z; Expense.project := 1%nat;
                Expense.createdBy := 8%nat; Expense.createdAt := 20%Z;
                Expense.updatedAt := 20%Z |}).
  pose (p := {| Project._id := 1%nat; Project.name := "P"%string;
                Project.description := None; Project.budget := 1000;
                Project.startDate := 10%Z; Project.endDate := None;
                Project.createdBy := 7%nat; Project.members := [7%nat; 8%nat; 9%nat];
                Project.createdAt := 10%Z; Project.updatedAt := 20%Z |}).
  split; [|split; [|split; [|split]]].
  - destruct (expense_write_authorization 8%nat 30%Z 2%nat (amount_update 300) team_store)
      as [_ H].
    destruct (H e p eq_refl eq_refl) as (_ & _ & Hupd & _).
    apply Hupd. split; [left; reflexivity | reflexivity].
  - destruct (expense_write_authorization 8%nat 30%Z 2%nat (amount_update (-5)) team_store)
      as [_ H].
    destruct (H e p eq_refl eq_refl) as (_ & _ & _ & Hfail).
    apply Hfail; [left; reflexivity | reflexivity].
  - destruct (expense_write_authorization 9%nat 30%Z 2%nat (amount_update 300) team_store)
      as [_ H].
    destruct (H e p eq_refl eq_refl) as (Hdenied & _).
    apply Hdenied. intros [H' | H']; discriminate.
  - destruct (expense_write_authorization 9%nat 30%Z 2%nat (amount_update 300) team_store)
      as [_ H].
    destruct (H e p eq_refl eq_refl) as (Hdenied & _).
    apply Hdenied. intros [H' | H']; discriminate.
  - destruct (expense_write_authorization 9%nat 30%Z 5%nat (amount_update 300) team_store)
      as [H _].
    apply H. reflexivity.
Defined.

(** ** Deleting a project *)

Lemma filter_after_removal {A} (f : A -> bool) (l : list A) :
  List.filter f (List.filter (fun x => negb (f x)) l) = [].
Proof.
  induction l as [|x l IH]; simpl; [reflexivity|].
  destruct (f x) eqn:E; simpl; [exact IH|]. rewrite E. exact IH.
Qed.

Lemma set_projects_same (s : Store) : set_projects (projects s) s = s.
Proof. destruct s. reflexivity. Qed.

Lemma find_owned_iff (user id : ObjectId) (ps : list Project.t) :
  (exists p, List.find (fun p => has_id id p && created_by user p) ps = Some p)
  <-> exists p, In p ps /\ Project._id p = id /\ Project.createdBy p = user.
Proof.
  split.
  - intros (p & H). apply find_some in H. destruct H as [Hin H].
    apply andb_true_iff in H. destruct H as [Hid Hown].
    exists p. split; [exact Hin|]. split; apply Nat.eqb_eq; assumption.
  - intros (p & Hin & Hid & Hown).
    destruct (List.find (fun p => has_id id p && created_by user p) ps) as [p'|] eqn:E;
      [eauto|].
    exfalso. pose proof (find_none _ _ E _ Hin) as Hn. simpl in Hn.
    unfold has_id, created_by in Hn. rewrite Hid, Hown, !Nat.eqb_refl in Hn.
    discriminate.
Qed.

(** C3. The deletion of a project succeeds only for its owner (and does
    succeed for the owner).  On success the answer is 200 with
    [{ deleted: true }] and no stored expense references the project any
    more; otherwise the answer is 404 and nothing has changed. *)
Theorem delete_project_cascades
    (user id : ObjectId) (s s' : Store) (resp : Response) :
  project_routes.delete_project user id s = (resp, s') ->
  (status resp = 200%nat <->
   exists p, In p (projects s) /\ Project._id p = id /\ Project.createdBy p = user)
  /\ (status resp = 200%nat ->
      resp = json_data 200 (Deleted true)
      /\ List.length (List.filter (of_project id) (expenses s')) = 0%nat
      /\ projects s'
         = remove_first (fun p => has_id id p && created_by user p) (projects s))
  /\ (status resp <> 200%nat ->
      resp = json_error 404 "Project not found or not authorized" /\ s' = s).
Proof.
  unfold project_routes.delete_project, try_catch, bind, Project_findOneAndDelete,
    Expense_deleteMany.
  rewrite <- find_owned_iff.
  destruct (List.find (fun p => has_id id p && created_by user p) (projects s))
    as [p|] eqn:E; cbn.
  - intros [= <- <-]. simpl. split; [split; eauto|]. split.
    + intros _. split; [reflexivity|]. split; [|reflexivity].
      apply find_some in E. destruct E as [_ E].
      apply andb_true_iff in E. destruct E as [Hid _]. apply Nat.eqb_eq in Hid.
      rewrite Hid, filter_after_removal. reflexivity.
    + intros H. contradiction.
  - intros [= <- <-]. simpl. split; [|split].
    + split; [discriminate | intros (p & H); discriminate].
    + discriminate.
    + intros _. split; [reflexivity|].
      rewrite (find_none_remove_first _ _ E). apply set_projects_same.
Qed.

Lemma delete_project_cascades_witness :
  let result := project_routes.delete_project 7%nat 1%nat team_store in
  fst result = json_data 200 (Deleted true)
  /\ List.length (List.filter (of_project 1%nat) (expenses (snd result))) = 0%nat.
Proof.
  cbv zeta.
  destruct (delete_project_cascades 7%nat 1%nat team_store
              (snd (project_routes.delete_project 7%nat 1%nat team_store))
              (fst (project_routes.delete_project 7%nat 1%nat team_store)))
    as (_ & H & _).
  - apply surjective_pairing.
  - destruct H as (H1 & H2 & _); [reflexivity|]. split; assumption.
Defined.

(** ** The owner of a project is one of its members *)

Lemma mapM_populate_store (ps : list Project.t) (s : Store) :
  snd (mapM populate_totalExpenses ps s) = s.
Proof.
  induction ps as [|p ps IH]; simpl; [reflexivity|].
  unfold bind. simpl. destruct (mapM populate_totalExpenses ps s) as [[ys|e] s0].
  - simpl in *. exact IH.
  - simpl in *. exact IH.
Qed.

Lemma list_projects_store (user : ObjectId) (s : Store) :
  snd (project_routes.list_projects user s) = s.
Proof.
  unfold project_routes.list_projects, try_catch, bind, Project_find.
  pose proof (mapM_populate_store
                (sort_by project_routes.updatedAt_desc
                   (List.filter (accessible user) (projects s))) s) as H.
  destruct (mapM populate_totalExpenses _ s) as [[ys|e] s0]; simpl in *; exact H.
Qed.

Lemma get_project_store (user id : ObjectId) (s : Store) :
  snd (project_routes.get_project user id s) = s.
Proof.
  unfold project_routes.get_project, try_catch, bind, Project_findOne. cbn.
  destruct (List.find _ (projects s)); reflexivity.
Qed.

Lemma list_expenses_store (user id : ObjectId) (s : Store) :
  snd (expense_routes.list_expenses user id s) = s.
Proof.
  unfold expense_routes.list_expenses, try_catch, bind, Project_findOne. cbn.
  destruct (List.find _ (projects s)); reflexivity.
Qed.

Lemma summary_store (user id : ObjectId) (s : Store) :
  snd (expense_routes.summary user id s) = s.
Proof.
  unfold expense_routes.summary, try_catch, bind, Project_findOne. cbn.
  destruct (List.find _ (projects s)); reflexivity.
Qed.

Lemma owner_is_member_touch (now : Date) (p : Project.t) :
  owner_is_member p -> owner_is_member (Project.touch now p).
Proof. intros H. exact H. Qed.

(** [addMember] only adds. *)
Lemma addToSet_incl (m : ObjectId) (l : list ObjectId) (x : ObjectId) :
  In x l -> In x (Project.addToSet m l).
Proof.
  intros H. unfold Project.addToSet. destruct (existsb (Nat.eqb m) l); [exact H|].
  apply in_or_app. left. exact H.
Qed.

Lemma owners_update_first (f : Project.t -> bool) (g : Project.t -> Project.t)
    (ps : list Project.t) :
  (forall p, f p = true -> owner_is_member p -> owner_is_member (g p)) ->
  (forall p, In p ps -> owner_is_member p) ->
  forall p, In p (update_first f g ps) -> owner_is_member p.
Proof.
  intros Hg Hps p Hin.
  destruct (in_update_first f g ps p Hin) as [H | (y & Hy & Hfy & ->)]; auto.
Qed.

Lemma create_expense_projects (user : ObjectId) (now : Date)
    (body : expense_routes.CreateBody) (s : Store) :
  projects (snd (expense_routes.create_expense user now body s)) = projects s
  \/ exists pid,
       projects (snd (expense_routes.create_expense user now body s))
       = update_first (has_id pid) (Project.touch now) (projects s).
Proof.
  unfold expense_routes.create_expense, try_catch, bind, Project_findOne, new_ObjectId.
  destruct (_ || _ || _ || _); [left; reflexivity|].
  cbn -[Expense.validate Expense_save].
  destruct (List.find _ (projects s)); [|left; reflexivity].
  unfold Expense_save. destruct (Expense.validate _); [|left; reflexivity].
  right. eexists. reflexivity.
Qed.

Lemma update_expense_projects (user : ObjectId) (now : Date) (id : ObjectId)
    (body : expense_routes.UpdateBody) (s : Store) :
  projects (snd (expense_routes.update_expense user now id body s)) = projects s.
Proof.
  rewrite update_expense_cases.
  destruct (List.find (expense_id id) (expenses s)) as [e|]; [|reflexivity]. cbv zeta.
  destruct (Nat.eqb (Expense.createdBy e) user).
  - destruct (Expense.validate_updates _); reflexivity.
  - destruct (List.find _ (projects s)) as [p|]; [|reflexivity].
    destruct (Nat.eqb (Project.createdBy p) user); [|reflexivity].
    destruct (Expense.validate_updates _); reflexivity.
Qed.

Lemma delete_expense_projects (user id : ObjectId) (s : Store) :
  projects (snd (expense_routes.delete_expense user id s)) = projects s.
Proof.
  rewrite delete_expense_cases.
  destruct (List.find (expense_id id) (expenses s)) as [e|]; [|reflexivity]. cbv zeta.
  destruct (Nat.eqb (Expense.createdBy e) user); [reflexivity|].
  destruct (List.find _ (projects s)) as [p|]; [|reflexivity].
  destruct (Nat.eqb (Project.createdBy p) user); reflexivity.
Qed.

(** [createProject] stores a project whose only member is its creator. *)
Lemma create_project_projects (user : ObjectId) (now : Date)
    (body : project_routes.CreateBody) (s : Store) :
  projects (snd (project_routes.create_project user now body s)) = projects s
  \/ exists p,
       projects (snd (project_routes.create_project user now body s)) = projects s ++ [p]
       /\ Project.createdBy p = user
       /\ Project.members p = [user].
Proof.
  unfold project_routes.create_project, try_catch, bind, new_ObjectId, Project_save,
    Project_findById, Project_findOne.
  destruct (_ || _); [left; reflexivity|].
  cbn -[Project.validate]. destruct (Project.validate _); [|left; reflexivity].
  right. eexists. cbn. split; [reflexivity|]. split; reflexivity.
Qed.

Lemma delete_project_in (user id : ObjectId) (s : Store) (p : Project.t) :
  In p (projects (snd (project_routes.delete_project user id s))) -> In p (projects s).
Proof.
  unfold project_routes.delete_project, try_catch, bind, Project_findOneAndDelete,
    Expense_deleteMany.
  destruct (List.find _ (projects s)); cbn; apply in_remove_first.
Qed.

Lemma add_member_owners (user : ObjectId) (now : Date) (id : ObjectId)
    (body : project_routes.MemberBody) (s : Store) :
  owners_are_members s ->
  owners_are_members (snd (project_routes.add_member user now id body s)).
Proof.
  intros Hs. unfold project_routes.add_member, try_catch, bind, Project_findOneAndUpdate.
  destruct (project_routes.userId body) as [m|]; [|exact Hs]. cbn.
  assert (Hupd : owners_are_members
                   (set_projects
                      (update_first
                         (fun p => has_id id p && created_by user p && lacks_member m p)
                         (Project.apply_update (Project.AddToSet_members m) now)
                         (projects s)) s)).
  { intros p Hin. simpl in Hin. revert p Hin. apply owners_update_first; [|exact Hs].
    intros p _ Hp. unfold owner_is_member in *. simpl. apply addToSet_incl, Hp. }
  destruct (List.find _ (projects s)); exact Hupd.
Qed.

Section OwnerIsMember.

Variable includes : list ObjectId -> ObjectId -> bool.
Hypothesis includes_ok : includes_sound includes.

(** [updateProject] force-includes the caller in a supplied list. *)
Lemma with_creator_has_creator (user : ObjectId) (members : list ObjectId) :
  In user (project_routes.with_creator includes user members).
Proof.
  unfold project_routes.with_creator.
  destruct (includes members user) eqn:E; simpl.
  - apply includes_ok, E.
  - apply in_or_app. right. left. reflexivity.
Qed.

Lemma update_project_owners (user : ObjectId) (now : Date) (id : ObjectId)
    (body : project_routes.UpdateBody) (s : Store) :
  owners_are_members s ->
  owners_are_members (snd (project_routes.update_project includes user now id body s)).
Proof.
  intros Hs. unfold project_routes.update_project, try_catch, bind,
    Project_findOneAndUpdate.
  destruct (Project.validate_update _); [|exact Hs].
  cbn -[update_first Project.apply_update].
  destruct (List.find _ (projects s)); cbn -[update_first Project.apply_update];
    intros q Hq; cbn -[update_first Project.apply_update] in Hq; revert q Hq;
    (apply owners_update_first; [|exact Hs]);
    intros p Hf Hp; apply andb_true_iff in Hf; destruct Hf as [_ Hown];
    apply Nat.eqb_eq in Hown; unfold owner_is_member in *; simpl;
    (destruct (project_routes.u_members body) as [l|]; simpl; [|exact Hp]);
    rewrite Hown; apply with_creator_has_creator.
Qed.

Lemma handle_owners (user : ObjectId) (now : Date) (r : request) (s : Store) :
  owners_are_members s ->
  owners_are_members (snd (handle includes user now r s)).
Proof.
  intros Hs. destruct r as [|body|id|id body|id|id body|pid|body|id body|id|pid]; simpl.
  - rewrite list_projects_store. exact Hs.
  - destruct (create_project_projects user now body s) as [E | (p & E & Hc & Hm)];
      intros q Hq; rewrite E in Hq; [exact (Hs q Hq)|].
    apply in_app_or in Hq. destruct Hq as [Hq | [<- | []]]; [exact (Hs q Hq)|].
    unfold owner_is_member. rewrite Hc, Hm. left. reflexivity.
  - rewrite get_project_store. exact Hs.
  - apply update_project_owners, Hs.
  - intros q Hq. apply delete_project_in in Hq. exact (Hs q Hq).
  - apply add_member_owners, Hs.
  - rewrite list_expenses_store. exact Hs.
  - destruct (create_expense_projects user now body s) as [E | (pid & E)];
      intros q Hq; rewrite E in Hq; [exact (Hs q Hq)|].
    revert q Hq. apply owners_update_first; [|exact Hs].
    intros p _ Hp. apply owner_is_member_touch, Hp.
  - intros q Hq. rewrite update_expense_projects in Hq. exact (Hs q Hq).
  - intros q Hq. rewrite delete_expense_projects in Hq. exact (Hs q Hq).
  - rewrite summary_store. exact Hs.
Qed.

(** C2. In every store the requests can lead to, the owner of each
    project is among its members: creation stores the creator as the
    only member, an update pushes the owner into a supplied list, adding
    a member only adds, and nothing else writes the list. *)
Theorem owner_always_member (s : Store) :
  reachable includes s ->
  forall p, In p (projects s) -> In (Project.createdBy p) (Project.members p).
Proof.
  induction 1 as [|s user now r _ IH].
  - intros p [].
  - apply handle_owners. exact IH.
Qed.

End OwnerIsMember.

Lemma includes_eq_sound : includes_sound includes_eq.
Proof.
  intros l u H. unfold includes_eq in H. apply existsb_exists in H.
  destruct H as (x & Hin & Heq). apply Nat.eqb_eq in Heq. subst. exact Hin.
Defined.

Lemma includes_never_sound : includes_sound includes_never.
Proof. intros l u H. discriminate. Qed.

Lemma reshuffled_reachable : reachable includes_eq reshuffled_store.
Proof.
  apply (reachable_step includes_eq _ 7%nat 30%Z (PUT_project 1%nat (members_update [8%nat]))).
  apply (reachable_step includes_eq _ 8%nat 20%Z
           (POST_expenses (expense_body 250 "hr" 1%nat))).
  apply (reachable_step includes_eq _ 7%nat 12%Z
           (POST_project_members 1%nat (project_routes.mkMemberBody (Some 9%nat)))).
  apply (reachable_step includes_eq _ 7%nat 11%Z
           (POST_project_members 1%nat (project_routes.mkMemberBody (Some 8%nat)))).
  apply (reachable_step includes_eq _ 7%nat 10%Z (POST_projects (project_body "P" 1000))).
  apply reachable_empty.
Defined.

Lemma owner_always_member_witness :
  In reshuffled_project (projects reshuffled_store)
  /\ In (Project.createdBy reshuffled_project) (Project.members reshuffled_project).
Proof.
  assert (Hin : In reshuffled_project (projects reshuffled_store))
    by (left; reflexivity).
  split; [exact Hin|].
  exact (owner_always_member includes_eq includes_eq_sound reshuffled_store
           reshuffled_reachable reshuffled_project Hin).
Defined.

(** ** The summary by category *)

(** *** Sorting *)

Section Sorting.

Context {A : Type}.
Variable before : A -> A -> bool.
Hypothesis before_total : forall x y, before x y = false -> before y x = true.

Lemma insert_by_perm (x : A) (l : list A) : Permutation (x :: l) (insert_by before x l).
Proof.
  induction l as [|y l IH]; simpl; [reflexivity|].
  destruct (before x y); [reflexivity|].
  rewrite perm_swap. apply perm_skip, IH.
Qed.

Lemma sort_by_perm (l : list A) : Permutation l (sort_by before l).
Proof.
  induction l as [|x l IH]; simpl; [reflexivity|].
  rewrite <- insert_by_perm. apply perm_skip, IH.
Qed.

Lemma insert_by_hd (x a : A) (l : list A) :
  before a x = true ->
  HdRel (fun u v => before u v = true) a l ->
  HdRel (fun u v => before u v = true) a (insert_by before x l).
Proof.
  intros Hax Hl. destruct l as [|y l]; simpl.
  - constructor. exact Hax.
  - destruct (before x y); constructor; [exact Hax|].
    inversion Hl; assumption.
Qed.

Lemma insert_by_sorted (x : A) (l : list A) :
  Sorted (fun u v => before u v = true) l ->
  Sorted (fun u v => before u v = true) (insert_by before x l).
Proof.
  induction 1 as [|y l Hl IH Hhd]; simpl.
  - repeat constructor.
  - destruct (before x y) eqn:E.
    + repeat constructor; assumption.
    + constructor; [exact IH|].
      apply insert_by_hd; [apply before_total, E | exact Hhd].
Qed.

Lemma sort_by_sorted (l : list A) : Sorted (fun u v => before u v = true) (sort_by before l).
Proof.
  induction l as [|x l IH]; simpl; [constructor|].
  apply insert_by_sorted, IH.
Qed.

End Sorting.

Lemma total_desc_total (g h : Expense.group) :
  Expense.total_desc g h = false -> Expense.total_desc h g = true.
Proof.
  unfold Expense.total_desc. intros H. apply Qle_bool_iff.
  destruct (Qlt_le_dec (Expense.total h) (Expense.total g)) as [Hlt | Hle].
  - apply Qlt_le_weak in Hlt. apply Qle_bool_iff in Hlt. congruence.
  - exact Hle.
Qed.

Lemma sort_total_desc_sorted (gs : list Expense.group) :
  StronglySorted total_ge (sort_by Expense.total_desc gs).
Proof.
  apply Sorted_StronglySorted.
  - intros a b c Hab Hbc. unfold total_ge in *. eapply Qle_trans; eassumption.
  - pose proof (sort_by_sorted Expense.total_desc total_desc_total gs) as H.
    induction H as [|g l Hl IH Hhd]; constructor; [exact IH|].
    destruct Hhd as [|h l' Hgh]; constructor.
    unfold total_ge. apply Qle_bool_iff. exact Hgh.
Qed.

(** *** Grouping *)

Lemma sum_amounts_app (xs ys : list Q) :
  sum_amounts (xs ++ ys) == sum_amounts xs + sum_amounts ys.
Proof.
  induction xs as [|x xs IH]; simpl; [ring|]. rewrite IH. ring.
Qed.

Lemma category_total_snoc (c : string) (es : list Expense.t) (e : Expense.t) :
  category_total c (es ++ [e])
  == category_total c es + (if in_category c e then Expense.amount e else 0).
Proof.
  unfold category_total. rewrite filter_app, map_app, sum_amounts_app. simpl.
  destruct (in_category c e); simpl; ring.
Qed.

Lemma category_count_snoc (c : string) (es : list Expense.t) (e : Expense.t) :
  category_count c (es ++ [e])
  = (category_count c es + (if in_category c e then 1 else 0))%nat.
Proof.
  unfold category_count. rewrite filter_app, length_app. simpl.
  destruct (in_category c e); reflexivity.
Qed.

Lemma category_absent (c : string) (es : list Expense.t) :
  ~ In c (map Expense.category es) ->
  category_total c es == 0 /\ category_count c es = 0%nat.
Proof.
  intros H. unfold category_total, category_count.
  replace (List.filter (in_category c) es) with (@nil Expense.t); [split; reflexivity|].
  induction es as [|e es IH]; simpl; [reflexivity|].
  unfold in_category at 1. destruct (String.eqb (Expense.category e) c) eqn:E.
  - apply String.eqb_eq in E. exfalso. apply H. left. exact E.
  - apply IH. intros Hin. apply H. right. exact Hin.
Qed.

Lemma keys_add_to_groups (e : Expense.t) (gs : list Expense.group) :
  map Expense.g_id (Expense.add_to_groups e gs)
  = if existsb (fun k => String.eqb k (Expense.category e)) (map Expense.g_id gs)
    then map Expense.g_id gs
    else map Expense.g_id gs ++ [Expense.category e].
Proof.
  induction gs as [|g gs IH]; simpl; [reflexivity|].
  destruct (String.eqb (Expense.g_id g) (Expense.category e)); simpl; [reflexivity|].
  rewrite IH. destruct (existsb _ _); reflexivity.
Qed.

Lemma existsb_key (c : string) (ks : list string) :
  existsb (fun k => String.eqb k c) ks = true <-> In c ks.
Proof.
  rewrite existsb_exists. split.
  - intros (k & Hin & Hk). apply String.eqb_eq in Hk. subst. exact Hin.
  - intros Hin. exists c. split; [exact Hin | apply String.eqb_refl].
Qed.

Lemma keys_add_in (e : Expense.t) (gs : list Expense.group) (c : string) :
  In c (map Expense.g_id (Expense.add_to_groups e gs))
  <-> In c (map Expense.g_id gs) \/ c = Expense.category e.
Proof.
  rewrite keys_add_to_groups.
  destruct (existsb _ _) eqn:E.
  - apply existsb_key in E. split; [auto|]. intros [H | ->]; assumption.
  - rewrite in_app_iff. simpl. split.
    + intros [H | [H | []]]; auto.
    + intros [H | ->]; auto.
Qed.

Lemma keys_add_NoDup (e : Expense.t) (gs : list Expense.group) :
  NoDup (map Expense.g_id gs) -> NoDup (map Expense.g_id (Expense.add_to_groups e gs)).
Proof.
  intros H. rewrite keys_add_to_groups.
  destruct (existsb _ _) eqn:E; [exact H|].
  apply NoDup_app; [exact H | repeat constructor; intros [] |].
  intros k Hk [<- | []].
  apply existsb_key in Hk. congruence.
Qed.

Lemma group_of_other (es : list Expense.t) (e : Expense.t) (g : Expense.group) :
  Expense.g_id g <> Expense.category e ->
  group_of es g -> group_of (es ++ [e]) g.
Proof.
  intros Hne [Ht Hc]. unfold group_of.
  rewrite category_total_snoc, category_count_snoc.
  unfold in_category. destruct (String.eqb (Expense.category e) (Expense.g_id g)) eqn:E.
  - apply String.eqb_eq in E. congruence.
  - split; [rewrite Ht; ring | rewrite Hc; lia].
Qed.

Lemma groups_add_to_groups (es : list Expense.t) (e : Expense.t) (gs : list Expense.group) :
  NoDup (map Expense.g_id gs) ->
  (~ In (Expense.category e) (map Expense.g_id gs) ->
   ~ In (Expense.category e) (map Expense.category es)) ->
  Forall (group_of es) gs ->
  Forall (group_of (es ++ [e])) (Expense.add_to_groups e gs).
Proof.
  induction gs as [|g gs IH]; intros Hnd Hnew Hgs; simpl.
  - constructor; [|constructor]. unfold group_of. simpl.
    rewrite category_total_snoc, category_count_snoc.
    unfold in_category. rewrite String.eqb_refl.
    destruct (category_absent (Expense.category e) es) as [Ht Hc].
    { apply Hnew. intros []. }
    rewrite Ht, Hc. split; [ring | reflexivity].
  - inversion Hnd as [|k ks Hk Hnd']; subst. inversion Hgs as [|g' gs' Hg Hgs']; subst.
    destruct (String.eqb (Expense.g_id g) (Expense.category e)) eqn:E.
    + apply String.eqb_eq in E. constructor.
      * destruct Hg as [Ht Hc]. unfold group_of. simpl.
        rewrite category_total_snoc, category_count_snoc.
        unfold in_category. rewrite E, String.eqb_refl.
        split; [rewrite Ht, E; ring | rewrite Hc, E; lia].
      * rewrite Forall_forall in *. intros h Hh. apply group_of_other; [|auto].
        intros Heq. apply Hk. rewrite E, <- Heq. apply in_map, Hh.
    + apply String.eqb_neq in E. constructor.
      * apply group_of_other; assumption.
      * apply IH; [exact Hnd' | | exact Hgs'].
        intros Hnot. apply Hnew. intros [H | H]; [contradiction | apply Hnot, H].
Qed.

Lemma grouped_add (es : list Expense.t) (e : Expense.t) (gs : list Expense.group) :
  grouped es gs -> grouped (es ++ [e]) (Expense.add_to_groups e gs).
Proof.
  intros (Hnd & Hkeys & Hgs). split; [|split].
  - apply keys_add_NoDup, Hnd.
  - intros c. rewrite keys_add_in, map_app, in_app_iff, Hkeys. simpl.
    split; intros [H | H]; auto.
    + destruct H as [H | []]; auto.
  - apply groups_add_to_groups; [exact Hnd | | exact Hgs].
    intros Hnot Hin. apply Hnot, Hkeys, Hin.
Qed.

Lemma grouped_fold (es done : list Expense.t) (gs : list Expense.group) :
  grouped done gs ->
  grouped (done ++ es) (fold_left (fun gs e => Expense.add_to_groups e gs) es gs).
Proof.
  revert done gs. induction es as [|e es IH]; intros done gs H; simpl.
  - rewrite app_nil_r. exact H.
  - replace (done ++ e :: es) with ((done ++ [e]) ++ es)
      by (rewrite <- app_assoc; reflexivity).
    apply IH, grouped_add, H.
Qed.

Lemma group_by_category_grouped (es : list Expense.t) :
  grouped es (Expense.group_by_category es).
Proof.
  apply (grouped_fold es [] []). split; [constructor|]. split; [reflexivity | constructor].
Qed.

Lemma grouped_perm (es : list Expense.t) (gs gs' : list Expense.group) :
  Permutation gs gs' -> grouped es gs -> grouped es gs'.
Proof.
  intros Hp (Hnd & Hkeys & Hgs). split; [|split].
  - eapply Permutation_NoDup; [apply Permutation_map, Hp | exact Hnd].
  - intros c. rewrite <- Hkeys. split; apply Permutation_in.
    + apply Permutation_map, Permutation_sym, Hp.
    + apply Permutation_map, Hp.
  - eapply Permutation_Forall; eassumption.
Qed.

(** C9, at a concrete input: the documents of the summary carry the
    category under the key [_id]; they have no key [category]. *)
Lemma summary_has_no_category_key :
  exists g h,
    fst (expense_routes.summary 9%nat 1%nat busy_store) = json_data 200 (Summary [g; h])
    /\ map fst (Expense.group_toJSON g) = ["_id"; "total"; "count"]%string
    /\ map fst (Expense.group_toJSON g) <> ["category"; "total"; "count"]%string
    /\ ~ In "category"%string (map fst (Expense.group_toJSON g)).
Proof.
  eexists. eexists. split; [reflexivity|]. split; [reflexivity|]. split.
  - discriminate.
  - simpl. intros [H | [H | [H | []]]]; discriminate.
Qed.

(** C9, amended.  For a caller with access to the project, the summary
    answers 200 with one document per category present among the expenses
    of the project and none besides; each document is sent as
    [{ _id, total, count }], where [_id] is the category, [total] the sum
    of the amounts of the expenses of the project in that category and
    [count] their number; the documents are in descending order of
    [total]. *)
Theorem summary_by_category (user pid : ObjectId) (s : Store) (p : Project.t) :
  List.find (fun p => has_id pid p && accessible user p) (projects s) = Some p ->
  let es := List.filter (of_project pid) (expenses s) in
  exists rows,
    expense_routes.summary user pid s = (json_data 200 (Summary rows), s)
    /\ NoDup (map Expense.g_id rows)
    /\ (forall c,
          In c (map Expense.g_id rows) <->
          exists e, In e (expenses s) /\ Expense.project e = pid /\ Expense.category e = c)
    /\ (forall g,
          In g rows ->
          Expense.total g == category_total (Expense.g_id g) es
          /\ Expense.count g = category_count (Expense.g_id g) es)
    /\ StronglySorted total_ge rows
    /\ (forall g,
          In g rows ->
          map fst (Expense.group_toJSON g) = summary_keys
          /\ In ("_id"%string, Expense.JString (Expense.g_id g)) (Expense.group_toJSON g)).
Proof.
  intros Hfind es.
  assert (Hid : Project._id p = pid).
  { apply find_some in Hfind. destruct Hfind as [_ H].
    apply andb_true_iff in H. destruct H as [H _]. apply Nat.eqb_eq, H. }
  unfold expense_routes.summary, try_catch, bind, Project_findOne, Expense_aggregate.
  cbn -[sort_by]. rewrite Hfind. cbn -[sort_by]. rewrite Hid. fold es.
  eexists. split; [reflexivity|].
  destruct (grouped_perm es _ _ (sort_by_perm Expense.total_desc _)
              (group_by_category_grouped es)) as (Hnd & Hkeys & Hgs).
  split; [exact Hnd|]. split; [|split; [|split]].
  - intros c. rewrite Hkeys, in_map_iff. unfold es. split.
    + intros (e & Hc & He). apply filter_In in He. destruct He as [He Hp].
      exists e. split; [exact He|]. split; [apply Nat.eqb_eq, Hp | exact Hc].
    + intros (e & He & Hp & Hc). exists e. split; [exact Hc|].
      apply filter_In. split; [exact He | apply Nat.eqb_eq, Hp].
  - intros g Hg. rewrite Forall_forall in Hgs. exact (Hgs g Hg).
  - apply sort_total_desc_sorted.
  - intros g _. split; [reflexivity | left; reflexivity].
Qed.

Lemma summary_by_category_witness :
  exists rows,
    expense_routes.summary 9%nat 1%nat busy_store = (json_data 200 (Summary rows), busy_store)
    /\ map Expense.g_id rows = ["design"; "hr"]%string
    /\ StronglySorted total_ge rows.
Proof.
  destruct (summary_by_category 9%nat 1%nat busy_store
              {| Project._id := 1%nat; Project.name := "P"%string;
                 Project.description := None; Project.budget := 1000;
                 Project.startDate := 10%Z; Project.endDate := None;
                 Project.createdBy := 7%nat; Project.members := [7%nat; 8%nat; 9%nat];
                 Project.createdAt := 10%Z; Project.updatedAt := 22%Z |})
    as (rows & Hresp & _ & _ & _ & Hsorted & _).
  - reflexivity.
  - exists rows. split; [exact Hresp|]. split; [|exact Hsorted].
    assert (E : fst (expense_routes.summary 9%nat 1%nat busy_store)
                = json_data 200 (Summary rows)) by (rewrite Hresp; reflexivity).
    vm_compute in E. injection E as <-. reflexivity.
Defined.

(** ** Every stored expense belongs to a stored project *)

Lemma find_has_id_iff (id : ObjectId) (ps : list Project.t) :
  (exists p, List.find (has_id id) ps = Some p) <-> In id (map Project._id ps).
Proof.
  rewrite in_map_iff. split.
  - intros (p & H). apply find_some in H. destruct H as [Hin Hid].
    exists p. split; [apply Nat.eqb_eq, Hid | exact Hin].
  - intros (p & Hid & Hin).
    destruct (List.find (has_id id) ps) as [q|] eqn:E; [eauto|].
    pose proof (find_none _ _ E _ Hin) as Hn. unfold has_id in Hn.
    rewrite Hid, Nat.eqb_refl in Hn. discriminate.
Qed.

Lemma ids_update_first (f : Project.t -> bool) (g : Project.t -> Project.t)
    (ps : list Project.t) :
  (forall p, Project._id (g p) = Project._id p) ->
  map Project._id (update_first f g ps) = map Project._id ps.
Proof.
  intros Hg. induction ps as [|p ps IH]; simpl; [reflexivity|].
  destruct (f p); simpl; [rewrite Hg | rewrite IH]; reflexivity.
Qed.

Lemma ids_remove_first (f : Project.t -> bool) (ps : list Project.t) (id pid : ObjectId) :
  (forall p, f p = true -> Project._id p = pid) ->
  id <> pid ->
  In id (map Project._id ps) ->
  In id (map Project._id (remove_first f ps)).
Proof.
  intros Hf Hne. induction ps as [|p ps IH]; simpl; [tauto|].
  destruct (f p) eqn:E; simpl.
  - intros [H | H]; [|exact H]. apply Hf in E. congruence.
  - intros [H | H]; auto.
Qed.

Lemma apply_update_id (u : Project.update) (now : Date) (p : Project.t) :
  Project._id (Project.apply_update u now p) = Project._id p.
Proof. destruct u; reflexivity. Qed.

Lemma in_update_first_expense (f : Expense.t -> bool) (g : Expense.t -> Expense.t)
    (es : list Expense.t) (e : Expense.t) :
  (forall x, Expense.project (g x) = Expense.project x) ->
  In e (update_first f g es) ->
  exists e0, In e0 es /\ Expense.project e = Expense.project e0.
Proof.
  intros Hg Hin. destruct (in_update_first f g es e Hin) as [H | (y & Hy & _ & ->)].
  - exists e. auto.
  - exists y. auto.
Qed.

Lemma handle_expenses_have_project (includes : list ObjectId -> ObjectId -> bool)
    (user : ObjectId) (now : Date) (r : request) (s : Store) :
  expenses_have_project s ->
  expenses_have_project (snd (handle includes user now r s)).
Proof.
  unfold expenses_have_project, project_stored. intros Hs.
  assert (Hs' : forall e, In e (expenses s) ->
                          In (Expense.project e) (map Project._id (projects s))).
  { intros e He. apply find_has_id_iff, Hs, He. }
  clear Hs.
  destruct r as [|body|id|id body|id|id body|pid|body|id body|id|pid];
    simpl; intros e He; apply find_has_id_iff.
  - rewrite list_projects_store in *. auto.
  - revert He. unfold project_routes.create_project, try_catch, bind, new_ObjectId,
      Project_save, Project_findById, Project_findOne.
    destruct (_ || _); [apply Hs'|].
    cbn -[Project.validate]. destruct (Project.validate _); cbn; [|apply Hs'].
    intros He. rewrite map_app, in_app_iff. left. apply Hs', He.
  - rewrite get_project_store in *. auto.
  - revert He. unfold project_routes.update_project, try_catch, bind,
      Project_findOneAndUpdate.
    destruct (Project.validate_update _); [|apply Hs'].
    cbn -[update_first Project.apply_update].
    destruct (List.find _ (projects s)); cbn -[update_first Project.apply_update];
      intros He; rewrite ids_update_first by (intros; apply apply_update_id);
      apply Hs', He.
  - revert He. unfold project_routes.delete_project, try_catch, bind,
      Project_findOneAndDelete, Expense_deleteMany.
    destruct (List.find _ (projects s)) as [p|] eqn:E; cbn.
    + intros He. apply filter_In in He. destruct He as [He Hne].
      apply find_some in E. destruct E as [_ E].
      apply andb_true_iff in E. destruct E as [Hid _]. apply Nat.eqb_eq in Hid.
      apply negb_true_iff, Nat.eqb_neq in Hne.
      apply (ids_remove_first _ _ _ id); [| congruence | apply Hs', He].
      intros q Hq. apply andb_true_iff in Hq. destruct Hq as [Hq _].
      apply Nat.eqb_eq, Hq.
    + rewrite (find_none_remove_first _ _ E). apply Hs'.
  - revert He. unfold project_routes.add_member, try_catch, bind,
      Project_findOneAndUpdate.
    destruct (project_routes.userId body) as [m|]; [|apply Hs'].
    cbn -[update_first Project.apply_update].
    destruct (List.find _ (projects s)); cbn -[update_first Project.apply_update];
      intros He; rewrite ids_update_first by (intros; apply apply_update_id);
      apply Hs', He.
  - rewrite list_expenses_store in *. auto.
  - revert He. unfold expense_routes.create_expense, try_catch, bind, Project_findOne,
      new_ObjectId.
    destruct (_ || _ || _ || _) eqn:Eguard; [apply Hs'|].
    cbn -[Expense.validate Expense_save].
    destruct (List.find _ (projects s)) as [p|] eqn:E; [|apply Hs'].
    unfold Expense_save. destruct (Expense.validate _); [|apply Hs'].
    unfold bind, Project_touch, Expense_insert. cbn -[update_first].
    rewrite ids_update_first by reflexivity.
    intros He. apply in_app_or in He. destruct He as [He | [<- | []]]; [apply Hs', He|].
    cbn. apply find_some in E. destruct E as [Hin E].
    apply andb_true_iff in E. destruct E as [Hid _]. apply Nat.eqb_eq in Hid.
    rewrite <- Hid. apply in_map, Hin.
  - rewrite update_expense_projects. revert He. rewrite update_expense_cases.
    destruct (List.find (expense_id id) (expenses s)) as [e0|]; [|apply Hs']. cbv zeta.
    assert (Hupd : forall u,
               In e (update_first (expense_id id) (Expense.apply_updates u now) (expenses s)) ->
               In (Expense.project e) (map Project._id (projects s))).
    { intros u He. apply in_update_first_expense in He; [|reflexivity].
      destruct He as (e1 & He1 & ->). apply Hs', He1. }
    destruct (Nat.eqb (Expense.createdBy e0) user).
    + destruct (Expense.validate_updates _); [apply Hupd | apply Hs'].
    + destruct (List.find _ (projects s)) as [p|]; [|apply Hs'].
      destruct (Nat.eqb (Project.createdBy p) user); [|apply Hs'].
      destruct (Expense.validate_updates _); [apply Hupd | apply Hs'].
  - rewrite delete_expense_projects. revert He. rewrite delete_expense_cases.
    destruct (List.find (expense_id id) (expenses s)) as [e0|]; [|apply Hs']. cbv zeta.
    assert (Hdel : In e (remove_first (expense_id id) (expenses s)) ->
                   In (Expense.project e) (map Project._id (projects s))).
    { intros He. apply Hs', in_remove_first with (f := expense_id id), He. }
    destruct (Nat.eqb (Expense.createdBy e0) user); [exact Hdel|].
    destruct (List.find _ (projects s)) as [p|]; [|apply Hs'].
    destruct (Nat.eqb (Project.createdBy p) user); [exact Hdel | apply Hs'].
  - rewrite summary_store in *. auto.
Qed.

(** The populated [project] of an expense found in a reachable store is
    never [null]. *)
Lemma reachable_expenses_have_project (includes : list ObjectId -> ObjectId -> bool)
    (s : Store) :
  reachable includes s -> expenses_have_project s.
Proof.
  induction 1 as [|s user now r _ IH].
  - intros e [].
  - apply handle_expenses_have_project, IH.
Qed.

(** * Further properties of the routers *)

(** ** What each writing handler does, case by case *)

Lemma update_first_none {A} (f : A -> bool) (g : A -> A) (l : list A) :
  List.find f l = None -> update_first f g l = l.
Proof.
  induction l as [|y l IH]; simpl; [reflexivity|].
  destruct (f y); [discriminate|]. intros H. rewrite (IH H). reflexivity.
Qed.

Lemma create_project_cases (user : ObjectId) (now : Date)
    (body : project_routes.CreateBody) (s : Store) :
  project_routes.create_project user now body s =
  if falsy_string (project_routes.name body) || is_undefined (project_routes.budget body)
  then (json_error 400 "Name and budget are required", s)
  else if Project.validate (project_init user now body) then
    let ps := projects s ++ [saved_project (nextId s) (project_init user now body) now] in
    ({| status := 201; ok := true;
        data := option_map (fun p => AProject (unpopulated p))
                  (List.find (has_id (nextId s)) ps);
        error := None |},
     set_projects ps (bump_id s))
  else (json_error 500 "Failed to create project", bump_id s).
Proof.
  unfold project_routes.create_project, try_catch, bind, new_ObjectId, Project_save,
    Project_findById, Project_findOne.
  fold (project_init user now body).
  destruct (_ || _); [reflexivity|].
  cbn -[Project.validate project_init].
  destruct (Project.validate (project_init user now body)); reflexivity.
Qed.

Lemma update_project_cases (includes : list ObjectId -> ObjectId -> bool)
    (user : ObjectId) (now : Date) (id : ObjectId)
    (body : project_routes.UpdateBody) (s : Store) :
  project_routes.update_project includes user now id body s =
  let u := Project.Set_ (project_updates includes user body) in
  if Project.validate_update u then
    match List.find (owned_by user id) (projects s) with
    | Some p =>
        (json_data 200 (AProject (unpopulated (Project.apply_update u now p))),
         set_projects (update_first (owned_by user id) (Project.apply_update u now)
                         (projects s)) s)
    | None => (json_error 404 "Project not found or not authorized", s)
    end
  else (json_error 500 "Failed to update project", s).
Proof.
  unfold project_routes.update_project, try_catch, bind, Project_findOneAndUpdate.
  fold (project_updates includes user body). fold (owned_by user id). cbv zeta.
  destruct (Project.validate_update _); [|reflexivity].
  cbn -[update_first Project.apply_update project_updates].
  destruct (List.find (owned_by user id) (projects s)) eqn:E;
    cbn -[update_first Project.apply_update project_updates]; [reflexivity|].
  rewrite (update_first_none _ _ _ E), set_projects_same. reflexivity.
Qed.

Lemma add_member_cases (user : ObjectId) (now : Date) (id : ObjectId)
    (body : project_routes.MemberBody) (s : Store) :
  project_routes.add_member user now id body s =
  match project_routes.userId body with
  | None => (json_error 400 "User ID is required", s)
  | Some m =>
      let u := Project.AddToSet_members m in
      match List.find (joinable_by user id m) (projects s) with
      | Some p =>
          (json_data 200 (AProject (unpopulated (Project.apply_update u now p))),
           set_projects (update_first (joinable_by user id m) (Project.apply_update u now)
                           (projects s)) s)
      | None =>
          (json_error 404 "Project not found, not authorized, or user already a member", s)
      end
  end.
Proof.
  unfold project_routes.add_member, try_catch, bind, Project_findOneAndUpdate.
  destruct (project_routes.userId body) as [m|]; [|reflexivity].
  fold (joinable_by user id m). cbn -[update_first Project.apply_update].
  destruct (List.find (joinable_by user id m) (projects s)) eqn:E;
    cbn -[update_first Project.apply_update]; [reflexivity|].
  rewrite (update_first_none _ _ _ E), set_projects_same. reflexivity.
Qed.

Lemma delete_project_cases (user id : ObjectId) (s : Store) :
  project_routes.delete_project user id s =
  match List.find (owned_by user id) (projects s) with
  | Some p =>
      (json_data 200 (Deleted true),
       {| projects := remove_first (owned_by user id) (projects s);
          expenses := List.filter (fun e => negb (of_project id e)) (expenses s);
          nextId := nextId s |})
  | None => (json_error 404 "Project not found or not authorized", s)
  end.
Proof.
  unfold project_routes.delete_project, try_catch, bind, Project_findOneAndDelete,
    Expense_deleteMany.
  fold (owned_by user id).
  destruct (List.find (owned_by user id) (projects s)) as [p|] eqn:E; cbn.
  - apply find_some in E. destruct E as [_ E]. unfold owned_by in E.
    apply andb_true_iff in E. destruct E as [Hid _]. apply Nat.eqb_eq in Hid.
    rewrite Hid. reflexivity.
  - rewrite (find_none_remove_first _ _ E), set_projects_same. reflexivity.
Qed.

Lemma create_expense_cases (user : ObjectId) (now : Date)
    (body : expense_routes.CreateBody) (s : Store) :
  expense_routes.create_expense user now body s =
  if expense_guard body then
    (json_error 400 "Description, amount, category, and project ID are required", s)
  else
    let i := expense_init user now body in
    match List.find (can_access user (Expense.i_project i)) (projects s) with
    | None => (json_error 404 "Project not found or access denied", s)
    | Some _ =>
        if Expense.validate i then
          let e := saved_expense (nextId s) i now in
          (json_data 201 (AnExpense e),
           {| projects := update_first (has_id (Expense.i_project i)) (Project.touch now)
                            (projects s);
              expenses := expenses s ++ [e];
              nextId := S (nextId s) |})
        else (json_error 500 "Failed to create expense", bump_id s)
    end.
Proof.
  unfold expense_routes.create_expense, try_catch, bind, Project_findOne, new_ObjectId.
  fold (expense_guard body). destruct (expense_guard body); [reflexivity|].
  fold (expense_init user now body). cbv zeta.
  cbn -[Expense.validate Expense_save expense_init].
  change (or_else (expense_routes.projectId body) 0%nat)
    with (Expense.i_project (expense_init user now body)).
  fold (can_access user (Expense.i_project (expense_init user now body))).
  destruct (List.find _ (projects s)); [|reflexivity].
  unfold Expense_save.
  destruct (Expense.validate (expense_init user now body)); [|reflexivity].
  reflexivity.
Qed.

(** ** The effect of a request on the store *)

Lemma handle_effect (includes : list ObjectId -> ObjectId -> bool)
    (user : ObjectId) (now : Date) (r : request) (s : Store) :
  effect includes user now s (snd (handle includes user now r s)).
Proof.
  destruct r as [|body|id|id body|id|id body|pid|body|id body|id|pid]; simpl.
  - rewrite list_projects_store. constructor.
  - rewrite create_project_cases.
    destruct (_ || _); [constructor|].
    destruct (Project.validate _) eqn:E; cbv zeta; simpl snd.
    + apply effect_project_created, E.
    + constructor.
  - rewrite get_project_store. constructor.
  - rewrite update_project_cases. cbv zeta.
    destruct (Project.validate_update _) eqn:E; [|constructor].
    destruct (List.find _ (projects s)) eqn:Ef; simpl snd; [|constructor].
    eapply effect_project_updated; eassumption.
  - rewrite delete_project_cases.
    destruct (List.find _ (projects s)) as [p|] eqn:E; simpl snd; [|constructor].
    eapply effect_project_deleted, E.
  - rewrite add_member_cases.
    destruct (project_routes.userId body) as [m|]; [|constructor]. cbv zeta.
    destruct (List.find _ (projects s)) eqn:Ef; simpl snd; [|constructor].
    eapply effect_member_added, Ef.
  - rewrite list_expenses_store. constructor.
  - rewrite create_expense_cases.
    destruct (expense_guard body) eqn:Eg; [constructor|]. cbv zeta.
    destruct (List.find _ (projects s)) as [p|] eqn:Ef; [|constructor].
    destruct (Expense.validate _) eqn:Ev; simpl snd; [|constructor].
    eapply effect_expense_created; eassumption.
  - rewrite update_expense_cases.
    destruct (List.find (expense_id id) (expenses s)) as [e|] eqn:Ee; [|constructor].
    cbv zeta.
    assert (Hattempt : forall r0 : Response,
              permitted user s e ->
              effect includes user now s
                (snd (if Expense.validate_updates (expense_updates body)
                      then (r0,
                            set_expenses
                              (update_first (expense_id id)
                                 (Expense.apply_updates (expense_updates body) now)
                                 (expenses s)) s)
                      else (json_error 500 "Failed to update expense", s)))).
    { intros r0 Hperm. destruct (Expense.validate_updates _) eqn:E; simpl snd; [|constructor].
      eapply effect_expense_updated; eassumption. }
    destruct (Nat.eqb (Expense.createdBy e) user) eqn:Ec.
    { apply Hattempt. left. apply Nat.eqb_eq, Ec. }
    destruct (List.find _ (projects s)) as [p|] eqn:Ep; [|constructor].
    destruct (Nat.eqb (Project.createdBy p) user) eqn:Eo; [|constructor].
    apply Hattempt. right. exists p. split; [exact Ep | apply Nat.eqb_eq, Eo].
  - rewrite delete_expense_cases.
    destruct (List.find (expense_id id) (expenses s)) as [e|] eqn:Ee; [|constructor].
    cbv zeta.
    destruct (Nat.eqb (Expense.createdBy e) user) eqn:Ec.
    { eapply effect_expense_deleted; [exact Ee|]. left. apply Nat.eqb_eq, Ec. }
    destruct (List.find _ (projects s)) as [p|] eqn:Ep; [|constructor].
    destruct (Nat.eqb (Project.createdBy p) user) eqn:Eo; [|constructor].
    eapply effect_expense_deleted; [exact Ee|].
    right. exists p. split; [exact Ep | apply Nat.eqb_eq, Eo].
  - rewrite summary_store. constructor.
Qed.

(** ** Stored documents satisfy the schemas *)

Lemma nonempty_ne (x : string) : nonempty x = true -> x <> EmptyString.
Proof. destruct x; [discriminate | discriminate]. Qed.

Lemma valid_budget_number (v : number) (d : Q) :
  Project.valid_budget v = true -> 0 <= number_or (Some v) d.
Proof. destruct v as [q|]; simpl; [apply Qle_bool_iff | discriminate]. Qed.

Lemma valid_amount_number (v : number) (d : Q) :
  Expense.valid_amount v = true -> Expense.min_amount <= number_or (Some v) d.
Proof. destruct v as [q|]; simpl; [apply Qle_bool_iff | discriminate]. Qed.

Lemma saved_project_valid (id : ObjectId) (i : Project.init) (now : Date) :
  Project.validate i = true -> project_valid (saved_project id i now).
Proof.
  unfold Project.validate. intros H. apply andb_true_iff in H. destruct H as [Hn Hb].
  split; simpl.
  - apply valid_budget_number, Hb.
  - destruct (Project.i_name i) as [x|]; [|discriminate]. apply nonempty_ne, Hn.
Qed.

Lemma updated_project_valid (u : Project.update) (now : Date) (p : Project.t) :
  Project.validate_update u = true ->
  project_valid p -> project_valid (Project.apply_update u now p).
Proof.
  intros Hv [Hb Hn]. destruct u as [u|m]; [|split; assumption].
  simpl in Hv. apply andb_true_iff in Hv. destruct Hv as [Hvn Hvb]. split; simpl.
  - destruct (Project.u_budget u) as [v|]; simpl in *; [|exact Hb].
    apply (valid_budget_number v (Project.budget p)), Hvb.
  - destruct (Project.u_name u) as [x|]; simpl in *; [|exact Hn].
    apply nonempty_ne, Hvn.
Qed.

Lemma saved_expense_valid (id : ObjectId) (i : Expense.init) (now : Date) :
  Expense.validate i = true -> expense_valid (saved_expense id i now).
Proof.
  unfold Expense.validate. intros H.
  apply andb_true_iff in H. destruct H as [H Hc].
  apply andb_true_iff in H. destruct H as [Hd Ha].
  split; [|split]; simpl.
  - apply valid_amount_number, Ha.
  - apply valid_category_iff, Hc.
  - apply nonempty_ne, Hd.
Qed.

Lemma updated_expense_valid (u : Expense.updates) (now : Date) (e : Expense.t) :
  Expense.validate_updates u = true ->
  expense_valid e -> expense_valid (Expense.apply_updates u now e).
Proof.
  unfold Expense.validate_updates. intros H (Ha & Hc & Hd).
  apply andb_true_iff in H. destruct H as [H Hvc].
  apply andb_true_iff in H. destruct H as [Hvd Hva].
  split; [|split]; simpl.
  - destruct (Expense.u_amount u) as [v|]; simpl in *; [|exact Ha].
    apply (valid_amount_number v (Expense.amount e)), Hva.
  - destruct (Expense.u_category u) as [c|]; simpl in *; [|exact Hc].
    apply valid_category_iff, Hvc.
  - destruct (Expense.u_description u) as [x|]; simpl in *; [|exact Hd].
    apply nonempty_ne, Hvd.
Qed.

Lemma forall_update_first {A} (P : A -> Prop) (f : A -> bool) (g : A -> A) (l : list A) :
  (forall x, P x -> P (g x)) ->
  (forall x, In x l -> P x) ->
  forall x, In x (update_first f g l) -> P x.
Proof.
  intros Hg Hl x Hx. destruct (in_update_first f g l x Hx) as [H | (y & Hy & _ & ->)]; auto.
Qed.

Lemma effect_schema_ok (includes : list ObjectId -> ObjectId -> bool)
    (user : ObjectId) (now : Date) (s s' : Store) :
  effect includes user now s s' -> schema_ok s -> schema_ok s'.
Proof.
  intros He (Hp & Hx).
  destruct He as [| |body Hv|id body p0 Hf Hv|id m p0 Hf|id p Hf|body p Hg Hf Hv
                |id body e0 Hf Hperm Hv|id e0 Hf Hperm];
    unfold schema_ok; simpl; split; auto.
  - intros q Hq. apply in_app_or in Hq. destruct Hq as [Hq | [<- | []]]; [auto|].
    apply saved_project_valid, Hv.
  - apply forall_update_first; [|exact Hp]. intros q. apply updated_project_valid, Hv.
  - apply forall_update_first; [|exact Hp]. intros q. apply updated_project_valid.
    reflexivity.
  - intros q Hq. apply in_remove_first in Hq. auto.
  - intros e Hin. apply filter_In in Hin. apply Hx, Hin.
  - apply forall_update_first; [|exact Hp]. intros q Hq. exact Hq.
  - intros e Hin. apply in_app_or in Hin. destruct Hin as [Hin | [<- | []]]; [auto|].
    apply saved_expense_valid, Hv.
  - apply forall_update_first; [|exact Hx]. intros e. apply updated_expense_valid, Hv.
  - intros e Hin. apply in_remove_first in Hin. auto.
Qed.

Lemma schema_ok_reachable (includes : list ObjectId -> ObjectId -> bool) (s : Store) :
  reachable includes s -> schema_ok s.
Proof.
  induction 1 as [|s user now r _ IH].
  - split; intros x [].
  - eapply effect_schema_ok; [apply handle_effect | exact IH].
Qed.

(** X2. In every store the requests can lead to, each project has a budget
    that is not negative and a name that is not empty, and each expense
    has an amount of at least 0.01, a category of the enumeration and a
    description that is not empty. *)
Theorem reachable_documents_valid (includes : list ObjectId -> ObjectId -> bool)
    (s : Store) :
  reachable includes s ->
  (forall p, In p (projects s) ->
     0 <= Project.budget p /\ Project.name p <> EmptyString)
  /\ (forall e, In e (expenses s) ->
        (1 # 100) <= Expense.amount e
        /\ In (Expense.category e)
             ["marketing"; "development"; "design"; "operations"; "hr"; "other"]%string
        /\ Expense.description e <> EmptyString).
Proof.
  intros H. exact (schema_ok_reachable includes s H).
Qed.

(** ** Reading projects *)

Lemma accessible_iff (user : ObjectId) (p : Project.t) :
  accessible user p = true <-> may_access user p.
Proof.
  unfold accessible, created_by, has_member, may_access.
  rewrite orb_true_iff, Nat.eqb_eq, existsb_exists. split.
  - intros [H | (x & Hin & Hx)]; [left; exact H|].
    apply Nat.eqb_eq in Hx. subst. right. exact Hin.
  - intros [H | H]; [left; exact H|]. right. exists user.
    split; [exact H | apply Nat.eqb_refl].
Qed.

Lemma find_can_access_iff (user id : ObjectId) (ps : list Project.t) :
  (exists p, List.find (can_access user id) ps = Some p)
  <-> exists p, In p ps /\ Project._id p = id /\ may_access user p.
Proof.
  split.
  - intros (p & H). apply find_some in H. destruct H as [Hin H].
    apply andb_true_iff in H. destruct H as [Hid Ha].
    exists p. split; [exact Hin|]. split; [apply Nat.eqb_eq, Hid | apply accessible_iff, Ha].
  - intros (p & Hin & Hid & Ha).
    destruct (List.find (can_access user id) ps) as [q|] eqn:E; [eauto|].
    pose proof (find_none _ _ E _ Hin) as Hn. unfold can_access, has_id in Hn.
    apply accessible_iff in Ha. rewrite Hid, Nat.eqb_refl, Ha in Hn. discriminate.
Qed.

Lemma populated_doc_status (s : Store) (p : Project.t) :
  exists st,
    Project.budgetStatus (populated_doc s p) = Some st
    /\ Project.totalSpent st == spent_on s (Project._id p).
Proof.
  unfold Project.budgetStatus, populated_doc. cbn [Project.totalExpenses Project.fields].
  eexists. split; [reflexivity|]. cbn [Project.totalSpent].
  rewrite fold_contributions, map_map, Qplus_0_l. reflexivity.
Qed.

Lemma get_project_cases (user id : ObjectId) (s : Store) :
  project_routes.get_project user id s =
  match List.find (can_access user id) (projects s) with
  | None => (json_error 404 "Project not found", s)
  | Some p => (json_data 200 (AProject (populated_doc s p)), s)
  end.
Proof.
  unfold project_routes.get_project, try_catch, bind, Project_findOne. cbn.
  fold (can_access user id).
  destruct (List.find (can_access user id) (projects s)); reflexivity.
Qed.

(** X3. Reading one project never changes the store.  It answers 200
    exactly when a stored project has the requested id and the caller
    as owner or member, and 404 otherwise; on 200 the document sent is a
    stored project with that id the caller may access, its expenses are
    populated, and its status is a record whose totalSpent is the sum of
    the amounts of the stored expenses of the project. *)
Theorem get_project_access (user id : ObjectId) (s : Store) :
  let resp := fst (project_routes.get_project user id s) in
  snd (project_routes.get_project user id s) = s
  /\ (status resp = 200%nat <->
      exists p, In p (projects s) /\ Project._id p = id /\ may_access user p)
  /\ (status resp <> 200%nat -> resp = json_error 404 "Project not found")
  /\ (status resp = 200%nat ->
      exists p st,
        resp = json_data 200 (AProject (populated_doc s p))
        /\ In p (projects s) /\ Project._id p = id /\ may_access user p
        /\ Project.budgetStatus (populated_doc s p) = Some st
        /\ Project.totalSpent st == spent_on s id).
Proof.
  cbv zeta. rewrite get_project_cases, <- find_can_access_iff.
  destruct (List.find (can_access user id) (projects s)) as [p|] eqn:E; simpl.
  - split; [reflexivity|]. split; [split; eauto|]. split; [intros H; contradiction|].
    intros _. destruct (populated_doc_status s p) as (st & Hst & Htot).
    apply find_some in E. destruct E as [Hin E].
    apply andb_true_iff in E. destruct E as [Hid Ha]. apply Nat.eqb_eq in Hid.
    exists p, st. split; [reflexivity|]. split; [exact Hin|]. split; [exact Hid|].
    split; [apply accessible_iff, Ha|]. split; [exact Hst|].
    rewrite Htot, Hid. reflexivity.
  - split; [reflexivity|]. split; [split; [discriminate | intros (p & H); discriminate]|].
    split; [reflexivity | discriminate].
Qed.

Lemma mapM_populate (ps : list Project.t) (s : Store) :
  mapM populate_totalExpenses ps s = (Resolved (map (populated_doc s) ps), s).
Proof.
  induction ps as [|p ps IH]; simpl; [reflexivity|].
  unfold bind at 1. unfold populate_totalExpenses at 1. cbn.
  unfold bind. rewrite IH. reflexivity.
Qed.

Lemma list_projects_cases (user : ObjectId) (s : Store) :
  project_routes.list_projects user s =
  (json_data 200
     (Projects (map (populated_doc s)
                  (sort_by project_routes.updatedAt_desc
                     (List.filter (accessible user) (projects s))))),
   s).
Proof.
  unfold project_routes.list_projects, try_catch, bind, Project_find.
  rewrite mapM_populate. reflexivity.
Qed.

Section SortedStrongly.

Context {A : Type}.
Variable before : A -> A -> bool.
Hypothesis before_total : forall x y, before x y = false -> before y x = true.
Hypothesis before_trans :
  forall x y z, before x y = true -> before y z = true -> before x z = true.

Lemma sort_by_strongly_sorted (l : list A) :
  StronglySorted (fun u v => before u v = true) (sort_by before l).
Proof.
  apply Sorted_StronglySorted.
  - intros x y z. apply before_trans.
  - apply sort_by_sorted, before_total.
Qed.

End SortedStrongly.

Lemma StronglySorted_impl {A} (R R' : A -> A -> Prop) (l : list A) :
  (forall x y, R x y -> R' x y) -> StronglySorted R l -> StronglySorted R' l.
Proof.
  intros H. induction 1 as [|x l Hl IH Hx]; constructor; [exact IH|].
  rewrite Forall_forall in *. auto.
Qed.

(** X4. Listing the projects never changes the store and always answers
    200.  The documents sent are the stored projects the caller owns or is
    a member of, each once per stored copy, the most recently updated
    first, and each with its expenses populated, so with a status that is
    not [null]. *)
Theorem list_projects_accessible_sorted (user : ObjectId) (s : Store) :
  exists docs,
    project_routes.list_projects user s = (json_data 200 (Projects docs), s)
    /\ Permutation (map Project.fields docs) (List.filter (accessible user) (projects s))
    /\ (forall p, In p (map Project.fields docs) <-> In p (projects s) /\ may_access user p)
    /\ StronglySorted updated_not_before (map Project.fields docs)
    /\ Forall (fun d => d = populated_doc s (Project.fields d)
                        /\ Project.budgetStatus d <> None) docs.
Proof.
  rewrite list_projects_cases. eexists. split; [reflexivity|].
  set (l := sort_by project_routes.updatedAt_desc (List.filter (accessible user) (projects s))).
  assert (Hfields : map Project.fields (map (populated_doc s) l) = l).
  { rewrite map_map. simpl. apply map_id. }
  rewrite Hfields.
  assert (Hperm : Permutation l (List.filter (accessible user) (projects s))).
  { symmetry. apply sort_by_perm. }
  split; [exact Hperm|]. split; [|split].
  - intros p. rewrite <- accessible_iff, <- filter_In. split; apply Permutation_in.
    + exact Hperm.
    + symmetry. exact Hperm.
  - apply StronglySorted_impl with (R := fun u v => project_routes.updatedAt_desc u v = true).
    + intros x y H. apply Z.leb_le, H.
    + apply sort_by_strongly_sorted.
      * unfold project_routes.updatedAt_desc. intros x y H.
        apply Z.leb_gt in H. apply Z.leb_le. lia.
      * unfold project_routes.updatedAt_desc. intros x y z H1 H2.
        apply Z.leb_le in H1, H2. apply Z.leb_le. lia.
  - apply Forall_forall. intros d Hd. apply in_map_iff in Hd. destruct Hd as (p & <- & _).
    split; [reflexivity|].
    destruct (populated_doc_status s p) as (st & Hst & _). rewrite Hst. discriminate.
Qed.

(** ** Reading the expenses of a project *)

Lemma date_desc_iff (e f : Expense.t) :
  expense_routes.date_desc e f = true <-> dated_not_before e f.
Proof.
  unfold expense_routes.date_desc, dated_not_before.
  rewrite orb_true_iff, andb_true_iff, Z.ltb_lt, Z.eqb_eq, Z.leb_le. reflexivity.
Qed.

Lemma list_expenses_cases (user id : ObjectId) (s : Store) :
  expense_routes.list_expenses user id s =
  match List.find (can_access user id) (projects s) with
  | None => (json_error 404 "Project not found or access denied", s)
  | Some _ =>
      (json_data 200
         (Expenses (sort_by expense_routes.date_desc
                      (List.filter (of_project id) (expenses s)))), s)
  end.
Proof.
  unfold expense_routes.list_expenses, try_catch, bind, Project_findOne, Expense_find. cbn.
  fold (can_access user id).
  destruct (List.find (can_access user id) (projects s)); reflexivity.
Qed.

(** X5. Listing the expenses of a project never changes the store.  A
    caller who is neither owner nor member of a stored project with that
    id receives 404; any other caller receives 200 with exactly the stored
    expenses of the project, the latest date first and, on equal dates,
    the latest created first. *)
Theorem list_expenses_access_sorted (user id : ObjectId) (s : Store) :
  snd (expense_routes.list_expenses user id s) = s
  /\ ((~ exists p, In p (projects s) /\ Project._id p = id /\ may_access user p) ->
      fst (expense_routes.list_expenses user id s)
      = json_error 404 "Project not found or access denied")
  /\ ((exists p, In p (projects s) /\ Project._id p = id /\ may_access user p) ->
      exists es,
        fst (expense_routes.list_expenses user id s) = json_data 200 (Expenses es)
        /\ Permutation es (List.filter (of_project id) (expenses s))
        /\ (forall e, In e es <-> In e (expenses s) /\ Expense.project e = id)
        /\ StronglySorted dated_not_before es).
Proof.
  rewrite list_expenses_cases, <- find_can_access_iff.
  destruct (List.find (can_access user id) (projects s)) as [p|] eqn:E; simpl.
  - split; [reflexivity|]. split; [intros H; exfalso; apply H; eauto|].
    intros _. eexists. split; [reflexivity|].
    assert (Hperm : Permutation
                      (sort_by expense_routes.date_desc
                         (List.filter (of_project id) (expenses s)))
                      (List.filter (of_project id) (expenses s))).
    { symmetry. apply sort_by_perm. }
    split; [exact Hperm|]. split.
    + intros e. rewrite <- (Nat.eqb_eq (Expense.project e) id).
      change (Nat.eqb (Expense.project e) id) with (of_project id e).
      rewrite <- filter_In.
      split; apply Permutation_in; [exact Hperm | symmetry; exact Hperm].
    + apply StronglySorted_impl with (R := fun u v => expense_routes.date_desc u v = true).
      * intros x y. apply date_desc_iff.
      * apply sort_by_strongly_sorted.
        -- intros x y H. apply date_desc_iff.
           assert (Hn : ~ dated_not_before x y)
             by (rewrite <- date_desc_iff; congruence).
           unfold dated_not_before in *. lia.
        -- intros x y z H1 H2. apply date_desc_iff in H1, H2. apply date_desc_iff.
           unfold dated_not_before in *. lia.
  - split; [reflexivity|]. split; [reflexivity|]. intros (q & H). discriminate.
Qed.

(** ** Adding a member *)

Lemma find_joinable_iff (user id m : ObjectId) (ps : list Project.t) :
  (exists p, List.find (joinable_by user id m) ps = Some p)
  <-> exists p, In p ps /\ Project._id p = id /\ Project.createdBy p = user
                /\ ~ In m (Project.members p).
Proof.
  assert (Hj : forall p, joinable_by user id m p = true <->
                         Project._id p = id /\ Project.createdBy p = user
                         /\ ~ In m (Project.members p)).
  { intros p. unfold joinable_by, has_id, created_by, lacks_member, has_member.
    rewrite !andb_true_iff, !Nat.eqb_eq, negb_true_iff.
    assert (Hm : existsb (Nat.eqb m) (Project.members p) = false
                 <-> ~ In m (Project.members p)).
    { rewrite <- not_true_iff_false, existsb_exists. split; intros H H'; apply H.
      - exists m. split; [exact H' | apply Nat.eqb_refl].
      - destruct H' as (x & Hx & Heq). apply Nat.eqb_eq in Heq. subst. exact Hx. }
    rewrite Hm. tauto. }
  split.
  - intros (p & H). apply find_some in H. destruct H as [Hin H].
    exists p. split; [exact Hin | apply Hj, H].
  - intros (p & Hin & H).
    destruct (List.find (joinable_by user id m) ps) as [q|] eqn:E; [eauto|].
    pose proof (find_none _ _ E _ Hin) as Hn. apply Hj in H. congruence.
Qed.

Lemma addToSet_new (m : ObjectId) (l : list ObjectId) :
  ~ In m l -> Project.addToSet m l = l ++ [m].
Proof.
  intros H. unfold Project.addToSet.
  destruct (existsb (Nat.eqb m) l) eqn:E; [|reflexivity].
  apply existsb_exists in E. destruct E as (x & Hx & Heq).
  apply Nat.eqb_eq in Heq. subst. contradiction.
Qed.

Lemma find_split {A} (f : A -> bool) (g : A -> A) (l : list A) (x : A) :
  List.find f l = Some x ->
  exists l1 l2,
    l = l1 ++ x :: l2
    /\ (forall y, In y l1 -> f y = false)
    /\ update_first f g l = l1 ++ g x :: l2
    /\ remove_first f l = l1 ++ l2.
Proof.
  induction l as [|y l IH]; simpl; [discriminate|].
  destruct (f y) eqn:E.
  - intros [= ->]. exists [], l. repeat split. intros y [].
  - intros H. destruct (IH H) as (l1 & l2 & -> & Hl1 & Hu & Hr).
    exists (y :: l1), l2. simpl. rewrite Hu, Hr. repeat split.
    intros z [<- | Hz]; auto.
Qed.

(** X6. Adding a member succeeds exactly when the caller owns a stored
    project with that id of which the user is not yet a member.  On
    success that project, and no other, is replaced in place by itself
    with the user appended to its members and updatedAt set to the instant
    of the request; otherwise the answer is 404 and nothing changes.
    Expenses are never affected. *)
Theorem add_member_outcome (user : ObjectId) (now : Date) (id m : ObjectId) (s : Store) :
  let result := project_routes.add_member user now id (project_routes.mkMemberBody (Some m)) s in
  (status (fst result) = 200%nat <->
   exists p, In p (projects s) /\ Project._id p = id /\ Project.createdBy p = user
             /\ ~ In m (Project.members p))
  /\ (status (fst result) = 200%nat ->
      exists p before after,
        projects s = before ++ p :: after
        /\ Project._id p = id /\ Project.createdBy p = user /\ ~ In m (Project.members p)
        /\ projects (snd result) = before ++ joined m now p :: after
        /\ fst result = json_data 200 (AProject (unpopulated (joined m now p))))
  /\ (status (fst result) <> 200%nat ->
      fst result
      = json_error 404 "Project not found, not authorized, or user already a member"
      /\ snd result = s)
  /\ expenses (snd result) = expenses s.
Proof.
  cbv zeta. rewrite add_member_cases, <- find_joinable_iff. cbn [project_routes.userId].
  cbv zeta.
  destruct (List.find (joinable_by user id m) (projects s)) as [p|] eqn:E;
    cbn [fst snd status json_data json_error].
  - split; [split; eauto|]. split; [|split; [intros H; contradiction | reflexivity]].
    intros _.
    destruct (proj1 (find_joinable_iff user id m [p])) as (q & [<- | []] & Hid & Hown & Hnot).
    { exists p. simpl. apply find_some in E. destruct E as [_ E]. rewrite E. reflexivity. }
    assert (Hp : Project.apply_update (Project.AddToSet_members m) now p = joined m now p).
    { unfold joined. simpl. rewrite (addToSet_new m _ Hnot). reflexivity. }
    destruct (find_split _ (Project.apply_update (Project.AddToSet_members m) now) _ _ E)
      as (l1 & l2 & Hl & _ & Hu & _).
    exists p, l1, l2. rewrite Hp in *. simpl. rewrite Hu. auto 10.
  - split; [split; [discriminate | intros (q & H); discriminate]|].
    split; [discriminate|]. split; [intros _; split; reflexivity | reflexivity].
Qed.

(** ** Updating a project *)

Lemma find_owned_by_iff (user id : ObjectId) (ps : list Project.t) :
  (exists p, List.find (owned_by user id) ps = Some p)
  <-> exists p, In p ps /\ Project._id p = id /\ Project.createdBy p = user.
Proof. apply find_owned_iff. Qed.

(** X7. An update whose fields fail the validation is answered with 500
    and one sent by a caller who owns no stored project with that id with
    404; neither changes anything.  A successful update replaces, in
    place, one project of the caller by a document with the same id,
    owner and creation instant, updatedAt set to the instant of the
    request, each supplied field set (the name trimmed, the members as
    sent with the owner pushed) and each field that was not supplied as
    it was.  Expenses are never affected. *)
Theorem update_project_outcome (includes : list ObjectId -> ObjectId -> bool)
    (user : ObjectId) (now : Date) (id : ObjectId)
    (body : project_routes.UpdateBody) (s : Store) :
  let result := project_routes.update_project includes user now id body s in
  let valid := Project.validate_update (Project.Set_ (project_updates includes user body)) in
  (valid = false ->
   fst result = json_error 500 "Failed to update project" /\ snd result = s)
  /\ (valid = true ->
      (~ exists p, In p (projects s) /\ Project._id p = id /\ Project.createdBy p = user) ->
      fst result = json_error 404 "Project not found or not authorized" /\ snd result = s)
  /\ (status (fst result) = 200%nat ->
      exists p p' before after,
        projects s = before ++ p :: after
        /\ Project._id p = id /\ Project.createdBy p = user
        /\ projects (snd result) = before ++ p' :: after
        /\ fst result = json_data 200 (AProject (unpopulated p'))
        /\ Project._id p' = id /\ Project.createdBy p' = user
        /\ Project.createdAt p' = Project.createdAt p
        /\ Project.updatedAt p' = now
        /\ Project.name p'
           = match project_routes.u_name body with
             | Some n => trim n
             | None => Project.name p
             end
        /\ Project.description p'
           = match project_routes.u_description body with
             | Some d => Some (trim d)
             | None => Project.description p
             end
        /\ Project.budget p'
           = match project_routes.u_budget body with
             | Some (Num q) => q
             | _ => Project.budget p
             end
        /\ Project.startDate p'
           = match project_routes.u_startDate body with
             | Some d => cast_date d
             | None => Project.startDate p
             end
        /\ Project.endDate p'
           = match project_routes.u_endDate body with
             | Some d => Some (cast_date d)
             | None => Project.endDate p
             end
        /\ Project.members p'
           = match project_routes.u_members body with
             | Some l => project_routes.with_creator includes user l
             | None => Project.members p
             end)
  /\ expenses (snd result) = expenses s.
Proof.
  cbv zeta. rewrite update_project_cases, <- find_owned_by_iff. cbv zeta.
  destruct (Project.validate_update _) eqn:Ev.
  2:{ split; [auto|]. split; [discriminate|]. split; [discriminate | reflexivity]. }
  destruct (List.find (owned_by user id) (projects s)) as [p|] eqn:E;
    cbn [fst snd status json_data json_error].
  - split; [discriminate|]. split; [intros _ H; exfalso; apply H; eauto|].
    split; [|reflexivity]. intros _.
    destruct (find_split _ (Project.apply_update
                              (Project.Set_ (project_updates includes user body)) now) _ _ E)
      as (l1 & l2 & Hl & _ & Hu & _).
    apply find_some in E. destruct E as [_ E]. unfold owned_by in E.
    apply andb_true_iff in E. destruct E as [Hid Hown].
    apply Nat.eqb_eq in Hid, Hown.
    eexists p, _, l1, l2. split; [exact Hl|]. split; [exact Hid|]. split; [exact Hown|].
    split; [simpl; exact Hu|]. split; [reflexivity|].
    simpl. repeat split; try assumption; try reflexivity.
    all: try (destruct (project_routes.u_budget body) as [[q|]|]; reflexivity).
    all: try (destruct (project_routes.u_members body); reflexivity).
    all: try (destruct (project_routes.u_startDate body); reflexivity).
    all: destruct (project_routes.u_endDate body); reflexivity.
  - split; [discriminate|]. split; [auto|]. split; [discriminate | reflexivity].
Qed.

(** ** Updating an expense *)

(** X8. A successful update of an expense replaces, in place, the stored
    expense by a document with the same id, project, creator and creation
    instant, updatedAt set to the instant of the request, each supplied
    field set (the description trimmed) and each field that was not
    supplied as it was.  No project is written: updating an expense, like
    deleting one, does not refresh updatedAt of the project. *)
Theorem update_expense_outcome (user : ObjectId) (now : Date) (id : ObjectId)
    (body : expense_routes.UpdateBody) (s : Store) :
  let result := expense_routes.update_expense user now id body s in
  projects (snd result) = projects s
  /\ nextId (snd result) = nextId s
  /\ (status (fst result) <> 200%nat -> snd result = s)
  /\ (status (fst result) = 200%nat ->
      exists e e' before after,
        expenses s = before ++ e :: after
        /\ Expense._id e = id
        /\ (forall x, In x before -> Expense._id x <> id)
        /\ expenses (snd result) = before ++ e' :: after
        /\ data (fst result) = Some (AnExpense e')
        /\ Expense._id e' = id
        /\ Expense.project e' = Expense.project e
        /\ Expense.createdBy e' = Expense.createdBy e
        /\ Expense.createdAt e' = Expense.createdAt e
        /\ Expense.updatedAt e' = now
        /\ Expense.description e'
           = match expense_routes.u_description body with
             | Some d => trim d
             | None => Expense.description e
             end
        /\ Expense.amount e'
           = match expense_routes.u_amount body with
             | Some (Num q) => q
             | _ => Expense.amount e
             end
        /\ Expense.category e' = or_else (expense_routes.u_category body) (Expense.category e)
        /\ Expense.date e'
           = match expense_routes.u_date body with
             | Some d => cast_date d
             | None => Expense.date e
             end).
Proof.
  cbv zeta. split; [apply update_expense_projects|].
  rewrite update_expense_cases.
  destruct (List.find (expense_id id) (expenses s)) as [e|] eqn:E.
  2:{ split; [reflexivity|]. split; [reflexivity | discriminate]. }
  cbv zeta.
  assert (Hattempt :
    forall r, r = (if Expense.validate_updates (expense_updates body)
                   then ({| status := 200; ok := true;
                            data := Some (AnExpense
                                            (Expense.apply_updates (expense_updates body) now e));
                            error := None |},
                         set_expenses
                           (update_first (expense_id id)
                              (Expense.apply_updates (expense_updates body) now)
                              (expenses s)) s)
                   else (json_error 500 "Failed to update expense", s)) ->
    nextId (snd r) = nextId s
    /\ (status (fst r) <> 200%nat -> snd r = s)
    /\ (status (fst r) = 200%nat ->
        exists e0 e' before after,
          expenses s = before ++ e0 :: after
          /\ Expense._id e0 = id
          /\ (forall x, In x before -> Expense._id x <> id)
          /\ expenses (snd r) = before ++ e' :: after
          /\ data (fst r) = Some (AnExpense e')
          /\ Expense._id e' = id
          /\ Expense.project e' = Expense.project e0
          /\ Expense.createdBy e' = Expense.createdBy e0
          /\ Expense.createdAt e' = Expense.createdAt e0
          /\ Expense.updatedAt e' = now
          /\ Expense.description e'
             = match expense_routes.u_description body with
               | Some d => trim d
               | None => Expense.description e0
               end
          /\ Expense.amount e'
             = match expense_routes.u_amount body with
               | Some (Num q) => q
               | _ => Expense.amount e0
               end
          /\ Expense.category e'
             = or_else (expense_routes.u_category body) (Expense.category e0)
          /\ Expense.date e'
             = match expense_routes.u_date body with
               | Some d => cast_date d
               | None => Expense.date e0
               end)).
  { intros r ->. destruct (Expense.validate_updates _).
    2:{ split; [reflexivity|]. split; [reflexivity | discriminate]. }
    cbn [fst snd status]. split; [reflexivity|]. split; [intros H; contradiction|].
    intros _.
    destruct (find_split _ (Expense.apply_updates (expense_updates body) now) _ _ E)
      as (l1 & l2 & Hl & Hl1 & Hu & _).
    apply find_some in E. destruct E as [_ E]. apply Nat.eqb_eq in E.
    eexists e, _, l1, l2. split; [exact Hl|]. split; [exact E|]. split.
    { intros x Hx. apply Hl1 in Hx. apply Nat.eqb_neq, Hx. }
    split; [simpl; exact Hu|]. split; [reflexivity|].
    simpl. repeat split; try assumption; try reflexivity.
    all: try (destruct (expense_routes.u_amount body) as [[q|]|]; reflexivity).
    all: try (destruct (expense_routes.u_category body); reflexivity).
    all: destruct (expense_routes.u_date body); reflexivity. }
  destruct (Nat.eqb (Expense.createdBy e) user); [apply Hattempt; reflexivity|].
  destruct (List.find _ (projects s)) as [p|].
  2:{ split; [reflexivity|]. split; [reflexivity | discriminate]. }
  destruct (Nat.eqb (Project.createdBy p) user); [apply Hattempt; reflexivity|].
  split; [reflexivity|]. split; [reflexivity | discriminate].
Qed.

(** ** Creating a project *)

Lemma trim_empty : trim EmptyString = EmptyString.
Proof. reflexivity. Qed.

Lemma find_snoc_fresh {A} (key : A -> nat) (l : list A) (x : A) :
  ~ In (key x) (map key l) ->
  List.find (fun y => Nat.eqb (key y) (key x)) (l ++ [x]) = Some x.
Proof.
  intros H. induction l as [|y l IH]; simpl.
  - rewrite Nat.eqb_refl. reflexivity.
  - destruct (Nat.eqb (key y) (key x)) eqn:Hy.
    + exfalso. apply H. left. apply Nat.eqb_eq, Hy.
    + apply IH. intros Hz. apply H. right. exact Hz.
Qed.

(** X9. When the id generated for the document is that of no stored
    project, a request with a name that is not blank (white space of any
    kind stripped) and a budget that is a number not below zero is
    answered with 201 and the project as stored: the generated id, the
    name trimmed, that budget, the caller as owner and only member, the
    start date sent, or the instant of the request when none is sent or
    the number 0 is, both timestamps at that instant.  The project is
    appended to the stored ones, which are untouched, as are the
    expenses. *)
Theorem create_project_success (user : ObjectId) (now : Date)
    (body : project_routes.CreateBody) (s : Store) (n : string) (q : Q) :
  ~ In (nextId s) (map Project._id (projects s)) ->
  project_routes.name body = Some n ->
  nonempty (trim n) = true ->
  project_routes.budget body = Some (Num q) ->
  0 <= q ->
  let p := {| Project._id := nextId s;
              Project.name := trim n;
              Project.description := option_map trim (project_routes.description body);
              Project.budget := q;
              Project.startDate := date_or_now (project_routes.startDate body) now;
              Project.endDate := option_map cast_date (project_routes.endDate body);
              Project.createdBy := user;
              Project.members := [user];
              Project.createdAt := now;
              Project.updatedAt := now |} in
  let result := project_routes.create_project user now body s in
  fst result = json_data 201 (AProject (unpopulated p))
  /\ projects (snd result) = projects s ++ [p]
  /\ expenses (snd result) = expenses s.
Proof.
  intros Hids Hn Hne Hb Hq p. rewrite create_project_cases.
  rewrite Hn, Hb.
  assert (Hf : falsy_string (Some n) = false).
  { destruct n; [discriminate Hne | reflexivity]. }
  rewrite Hf. cbn [is_undefined orb].
  assert (Hv : Project.validate (project_init user now body) = true).
  { unfold Project.validate, project_init. cbn [Project.i_name Project.i_budget].
    rewrite Hn, Hb. unfold Project.valid_name. rewrite Hne. simpl.
    apply Qle_bool_iff, Hq. }
  rewrite Hv. cbv zeta.
  assert (Hp : saved_project (nextId s) (project_init user now body) now = p).
  { unfold saved_project, project_init, p. simpl. rewrite Hn, Hb. reflexivity. }
  rewrite Hp.
  assert (Hfind : List.find (has_id (nextId s)) (projects s ++ [p]) = Some p).
  { apply (find_snoc_fresh Project._id (projects s) p). exact Hids. }
  rewrite Hfind. cbn [fst snd projects expenses]. auto.
Qed.

(** ** Creating an expense *)

Lemma sum_amounts_snoc (xs : list Q) (x : Q) : sum_amounts (xs ++ [x]) == sum_amounts xs + x.
Proof. rewrite sum_amounts_app. simpl. ring. Qed.

Lemma spent_on_snoc (ps : list Project.t) (es : list Expense.t) (e : Expense.t)
    (n : ObjectId) (id : ObjectId) :
  spent_on {| projects := ps; expenses := es ++ [e]; nextId := n |} id
  == spent_on {| projects := ps; expenses := es; nextId := n |} id
     + (if of_project id e then Expense.amount e else 0).
Proof.
  unfold spent_on. simpl. rewrite filter_app, map_app, sum_amounts_app. simpl.
  destruct (of_project id e); simpl; ring.
Qed.

Lemma spent_on_expenses (s s' : Store) (id : ObjectId) :
  expenses s = expenses s' -> spent_on s id = spent_on s' id.
Proof. unfold spent_on. intros ->. reflexivity. Qed.

(** X10. A request to log an expense that carries a description that is not
    blank (white space of any kind stripped), an amount of at least 0.01,
    a category of the enumeration and the id of a project is answered with
    404, and changes nothing, when the caller is neither owner nor member
    of a stored project with that id.  Otherwise it is answered with 201
    and the expense as stored: the generated id, the description trimmed,
    that amount and category, the date sent, or the instant of the request
    when none is sent or the number 0 is, the project, the caller as
    creator.  The expense is appended to the stored ones, which are
    untouched, and what is spent on the project grows by the amount while
    what is spent on every other project stays. *)
Theorem create_expense_success (user : ObjectId) (now : Date)
    (body : expense_routes.CreateBody) (s : Store)
    (d c : string) (q : Q) (pid : ObjectId) :
  expense_routes.description body = Some d ->
  nonempty (trim d) = true ->
  expense_routes.amount body = Some (Num q) ->
  Expense.min_amount <= q ->
  expense_routes.category body = Some c ->
  In c Expense.categories ->
  expense_routes.projectId body = Some pid ->
  let result := expense_routes.create_expense user now body s in
  let e := {| Expense._id := nextId s;
              Expense.description := trim d;
              Expense.amount := q;
              Expense.category := c;
              Expense.date := date_or_now (expense_routes.date body) now;
              Expense.project := pid;
              Expense.createdBy := user;
              Expense.createdAt := now;
              Expense.updatedAt := now |} in
  ((~ exists p, In p (projects s) /\ Project._id p = pid /\ may_access user p) ->
   result = (json_error 404 "Project not found or access denied", s))
  /\ ((exists p, In p (projects s) /\ Project._id p = pid /\ may_access user p) ->
      fst result = json_data 201 (AnExpense e)
      /\ expenses (snd result) = expenses s ++ [e]
      /\ spent_on (snd result) pid == spent_on s pid + q
      /\ (forall other, other <> pid -> spent_on (snd result) other == spent_on s other)).
Proof.
  intros Hd Hne Ha Hq Hc Hin Hp. cbv zeta. rewrite create_expense_cases.
  assert (Hg : expense_guard body = false).
  { unfold expense_guard. rewrite Hd, Ha, Hc, Hp.
    destruct d; [discriminate Hne|]. destruct c; [|reflexivity].
    exfalso. revert Hin. unfold Expense.categories. simpl.
    intros [H | [H | [H | [H | [H | [H | []]]]]]]; discriminate. }
  rewrite Hg. cbv zeta.
  assert (Hpid : Expense.i_project (expense_init user now body) = pid).
  { unfold expense_init. simpl. rewrite Hp. reflexivity. }
  rewrite Hpid, <- find_can_access_iff.
  destruct (List.find (can_access user pid) (projects s)) as [p|] eqn:E.
  2:{ split; [reflexivity|]. intros (p & H). discriminate. }
  split; [intros H; exfalso; apply H; eauto|]. intros _.
  assert (Hv : Expense.validate (expense_init user now body) = true).
  { unfold Expense.validate, expense_init.
    cbn [Expense.i_description Expense.i_amount Expense.i_category].
    rewrite Hd, Ha, Hc. unfold Expense.valid_description. simpl or_else. rewrite Hne.
    simpl. rewrite (proj2 (valid_category_iff c) Hin), andb_true_r.
    apply Qle_bool_iff, Hq. }
  rewrite Hv.
  assert (He : saved_expense (nextId s) (expense_init user now body) now
               = {| Expense._id := nextId s; Expense.description := trim d;
                    Expense.amount := q; Expense.category := c;
                    Expense.date := date_or_now (expense_routes.date body) now;
                    Expense.project := pid; Expense.createdBy := user;
                    Expense.createdAt := now; Expense.updatedAt := now |}).
  { unfold saved_expense, expense_init. simpl. rewrite Hd, Ha, Hc, Hp. reflexivity. }
  rewrite He. cbn [fst snd expenses nextId].
  split; [reflexivity|]. split; [reflexivity|].
  split.
  - rewrite spent_on_snoc. unfold of_project. simpl. rewrite Nat.eqb_refl.
    rewrite (spent_on_expenses _ s pid) by reflexivity. reflexivity.
  - intros other Hother. rewrite spent_on_snoc. unfold of_project. simpl.
    apply Nat.neq_sym, Nat.eqb_neq in Hother. rewrite Hother.
    rewrite (spent_on_expenses _ s other) by reflexivity. ring.
Qed.

(** ** What a deletion removes and what it keeps *)

Lemma find_has_id_none (id : ObjectId) (ps : list Project.t) :
  ~ In id (map Project._id ps) -> List.find (has_id id) ps = None.
Proof.
  intros H. destruct (List.find (has_id id) ps) as [p|] eqn:E; [|reflexivity].
  exfalso. apply H, find_has_id_iff. eauto.
Qed.

Lemma NoDup_middle_absent {A B} (key : A -> B) (l1 l2 : list A) (x : A) :
  NoDup (map key (l1 ++ x :: l2)) -> ~ In (key x) (map key (l1 ++ l2)).
Proof.
  rewrite !map_app. simpl. intros H. apply NoDup_remove_2 in H. exact H.
Qed.

Lemma filter_other_project (id other : ObjectId) (es : list Expense.t) :
  other <> id ->
  List.filter (of_project other) (List.filter (fun e => negb (of_project id e)) es)
  = List.filter (of_project other) es.
Proof.
  intros Hother. induction es as [|e es IH]; simpl; [reflexivity|].
  destruct (of_project id e) eqn:E1; simpl.
  - assert (E2 : of_project other e = false).
    { unfold of_project in *. apply Nat.eqb_eq in E1. apply Nat.eqb_neq. congruence. }
    rewrite E2. exact IH.
  - destruct (of_project other e); [f_equal|]; exact IH.
Qed.

(** X11. Where the ids of the stored projects are pairwise distinct, a
    successful deletion of a project removes that project and nothing
    else from the projects, so that no project with the id is stored any
    more, and removes from the expenses exactly those of the project,
    keeping the others in their order; what is spent on any other project
    is as before. *)
Theorem delete_project_frame (user id : ObjectId) (s : Store) :
  NoDup (map Project._id (projects s)) ->
  status (fst (project_routes.delete_project user id s)) = 200%nat ->
  let s' := snd (project_routes.delete_project user id s) in
  (exists p before after,
     projects s = before ++ p :: after
     /\ Project._id p = id /\ Project.createdBy p = user
     /\ projects s' = before ++ after)
  /\ List.find (has_id id) (projects s') = None
  /\ expenses s' = List.filter (fun e => negb (Nat.eqb (Expense.project e) id)) (expenses s)
  /\ (forall e, In e (expenses s') <-> In e (expenses s) /\ Expense.project e <> id)
  /\ (forall other, other <> id -> spent_on s' other = spent_on s other)
  /\ nextId s' = nextId s.
Proof.
  intros Hnd. rewrite delete_project_cases.
  destruct (List.find (owned_by user id) (projects s)) as [p|] eqn:E;
    [|discriminate].
  intros _. cbn [snd projects expenses nextId].
  destruct (find_split _ (fun x => x) _ _ E) as (l1 & l2 & Hl & _ & _ & Hr).
  apply find_some in E. destruct E as [_ E]. unfold owned_by in E.
  apply andb_true_iff in E. destruct E as [Hid Hown]. apply Nat.eqb_eq in Hid, Hown.
  split; [exists p, l1, l2; auto|]. split.
  { rewrite Hr. apply find_has_id_none. rewrite <- Hid.
    apply NoDup_middle_absent. rewrite <- Hl. exact Hnd. }
  split; [reflexivity|]. split.
  { intros e. rewrite filter_In, negb_true_iff. unfold of_project.
    rewrite Nat.eqb_neq. reflexivity. }
  split; [|reflexivity].
  intros other Hother. unfold spent_on. cbn [expenses].
  rewrite (filter_other_project id other (expenses s) Hother). reflexivity.
Qed.

Lemma find_expense_none (id : ObjectId) (es : list Expense.t) :
  ~ In id (map Expense._id es) -> List.find (expense_id id) es = None.
Proof.
  intros H. destruct (List.find (expense_id id) es) as [e|] eqn:E; [|reflexivity].
  exfalso. apply H. apply find_some in E. destruct E as [Hin E].
  apply Nat.eqb_eq in E. rewrite <- E. apply in_map, Hin.
Qed.

(** X12. Where the ids of the stored expenses are pairwise distinct, a
    successful deletion of an expense removes that expense and nothing
    else, so that no expense with the id is stored any more and a second
    deletion is answered with 404; what is spent on its project drops by
    its amount. *)
Theorem delete_expense_frame (user id : ObjectId) (s : Store) :
  NoDup (map Expense._id (expenses s)) ->
  status (fst (expense_routes.delete_expense user id s)) = 200%nat ->
  let s' := snd (expense_routes.delete_expense user id s) in
  exists e before after,
    expenses s = before ++ e :: after
    /\ Expense._id e = id
    /\ expenses s' = before ++ after
    /\ List.find (expense_id id) (expenses s') = None
    /\ fst (expense_routes.delete_expense user id s')
       = json_error 404 "Expense not found"
    /\ spent_on s (Expense.project e) == spent_on s' (Expense.project e) + Expense.amount e.
Proof.
  intros Hnd Hok. cbv zeta.
  assert (Hs' : exists e, List.find (expense_id id) (expenses s) = Some e
                          /\ snd (expense_routes.delete_expense user id s)
                             = set_expenses (remove_first (expense_id id) (expenses s)) s).
  { revert Hok. rewrite delete_expense_cases.
    destruct (List.find (expense_id id) (expenses s)) as [e|]; [|discriminate]. cbv zeta.
    destruct (Nat.eqb (Expense.createdBy e) user); [eauto|].
    destruct (List.find _ (projects s)) as [p|]; [|discriminate].
    destruct (Nat.eqb (Project.createdBy p) user); [eauto | discriminate]. }
  destruct Hs' as (e & E & ->).
  destruct (find_split _ (fun x => x) _ _ E) as (l1 & l2 & Hl & _ & _ & Hr).
  apply find_some in E. destruct E as [_ E]. apply Nat.eqb_eq in E.
  assert (Hgone : List.find (expense_id id) (l1 ++ l2) = None).
  { apply find_expense_none. rewrite <- E. apply NoDup_middle_absent.
    rewrite <- Hl. exact Hnd. }
  exists e, l1, l2. cbn [expenses set_expenses]. rewrite Hr.
  split; [exact Hl|]. split; [exact E|]. split; [reflexivity|]. split; [exact Hgone|].
  split.
  - rewrite delete_expense_cases. cbn [expenses set_expenses]. rewrite Hgone. reflexivity.
  - unfold spent_on. cbn [expenses set_expenses]. rewrite Hl, !filter_app, !map_app, !sum_amounts_app.
    simpl. unfold of_project at 2. rewrite Nat.eqb_refl. simpl. ring.
Qed.

(** ** Membership gives access *)

(** X13. Once the owner has added a user to a project, that user can read
    the project, list its expenses and read its summary: each of the
    three requests is answered with 200. *)
Theorem member_gains_access (owner : ObjectId) (now : Date) (id m : ObjectId) (s : Store) :
  status (fst (project_routes.add_member owner now id
                 (project_routes.mkMemberBody (Some m)) s)) = 200%nat ->
  let s' := snd (project_routes.add_member owner now id
                   (project_routes.mkMemberBody (Some m)) s) in
  status (fst (project_routes.get_project m id s')) = 200%nat
  /\ status (fst (expense_routes.list_expenses m id s')) = 200%nat
  /\ status (fst (expense_routes.summary m id s')) = 200%nat.
Proof.
  intros Hok. cbv zeta.
  assert (Hacc : exists p, List.find (can_access m id)
                             (projects (snd (project_routes.add_member owner now id
                                               (project_routes.mkMemberBody (Some m)) s)))
                           = Some p).
  { revert Hok. rewrite add_member_cases. cbn [project_routes.userId]. cbv zeta.
    destruct (List.find (joinable_by owner id m) (projects s)) as [p|] eqn:E;
      [|discriminate].
    intros _. cbn [snd projects set_projects].
    destruct (find_split _ (Project.apply_update (Project.AddToSet_members m) now) _ _ E)
      as (l1 & l2 & _ & _ & Hu & _).
    rewrite Hu. apply find_can_access_iff.
    exists (Project.apply_update (Project.AddToSet_members m) now p).
    split; [apply in_or_app; right; left; reflexivity|].
    apply find_some in E. destruct E as [_ E]. unfold joinable_by in E.
    apply andb_true_iff in E. destruct E as [E _].
    apply andb_true_iff in E. destruct E as [Hid _]. apply Nat.eqb_eq in Hid.
    split; [exact Hid|]. right. simpl. unfold Project.addToSet.
    destruct (existsb (Nat.eqb m) (Project.members p)) eqn:Em.
    - apply existsb_exists in Em. destruct Em as (x & Hx & Heq).
      apply Nat.eqb_eq in Heq. subst. exact Hx.
    - apply in_or_app. right. left. reflexivity. }
  destruct Hacc as (p & Hp).
  rewrite get_project_cases, list_expenses_cases.
  unfold expense_routes.summary, try_catch, bind, Project_findOne, Expense_aggregate.
  fold (can_access m id). cbn -[sort_by can_access]. rewrite Hp. auto.
Qed.

(** ** What a caller without any right can do *)

(** X14. Whatever request an outsider sends, the stored expenses stay as
    they are and so do the stored projects, to which at most one project
    owned by the caller is appended. *)
Theorem outsider_changes_nothing (includes : list ObjectId -> ObjectId -> bool)
    (user : ObjectId) (now : Date) (r : request) (s : Store) :
  outsider user s ->
  let s' := snd (handle includes user now r s) in
  expenses s' = expenses s
  /\ (projects s' = projects s
      \/ exists p, projects s' = projects s ++ [p]
                   /\ Project.createdBy p = user /\ Project.members p = [user]).
Proof.
  intros [Hp Hx]. cbv zeta.
  assert (Hnone : forall f p, List.find f (projects s) = Some p ->
                              (forall q, f q = true -> may_access user q) -> False).
  { intros f p Hf Hacc. apply find_some in Hf. destruct Hf as [Hin Hf].
    exact (Hp p Hin (Hacc p Hf)). }
  assert (Hown : forall id q, owned_by user id q = true -> may_access user q).
  { intros id q H. unfold owned_by in H. apply andb_true_iff in H.
    left. apply Nat.eqb_eq, H. }
  assert (Hperm : forall e, In e (expenses s) -> ~ permitted user s e).
  { intros e Hin [H | (p & Hf & Ho)]; [exact (Hx e Hin H)|].
    apply find_some in Hf. destruct Hf as [Hpin _]. apply (Hp p Hpin). left. exact Ho. }
  destruct (handle_effect includes user now r s)
    as [| |body Hv|id body p0 Hf Hv|id m p0 Hf|id p Hf|body p Hg Hf Hv
        |id body e0 Hf Hpe Hv|id e0 Hf Hpe]; simpl.
  - auto.
  - auto.
  - split; [reflexivity|]. right. eexists. split; [reflexivity|]. split; reflexivity.
  - exfalso. exact (Hnone _ _ Hf (Hown id)).
  - exfalso. apply (Hnone _ _ Hf). intros q H. unfold joinable_by in H.
    apply andb_true_iff in H. destruct H as [H _]. exact (Hown id q H).
  - exfalso. exact (Hnone _ _ Hf (Hown id)).
  - exfalso. apply (Hnone _ _ Hf). intros q H. unfold can_access in H.
    apply andb_true_iff in H. apply accessible_iff, H.
  - exfalso. apply find_some in Hf. exact (Hperm e0 (proj1 Hf) Hpe).
  - exfalso. apply find_some in Hf. exact (Hperm e0 (proj1 Hf) Hpe).
Qed.

(** ** What no request ever changes *)

(** X15. Whatever the request and the caller, every project stored
    afterwards either is the one project the request has created, owned by
    the caller, or continues a project stored before with the same id,
    owner and creation instant; and every expense stored afterwards
    either is the one expense the request has created, by the caller, or
    continues an expense stored before with the same id, project, creator
    and creation instant.  Owners, creators and the project of an expense
    are never reassigned. *)
Theorem references_are_immutable (includes : list ObjectId -> ObjectId -> bool)
    (user : ObjectId) (now : Date) (r : request) (s : Store) :
  let s' := snd (handle includes user now r s) in
  (forall p', In p' (projects s') ->
     (Project._id p' = nextId s /\ Project.createdBy p' = user
      /\ Project.createdAt p' = now)
     \/ exists p, In p (projects s)
                  /\ Project._id p' = Project._id p
                  /\ Project.createdBy p' = Project.createdBy p
                  /\ Project.createdAt p' = Project.createdAt p)
  /\ (forall e', In e' (expenses s') ->
        (Expense._id e' = nextId s /\ Expense.createdBy e' = user
         /\ Expense.createdAt e' = now)
        \/ exists e, In e (expenses s)
                     /\ Expense._id e' = Expense._id e
                     /\ Expense.project e' = Expense.project e
                     /\ Expense.createdBy e' = Expense.createdBy e
                     /\ Expense.createdAt e' = Expense.createdAt e).
Proof.
  cbv zeta.
  assert (Hsame_p : forall p, In p (projects s) ->
            exists p0, In p0 (projects s)
                       /\ Project._id p = Project._id p0
                       /\ Project.createdBy p = Project.createdBy p0
                       /\ Project.createdAt p = Project.createdAt p0) by eauto.
  assert (Hsame_e : forall e, In e (expenses s) ->
            exists e0, In e0 (expenses s)
                       /\ Expense._id e = Expense._id e0
                       /\ Expense.project e = Expense.project e0
                       /\ Expense.createdBy e = Expense.createdBy e0
                       /\ Expense.createdAt e = Expense.createdAt e0) by eauto 6.
  assert (Hupd_p : forall f g,
            (forall p, Project._id (g p) = Project._id p
                       /\ Project.createdBy (g p) = Project.createdBy p
                       /\ Project.createdAt (g p) = Project.createdAt p) ->
            forall p', In p' (update_first f g (projects s)) ->
            exists p, In p (projects s)
                      /\ Project._id p' = Project._id p
                      /\ Project.createdBy p' = Project.createdBy p
                      /\ Project.createdAt p' = Project.createdAt p).
  { intros f g Hg p' Hin.
    destruct (in_update_first f g _ _ Hin) as [H | (y & Hy & _ & ->)]; [eauto|].
    exists y. split; [exact Hy | apply Hg]. }
  destruct (handle_effect includes user now r s)
    as [| |body Hv|id body p0 Hf Hv|id m p0 Hf|id p Hf|body p Hg Hf Hv
        |id body e0 Hf Hpe Hv|id e0 Hf Hpe]; simpl; split; auto.
  - intros p' Hin. apply in_app_or in Hin. destruct Hin as [Hin | [<- | []]]; [auto|].
    left. repeat split.
  - intros p' Hin. right. revert p' Hin. apply Hupd_p. intros q. repeat split.
  - intros p' Hin. right. revert p' Hin. apply Hupd_p. intros q. repeat split.
  - intros p' Hin. apply in_remove_first in Hin. auto.
  - intros e' Hin. apply filter_In in Hin. destruct Hin as [Hin _]. auto.
  - intros p' Hin. right. revert p' Hin. apply Hupd_p. intros q. repeat split.
  - intros e' Hin. apply in_app_or in Hin. destruct Hin as [Hin | [<- | []]]; [auto|].
    left. repeat split.
  - intros e' Hin. right.
    destruct (in_update_first _ _ _ _ Hin) as [H | (y & Hy & _ & ->)]; [auto|].
    exists y. repeat split. exact Hy.
  - intros e' Hin. apply in_remove_first in Hin. auto.
Qed.

(** ** Bounds on the budget status *)

Lemma binary_round_nonnegative (m : positive) (e : Z) :
  Double.nonnegative (binary_round Double.prec Double.emax false m e).
Proof.
  unfold binary_round. destruct (shl_align _ _ _) as [mz ez].
  pose proof (binary_round_aux_sign false (Zpos mz) ez loc_Exact ltac:(lia)) as H.
  destruct (binary_round_aux _ _ _ _ _ _) as [s|s| |s m' e']; try contradiction; subst;
    exact I.
Qed.

Lemma of_Z_nonnegative (n : Z) : (0 <= n)%Z -> Double.nonnegative (Double.of_Z n).
Proof.
  intros Hn. unfold Double.of_Z, binary_normalize.
  destruct n as [|p|p]; [exact I | apply binary_round_nonnegative | lia].
Qed.

Lemma div_nonnegative (t : Double.double) (m : positive) (e : Z) :
  Double.nonnegative t -> Double.nonnegative (Double.div t (S754_finite false m e)).
Proof.
  destruct t as [[|]|[|]| |[|] mt et]; simpl; try contradiction; intros _; try exact I.
  unfold SFdiv_core_binary.
  match goal with |- context [Z.div_eucl ?a ?b] =>
    pose proof (Z.div_pos a b) as Hq; unfold Z.div in Hq;
    destruct (Z.div_eucl a b) as [q r] end.
  assert (H0 : (0 <= q)%Z).
  { apply Hq; [|lia]. destruct (_ - _)%Z; try lia. apply Z.shiftl_nonneg. lia. }
  match goal with |- context [binary_round_aux _ _ _ q ?ez ?lz] =>
    pose proof (binary_round_aux_sign false q ez lz H0) as H end.
  destruct (binary_round_aux _ _ _ _ _ _) as [s|s| |s m' e']; try contradiction; subst;
    exact I.
Qed.

Lemma mul_nonnegative (q : Double.double) (m : positive) (e : Z) :
  Double.nonnegative q -> Double.nonnegative (Double.mul q (S754_finite false m e)).
Proof.
  destruct q as [[|]|[|]| |[|] mq eq]; simpl; try contradiction; intros _; try exact I.
  pose proof (binary_round_aux_sign false (Zpos (mq * m)) (eq + e) loc_Exact ltac:(lia))
    as H.
  destruct (binary_round_aux _ _ _ _ _ _) as [s|s| |s m' e']; try contradiction; subst;
    exact I.
Qed.

Lemma Math_round_nonnegative (y : Double.double) :
  Double.nonnegative y -> Double.nonnegative (Double.Math_round y).
Proof.
  destruct y as [s|s| |s m e]; intros H; try exact H.
  destruct s; [contradiction|]. unfold Double.Math_round.
  destruct (Z.leb_spec 0 e) as [He | He]; [exact I|].
  assert (Hd : (0 < 2 ^ (- e))%Z) by (apply Z.pow_pos_nonneg; lia).
  cbv zeta. cbn [cond_Zopp].
  match goal with |- context [(?n =? 0)%Z] =>
    assert (Hn : (0 <= n)%Z); [|destruct (n =? 0)%Z; [exact I | apply of_Z_nonnegative, Hn]]
  end.
  apply Z.div_pos; lia.
Qed.

Lemma nonnegative_leb (r : Double.double) :
  Double.nonnegative r -> SFleb Double.zero r = true.
Proof. destruct r as [[|]|[|]| |[|] m e]; simpl; try contradiction; reflexivity. Qed.

Lemma compare_cont_antisym (p q : positive) :
  Pos.compare_cont Eq p q = Gt -> Pos.compare_cont Eq q p = Lt.
Proof.
  intros H. pose proof (Pos.compare_cont_antisym p q Eq) as A. simpl in A.
  rewrite <- A, H. reflexivity.
Qed.

Lemma SFcompare_finite (ma m : positive) (ea e : Z) :
  SFcompare (S754_finite false ma ea) (S754_finite false m e)
  = Some match Z.compare ea e with
         | Lt => Lt
         | Gt => Gt
         | Eq => Pos.compare_cont Eq ma m
         end.
Proof. reflexivity. Qed.

Lemma Math_min_finite (ma m : positive) (ea e : Z) :
  let a := S754_finite false ma ea in
  let y := S754_finite false m e in
  (Double.Math_min a y = a \/ Double.Math_min a y = y)
  /\ SFleb (Double.Math_min a y) a = true.
Proof.
  cbv zeta. unfold Double.Math_min, SFleb. rewrite SFcompare_finite.
  destruct (Z.compare_spec ea e) as [<- | Hlt | Hgt].
  - destruct (Pos.compare_cont Eq ma m) eqn:Ec; rewrite SFcompare_finite, Z.compare_refl.
    + rewrite Pos.compare_cont_refl. auto.
    + rewrite Pos.compare_cont_refl. auto.
    + rewrite (compare_cont_antisym _ _ Ec). auto.
  - rewrite SFcompare_finite, Z.compare_refl, Pos.compare_cont_refl. auto.
  - rewrite SFcompare_finite. apply Z.compare_lt_iff in Hgt. rewrite Hgt. auto.
Qed.

(** Capping at 100 a number that is not negative gives a number from 0
    to 100. *)
Lemma Math_min_100_bounds (y : Double.double) :
  Double.nonnegative y ->
  Double.nonnegative (Double.Math_min (Double.of_Z 100) y)
  /\ SFleb (Double.Math_min (Double.of_Z 100) y) (Double.of_Z 100) = true.
Proof.
  change (Double.of_Z 100) with (S754_finite false 7036874417766400 (-46)).
  destruct y as [[|]|[|]| |[|] m e]; intros H; try contradiction;
    try (split; [exact I | reflexivity]).
  destruct (Math_min_finite 7036874417766400 m (-46) e) as [[E | E] Hle];
    split; try exact Hle; rewrite E; exact I.
Qed.

Lemma binary_round_not_nan (s : bool) (m : positive) (e : Z) :
  binary_round Double.prec Double.emax s m e <> S754_nan.
Proof.
  unfold binary_round. destruct (shl_align _ _ _) as [mz ez].
  pose proof (binary_round_aux_sign s (Zpos mz) ez loc_Exact ltac:(lia)) as H.
  destruct (binary_round_aux _ _ _ _ _ _); [discriminate | discriminate | contradiction
                                           | discriminate].
Qed.

Lemma binary_normalize_not_nan (m e : Z) (s : bool) :
  binary_normalize Double.prec Double.emax m e s <> S754_nan.
Proof.
  unfold binary_normalize. destruct m; [discriminate | |]; apply binary_round_not_nan.
Qed.

Lemma sub_not_nan (m : positive) (e : Z) (t : Double.double) :
  Double.nonnegative t -> Double.sub (S754_finite false m e) t <> S754_nan.
Proof.
  destruct t as [[|]|[|]| |[|] mt et]; simpl; try contradiction; intros _;
    try discriminate.
  apply binary_normalize_not_nan.
Qed.

Lemma Math_max_zero_nonneg (y : Double.double) :
  y <> S754_nan -> SFleb Double.zero (Double.Math_max Double.zero y) = true.
Proof.
  destruct y as [[|]|[|]| |[|] m e]; intros H; try reflexivity. contradiction.
Qed.

Lemma finite_budget_cases (b : Double.double) :
  SFleb Double.zero b = true -> Double.finite b = true ->
  (exists s, b = S754_zero s) \/ (exists m e, b = S754_finite false m e).
Proof.
  destruct b as [s|s| |[|] m e]; simpl; try discriminate; eauto.
Qed.

(** X16. For a project whose budget is a finite number not below zero
    and whose populated expenses carry amounts above zero, the status
    computed in binary64 arithmetic has totalSpent at least 0, percentage
    from 0 to 100 and remaining at least 0, none of them [NaN].  With a
    budget of zero, percentage and remaining are 0 and the project is not
    reported over budget, whatever is spent. *)
Theorem budgetStatus_binary64_bounds (b : Double.double) (xs : list Double.double) :
  SFleb Double.zero b = true ->
  Double.finite b = true ->
  Forall (fun x => SFltb Double.zero x = true) xs ->
  exists st,
    Double.budgetStatus {| Double.budget := b; Double.totalExpenses := Some (map Some xs) |}
    = Some st
    /\ SFleb Double.zero (Double.totalSpent st) = true
    /\ SFleb Double.zero (Double.percentage st) = true
    /\ SFleb (Double.percentage st) (Double.of_Z 100) = true
    /\ SFleb Double.zero (Double.remaining st) = true
    /\ (Double.truthy b = false ->
        Double.percentage st = Double.zero
        /\ Double.remaining st = Double.zero
        /\ Double.isOverBudget st = false).
Proof.
  intros Hb Hfin Hxs.
  assert (Htotal : Double.nonnegative (Double.sum xs)).
  { apply fold_add_nonnegative; [exact I | exact Hxs]. }
  unfold Double.budgetStatus. cbn [Double.totalExpenses Double.budget].
  rewrite (fold_populated xs Double.zero Hxs). fold (Double.sum xs).
  eexists. split; [reflexivity|].
  cbn [Double.totalSpent Double.percentage Double.remaining Double.isOverBudget].
  split; [apply nonnegative_leb, Htotal|].
  destruct (finite_budget_cases b Hb Hfin) as [(s & ->) | (m & e & ->)].
  - cbn [Double.truthy]. repeat split; reflexivity.
  - cbn [Double.truthy].
    destruct (Math_min_100_bounds
                (Double.Math_round
                   (Double.mul (Double.div (Double.sum xs) (S754_finite false m e))
                      (Double.of_Z 100)))) as [H0 H100].
    { apply Math_round_nonnegative.
      change (Double.of_Z 100) with (S754_finite false 7036874417766400 (-46)).
      apply mul_nonnegative, div_nonnegative, Htotal. }
    split; [apply nonnegative_leb, H0|]. split; [exact H100|].
    split; [apply Math_max_zero_nonneg, sub_not_nan, Htotal|]. discriminate.
Qed.

(** ** The counts of the summary *)

Lemma counts_add_to_groups (e : Expense.t) (gs : list Expense.group) :
  list_sum (map Expense.count (Expense.add_to_groups e gs))
  = S (list_sum (map Expense.count gs)).
Proof.
  induction gs as [|g gs IH]; simpl; [reflexivity|].
  destruct (String.eqb (Expense.g_id g) (Expense.category e)); simpl.
  - reflexivity.
  - rewrite IH. lia.
Qed.

Lemma counts_fold (es : list Expense.t) (gs : list Expense.group) :
  list_sum (map Expense.count (fold_left (fun gs e => Expense.add_to_groups e gs) es gs))
  = (list_sum (map Expense.count gs) + List.length es)%nat.
Proof.
  revert gs. induction es as [|e es IH]; intros gs; simpl; [lia|].
  rewrite IH, counts_add_to_groups. lia.
Qed.

Lemma list_sum_perm (xs ys : list nat) : Permutation xs ys -> list_sum xs = list_sum ys.
Proof.
  induction 1 as [|x xs ys _ IH|x y xs|xs ys zs _ IH1 _ IH2]; simpl; lia.
Qed.

(** X17. For a caller with access to the project, the summary changes
    nothing and its counts add up to the number of the expenses of the
    project: every expense is counted in exactly one category. *)
Theorem summary_counts_add_up (user pid : ObjectId) (s : Store) (p : Project.t) :
  List.find (can_access user pid) (projects s) = Some p ->
  exists rows,
    expense_routes.summary user pid s = (json_data 200 (Summary rows), s)
    /\ list_sum (map Expense.count rows)
       = List.length (List.filter (of_project pid) (expenses s)).
Proof.
  intros Hfind.
  assert (Hid : Project._id p = pid).
  { apply find_some in Hfind. destruct Hfind as [_ H]. unfold can_access in H.
    apply andb_true_iff in H. destruct H as [H _]. apply Nat.eqb_eq, H. }
  unfold expense_routes.summary, try_catch, bind, Project_findOne, Expense_aggregate.
  fold (can_access user pid). cbn -[sort_by can_access]. rewrite Hfind.
  cbn -[sort_by]. rewrite Hid.
  eexists. split; [reflexivity|].
  set (es := List.filter (of_project pid) (expenses s)).
  rewrite <- (list_sum_perm _ _
                (Permutation_map Expense.count
                   (sort_by_perm Expense.total_desc (Expense.group_by_category es)))).
  unfold Expense.group_by_category. rewrite counts_fold. reflexivity.
Qed.

(** ** The projects page

    The page receives each project as the API serialises it, virtuals
    included, so with [budgetStatus] as the getter computes it. *)


Lemma or_zero_eq (q : Q) : or_zero (Some q) == q.
Proof. apply or_zero_Some. Qed.


(** *** Trimming twice is trimming once *)

Section Strip.

Variable w1 : ascii -> bool.
Variable w2 : ascii -> ascii -> bool.
Variable w3 : ascii -> ascii -> ascii -> bool.

(** What [strip] returns is the end of its argument, and has no white
    space at its head. *)
Lemma strip_spec (n : nat) :
  forall l, (List.length l <= n)%nat ->
    headless w1 w2 w3 (strip w1 w2 w3 l) /\ exists p, l = p ++ strip w1 w2 w3 l.
Proof.
  induction n as [|n IH]; intros l Hl.
  - destruct l; [|simpl in Hl; lia]. split; [exact I | exists []; reflexivity].
  - destruct l as [|a l1]; [split; [exact I | exists []; reflexivity]|].
    simpl in Hl. cbn [strip]. destruct (w1 a) eqn:E1.
    { destruct (IH l1 ltac:(lia)) as [H (p & Hp)].
      split; [exact H|]. exists (a :: p). simpl. congruence. }
    destruct l1 as [|b l2].
    { split; [simpl; auto | exists []; reflexivity]. }
    simpl in Hl. destruct (w2 a b) eqn:E2.
    { destruct (IH l2 ltac:(lia)) as [H (p & Hp)].
      split; [exact H|]. exists (a :: b :: p). simpl. congruence. }
    destruct l2 as [|c l3].
    { split; [simpl; auto | exists []; reflexivity]. }
    simpl in Hl. destruct (w3 a b c) eqn:E3.
    { destruct (IH l3 ltac:(lia)) as [H (p & Hp)].
      split; [exact H|]. exists (a :: b :: c :: p). simpl. congruence. }
    split; [simpl; auto | exists []; reflexivity].
Qed.

Lemma strip_headless (l : list ascii) : headless w1 w2 w3 (strip w1 w2 w3 l).
Proof. apply (strip_spec (List.length l) l), le_n. Qed.

Lemma strip_suffix (l : list ascii) : exists p, l = p ++ strip w1 w2 w3 l.
Proof. apply (strip_spec (List.length l) l), le_n. Qed.

Lemma strip_of_headless (l : list ascii) : headless w1 w2 w3 l -> strip w1 w2 w3 l = l.
Proof.
  destruct l as [|a [|b [|c l]]]; simpl; try reflexivity.
  - intros [-> _]. reflexivity.
  - intros [-> [-> _]]. reflexivity.
  - intros [-> [-> ->]]. reflexivity.
Qed.

End Strip.

Lemma headless_prefix (p x : list ascii) :
  headless white1 white2 white3 (p ++ x) -> headless white1 white2 white3 p.
Proof.
  destruct p as [|a [|b [|c p]]]; simpl; auto.
  - intros H. split; [|exact I]. destruct x; apply H.
  - intros (H1 & H2 & H3). split; [exact H1|]. split; [exact H2 | exact I].
Qed.

Lemma trim_bytes_idempotent (l : list ascii) : trim_bytes (trim_bytes l) = trim_bytes l.
Proof.
  unfold trim_bytes.
  set (m := stripStart l). set (r := stripEnd (rev m)).
  assert (Hm : headless white1 white2 white3 m) by apply strip_headless.
  assert (Hr : headless white1 (fun b a => white2 a b) (fun c b a => white3 a b c) r)
    by apply strip_headless.
  destruct (strip_suffix white1 (fun b a => white2 a b) (fun c b a => white3 a b c) (rev m))
    as (p & Hp). fold stripEnd in Hp. fold r in Hp.
  assert (Hmr : m = rev r ++ rev p).
  { rewrite <- rev_app_distr, <- Hp, rev_involutive. reflexivity. }
  rewrite Hmr in Hm. apply headless_prefix in Hm.
  unfold stripStart at 1. rewrite (strip_of_headless _ _ _ _ Hm), rev_involutive.
  unfold stripEnd at 1. rewrite (strip_of_headless _ _ _ _ Hr). reflexivity.
Qed.

Lemma trim_idempotent (s : string) : trim (trim s) = trim s.
Proof.
  unfold trim. rewrite list_ascii_of_string_of_list_ascii, trim_bytes_idempotent.
  reflexivity.
Qed.

(** X20. Whatever the creation form posts, the API accepts.  When the form
    passes its own checks (a name that is not blank, a budget text that
    converts to a finite number above zero), the payload it sends is
    answered with 201 in any store, and the project is stored with the
    trimmed name, that budget and the caller as owner and only member.
    When a check fails, nothing is sent. *)
Theorem form_payload_accepted (Number : string -> Home.converted)
    (v : Home.createValues) (body : project_routes.CreateBody)
    (user : ObjectId) (now : Date) (s : Store) :
  Home.handleCreateProject Number v = inr body ->
  exists q p,
    Number (Home.budget v) = Home.Finite q /\ 0 < q
    /\ status (fst (project_routes.create_project user now body s)) = 201%nat
    /\ projects (snd (project_routes.create_project user now body s)) = projects s ++ [p]
    /\ Project.name p = trim (Home.name v)
    /\ Project.name p <> EmptyString
    /\ Project.budget p = q
    /\ Project.createdBy p = user
    /\ Project.members p = [user].
Proof.
  unfold Home.handleCreateProject.
  destruct (negb (nonempty (trim (Home.name v))) || negb (nonempty (Home.budget v)))
    eqn:Eg; [discriminate|].
  apply orb_false_iff in Eg. destruct Eg as [En _]. apply negb_false_iff in En.
  destruct (Number (Home.budget v)) as [q|]; [|discriminate].
  destruct (Qle_bool q 0) eqn:Eq; [discriminate|].
  intros [= <-].
  assert (Hq : 0 < q).
  { apply Qnot_le_lt. intros H. apply Qle_bool_iff in H. congruence. }
  rewrite create_project_cases. cbn [project_routes.name project_routes.budget].
  assert (Hf : falsy_string (Some (trim (Home.name v))) = false).
  { destruct (trim (Home.name v)); [discriminate En | reflexivity]. }
  rewrite Hf. cbn [is_undefined orb].
  match goal with
  | |- context [Project.validate ?i] =>
      assert (Hv : Project.validate i = true)
  end.
  { unfold Project.validate, project_init, Project.valid_name. simpl.
    rewrite trim_idempotent, En. simpl. apply Qle_bool_iff, Qlt_le_weak, Hq. }
  rewrite Hv. cbv zeta. cbn [fst snd status projects set_projects].
  exists q. eexists. split; [reflexivity|]. split; [exact Hq|].
  split; [reflexivity|]. split; [reflexivity|]. simpl.
  rewrite trim_idempotent. repeat split.
  destruct (trim (Home.name v)); [discriminate En | discriminate].
Qed.

(** ** The further properties at concrete inputs *)

Lemma busy_reachable : reachable includes_eq busy_store.
Proof.
  apply (reachable_step includes_eq _ 7%nat 22%Z
           (POST_expenses (expense_body 400 "design" 1%nat))).
  apply (reachable_step includes_eq _ 8%nat 21%Z
           (POST_expenses (expense_body 100 "design" 1%nat))).
  apply (reachable_step includes_eq _ 8%nat 20%Z
           (POST_expenses (expense_body 250 "hr" 1%nat))).
  apply (reachable_step includes_eq _ 7%nat 12%Z
           (POST_project_members 1%nat (project_routes.mkMemberBody (Some 9%nat)))).
  apply (reachable_step includes_eq _ 7%nat 11%Z
           (POST_project_members 1%nat (project_routes.mkMemberBody (Some 8%nat)))).
  apply (reachable_step includes_eq _ 7%nat 10%Z (POST_projects (project_body "P" 1000))).
  apply reachable_empty.
Qed.

Lemma reachable_documents_valid_witness :
  0 <= Project.budget busy_project /\ Project.name busy_project <> EmptyString.
Proof.
  destruct (reachable_documents_valid includes_eq busy_store busy_reachable) as [H _].
  apply H. left. reflexivity.
Defined.

Lemma get_project_access_witness :
  status (fst (project_routes.get_project 9%nat 1%nat busy_store)) = 200%nat
  /\ fst (project_routes.get_project 5%nat 1%nat busy_store)
     = json_error 404 "Project not found".
Proof.
  split.
  - apply (get_project_access 9%nat 1%nat busy_store).
    exists busy_project. split; [left; reflexivity|]. split; [reflexivity|].
    right. simpl. auto.
  - apply (get_project_access 5%nat 1%nat busy_store). discriminate.
Defined.

Lemma list_projects_accessible_sorted_witness :
  exists docs,
    project_routes.list_projects 8%nat busy_store = (json_data 200 (Projects docs), busy_store)
    /\ map Project.fields docs = [busy_project].
Proof.
  destruct (list_projects_accessible_sorted 8%nat busy_store)
    as (docs & Hresp & Hperm & _).
  exists docs. split; [exact Hresp|].
  apply Permutation_sym, Permutation_length_1_inv in Hperm. exact Hperm.
Defined.

Lemma list_expenses_access_sorted_witness :
  fst (expense_routes.list_expenses 5%nat 1%nat busy_store)
  = json_error 404 "Project not found or access denied"
  /\ exists es,
       fst (expense_routes.list_expenses 9%nat 1%nat busy_store) = json_data 200 (Expenses es)
       /\ StronglySorted dated_not_before es.
Proof.
  split.
  - apply (list_expenses_access_sorted 5%nat 1%nat busy_store).
    intros (p & [<- | []] & _ & [H | H]); [discriminate|].
    simpl in H. intuition discriminate.
  - destruct (list_expenses_access_sorted 9%nat 1%nat busy_store) as (_ & _ & H).
    destruct H as (es & Hresp & _ & _ & Hsorted).
    + exists busy_project. split; [left; reflexivity|]. split; [reflexivity|].
      right. simpl. auto.
    + exists es. split; assumption.
Defined.

Lemma add_member_outcome_witness :
  status (fst (project_routes.add_member 7%nat 30%Z 1%nat
                 (project_routes.mkMemberBody (Some 10%nat)) busy_store)) = 200%nat
  /\ fst (project_routes.add_member 7%nat 30%Z 1%nat
            (project_routes.mkMemberBody (Some 8%nat)) busy_store)
     = json_error 404 "Project not found, not authorized, or user already a member".
Proof.
  split.
  - apply (add_member_outcome 7%nat 30%Z 1%nat 10%nat busy_store).
    exists busy_project. split; [left; reflexivity|]. split; [reflexivity|].
    split; [reflexivity|]. simpl. intuition discriminate.
  - apply (add_member_outcome 7%nat 30%Z 1%nat 8%nat busy_store). discriminate.
Defined.

Lemma update_project_outcome_witness :
  fst (project_routes.update_project includes_eq 8%nat 30%Z 1%nat (rename_update "Q")
         busy_store)
  = json_error 404 "Project not found or not authorized"
  /\ fst (project_routes.update_project includes_eq 7%nat 30%Z 1%nat (rename_update nbsp)
            busy_store)
     = json_error 500 "Failed to update project".
Proof.
  split.
  - apply (update_project_outcome includes_eq 8%nat 30%Z 1%nat (rename_update "Q")
             busy_store); [reflexivity|].
    intros (p & [<- | []] & _ & H). discriminate.
  - apply (update_project_outcome includes_eq 7%nat 30%Z 1%nat (rename_update nbsp)
             busy_store). reflexivity.
Defined.

Lemma update_expense_outcome_witness :
  projects (snd (expense_routes.update_expense 8%nat 30%Z 2%nat (amount_update 300)
                   busy_store))
  = projects busy_store.
Proof.
  apply (update_expense_outcome 8%nat 30%Z 2%nat (amount_update 300) busy_store).
Defined.

Lemma create_project_success_witness :
  fst (project_routes.create_project 8%nat 40%Z dated_body busy_store)
  = json_data 201
      (AProject
         (unpopulated
            {| Project._id := 5%nat; Project.name := "Site"%string;
               Project.description := None; Project.budget := 50;
               Project.startDate := 40%Z; Project.endDate := Some 0%Z;
               Project.createdBy := 8%nat; Project.members := [8%nat];
               Project.createdAt := 40%Z; Project.updatedAt := 40%Z |})).
Proof.
  destruct (create_project_success 8%nat 40%Z dated_body busy_store
              (nbsp ++ " Site " ++ nbsp)%string 50) as (H & _).
  - simpl. intros [H | []]. discriminate.
  - reflexivity.
  - reflexivity.
  - reflexivity.
  - discriminate.
  - exact H.
Defined.

Lemma create_expense_success_witness :
  spent_on (snd (expense_routes.create_expense 9%nat 40%Z (expense_body 30 "other" 1%nat)
                   busy_store)) 1%nat
  == spent_on busy_store 1%nat + 30
  /\ expense_routes.create_expense 5%nat 40%Z (expense_body 30 "other" 1%nat) busy_store
     = (json_error 404 "Project not found or access denied", busy_store).
Proof.
  split.
  - apply (create_expense_success 9%nat 40%Z (expense_body 30 "other" 1%nat) busy_store
             "item"%string "other"%string 30 1%nat); try reflexivity.
    + discriminate.
    + simpl. auto 10.
    + exists busy_project. split; [left; reflexivity|]. split; [reflexivity|].
      right. simpl. auto.
  - apply (create_expense_success 5%nat 40%Z (expense_body 30 "other" 1%nat) busy_store
             "item"%string "other"%string 30 1%nat); try reflexivity.
    + discriminate.
    + simpl. auto 10.
    + intros (p & [<- | []] & _ & [H | H]); [discriminate|].
      simpl in H. intuition discriminate.
Defined.

Lemma delete_project_frame_witness :
  List.find (has_id 1%nat)
    (projects (snd (project_routes.delete_project 7%nat 1%nat busy_store))) = None
  /\ nextId (snd (project_routes.delete_project 7%nat 1%nat busy_store)) = 5%nat.
Proof.
  destruct (delete_project_frame 7%nat 1%nat busy_store) as (_ & H & _ & _ & _ & Hn).
  - repeat constructor. intros [].
  - reflexivity.
  - split; [exact H | exact Hn].
Defined.

Lemma delete_expense_frame_witness :
  fst (expense_routes.delete_expense 8%nat 3%nat
         (snd (expense_routes.delete_expense 8%nat 3%nat busy_store)))
  = json_error 404 "Expense not found".
Proof.
  destruct (delete_expense_frame 8%nat 3%nat busy_store)
    as (e & l1 & l2 & _ & _ & _ & _ & H & _).
  - repeat constructor; simpl; intuition discriminate.
  - reflexivity.
  - exact H.
Defined.

Lemma member_gains_access_witness :
  status (fst (project_routes.get_project 10%nat 1%nat busy_store)) = 404%nat
  /\ status (fst (project_routes.get_project 10%nat 1%nat
                    (snd (project_routes.add_member 7%nat 30%Z 1%nat
                            (project_routes.mkMemberBody (Some 10%nat)) busy_store))))
     = 200%nat.
Proof.
  split; [reflexivity|].
  apply (member_gains_access 7%nat 30%Z 1%nat 10%nat busy_store). reflexivity.
Defined.

Lemma outsider_changes_nothing_witness :
  expenses (snd (handle includes_eq 5%nat 40%Z (DELETE_expense 2%nat) busy_store))
  = expenses busy_store.
Proof.
  apply (outsider_changes_nothing includes_eq 5%nat 40%Z (DELETE_expense 2%nat) busy_store).
  split.
  - intros p [<- | []] [H | H]; [discriminate|]. simpl in H. intuition discriminate.
  - intros e [<- | [<- | [<- | []]]]; discriminate.
Defined.

Lemma references_are_immutable_witness :
  exists p',
    projects (snd (handle includes_eq 7%nat 40%Z
                     (PUT_project 1%nat (members_update [8%nat])) busy_store)) = [p']
    /\ Project.createdBy p' = 7%nat.
Proof.
  eexists. split; [reflexivity|].
  destruct (references_are_immutable includes_eq 7%nat 40%Z
              (PUT_project 1%nat (members_update [8%nat])) busy_store) as [H _].
  destruct (H _ (or_introl eq_refl)) as [(_ & Hc & _) | (p & [<- | []] & _ & Hc & _)];
    exact Hc.
Defined.


Lemma budgetStatus_binary64_bounds_witness :
  exists st,
    Double.budgetStatus
      {| Double.budget := Double.of_Z 1000;
         Double.totalExpenses := Some [Some (Double.of_Z 700); Some (Double.of_Z 700)] |}
    = Some st
    /\ SFleb (Double.percentage st) (Double.of_Z 100) = true
    /\ SFleb Double.zero (Double.remaining st) = true.
Proof.
  destruct (budgetStatus_binary64_bounds (Double.of_Z 1000)
              [Double.of_Z 700; Double.of_Z 700])
    as (st & Hst & _ & _ & Hp & Hr & _).
  - reflexivity.
  - reflexivity.
  - repeat constructor.
  - exists st. split; [exact Hst|]. split; [exact Hp | exact Hr].
Defined.

Lemma summary_counts_add_up_witness :
  exists rows,
    fst (expense_routes.summary 9%nat 1%nat busy_store) = json_data 200 (Summary rows)
    /\ list_sum (map Expense.count rows) = 3%nat.
Proof.
  destruct (summary_counts_add_up 9%nat 1%nat busy_store busy_project)
    as (rows & Hresp & Hsum).
  - reflexivity.
  - exists rows. split; [rewrite Hresp; reflexivity | exact Hsum].
Defined.

Lemma form_payload_accepted_witness :
  status (fst (project_routes.create_project 7%nat 10%Z
                 (project_body "Launch" 1000) empty_store)) = 201%nat.
Proof.
  destruct (form_payload_accepted Number_of_1000
              (Home.mkCreateValues (nbsp ++ "Launch ") "1000" "")
              (project_body "Launch" 1000) 7%nat 10%Z empty_store)
    as (q & p & _ & _ & H & _).
  - reflexivity.
  - exact H.
Defined.
